(** * FileConverter: the wire protocol of [server.py] and [client.py]

    A shallow embedding of the connection handler
    ([ConversionServer.handle_client]) and of the client session
    ([ConversionClient.send_request]), with the Python builtins they call,
    followed by the properties of the framing layer.

    Modelling conventions.
    - A Python [int] is a [Z]; [bytes] is a [list byte]; a Python [str] is the
      list of its code points, so that [len] of a [str] and [len] of its
      UTF-8 encoding are different quantities, as they are in Python.
    - A socket is the queue of segments still to be received, the list of
      [send] calls made so far and the number of [send] calls the peer will
      still accept.  [recv n] returns at most [n] bytes of the first pending
      segment, and the empty byte string once the peer has closed.
    - The file system is a finite map from (normalised) paths to contents.
    - The image and PDF libraries, [int()], [tempfile], the clock and the
      refusals of [open] are given by a [world] record of oracles.
    - Statements of the source run in a state-and-exception monad; the
      two [while] loops take fuel, supplied from the length of the stream. *)

From Stdlib Require Import ZArith Lia Strings.Byte.
From stdpp Require Import base option list gmap strings.

Open Scope Z_scope.

(** ** Bytes and integers *)

Abbreviation bytes := (list byte).

Definition byte_of_Z (z : Z) : byte :=
  match Byte.of_N (Z.to_N z) with
  | Some b => b
  | None => x00
  end.

Definition Z_of_byte (b : byte) : Z := Z.of_N (Byte.to_N b).

(** [len(x)] *)
Definition len {A} (l : list A) : Z := Z.of_nat (length l).

(** ** Strings *)

Abbreviation pystr := (list Z).

(** A literal of the source, as the list of its code points. *)
Fixpoint lit (s : string) : pystr :=
  match s with
  | EmptyString => []
  | String a s' => Z.of_N (Ascii.N_of_ascii a) :: lit s'
  end.

Definition is_ascii (s : pystr) : Prop := Forall (fun c => 0 <= c < 128) s.

(** ** Exceptions and results *)

Inductive exn_kind :=
  | ValueError | ConnectionError | OverflowError | UnicodeError
  | OSError | RuntimeError | FileNotFoundError | LibraryError.

(** An exception with [str(e)]. *)
Record exn := Exn { exn_kind_of : exn_kind; exn_str : pystr }.

Inductive res (A : Type) :=
  | Ok (a : A)
  | Raise (e : exn)
  | OutOfFuel.
Arguments Ok {A} a.
Arguments Raise {A} e.
Arguments OutOfFuel {A}.

(** [int.to_bytes(n, k, 'big')] *)
Fixpoint be_bytes (k : nat) (n : Z) : bytes :=
  match k with
  | O => []
  | S k' => byte_of_Z ((n / 256 ^ Z.of_nat k') mod 256) :: be_bytes k' n
  end.

Definition to_bytes (k : nat) (n : Z) : res bytes :=
  if n <? 0 then
    Raise (Exn OverflowError (lit "can't convert negative int to unsigned"))
  else if 256 ^ Z.of_nat k <=? n then
    Raise (Exn OverflowError (lit "int too big to convert"))
  else Ok (be_bytes k n).

(** [int.from_bytes(bs, 'big')] *)
Definition from_bytes (bs : bytes) : Z :=
  fold_left (fun acc b => acc * 256 + Z_of_byte b) bs 0.

(** ** [str] builtins *)

(** [s.split(sep)] for a one-character separator. *)
Fixpoint split_on (sep : Z) (s : pystr) : list pystr :=
  match s with
  | [] => [[]]
  | c :: s' =>
      if c =? sep then [] :: split_on sep s'
      else match split_on sep s' with
           | p :: ps => (c :: p) :: ps
           | [] => [[c]]
           end
  end.

(** [s.startswith(prefix)] *)
Fixpoint startswith (prefix s : pystr) : bool :=
  match prefix, s with
  | [], _ => true
  | _ :: _, [] => false
  | a :: prefix', b :: s' => (a =? b) && startswith prefix' s'
  end.

(** [str(n)] for an [int]. *)
Fixpoint digits (fuel : nat) (n : Z) (acc : pystr) : pystr :=
  let acc' := (48 + n mod 10) :: acc in
  match fuel with
  | O => acc'
  | S fuel' => if n <? 10 then acc' else digits fuel' (n / 10) acc'
  end.

Definition str_of_int (n : Z) : pystr :=
  if n <? 0 then 45 :: digits (Z.to_nat (Z.log2 (- n))) (- n) []
  else digits (Z.to_nat (Z.log2 n)) n [].

(** [s.encode()]: UTF-8; lone surrogates are refused. *)
Definition encode_char (c : Z) : option bytes :=
  if c <? 0 then None
  else if c <? 128 then Some [byte_of_Z c]
  else if c <? 2048 then
    Some [byte_of_Z (192 + c / 64); byte_of_Z (128 + c mod 64)]
  else if c <? 65536 then
    if (55296 <=? c) && (c <? 57344) then None
    else Some [byte_of_Z (224 + c / 4096);
               byte_of_Z (128 + (c / 64) mod 64);
               byte_of_Z (128 + c mod 64)]
  else if c <? 1114112 then
    Some [byte_of_Z (240 + c / 262144);
          byte_of_Z (128 + (c / 4096) mod 64);
          byte_of_Z (128 + (c / 64) mod 64);
          byte_of_Z (128 + c mod 64)]
  else None.

Fixpoint encode_chars (s : pystr) : option bytes :=
  match s with
  | [] => Some []
  | c :: s' =>
      match encode_char c, encode_chars s' with
      | Some b, Some bs => Some (b ++ bs)
      | _, _ => None
      end
  end.

Definition encode (s : pystr) : res bytes :=
  match encode_chars s with
  | Some bs => Ok bs
  | None =>
      Raise (Exn UnicodeError (lit "'utf-8' codec can't encode character"))
  end.

(** [bs.decode()]: strict UTF-8 (no overlong forms, no surrogates, nothing
    above U+10FFFF). *)
Definition is_cont (b : byte) : bool :=
  (128 <=? Z_of_byte b) && (Z_of_byte b <? 192).

Definition between (lo hi : Z) (b : byte) : bool :=
  (lo <=? Z_of_byte b) && (Z_of_byte b <=? hi).

Fixpoint decode_chars (bs : bytes) : option pystr :=
  match bs with
  | [] => Some []
  | b0 :: r0 =>
      let z0 := Z_of_byte b0 in
      if z0 <? 128 then cons z0 <$> decode_chars r0
      else if z0 <? 194 then None
      else if z0 <? 224 then
        match r0 with
        | b1 :: r1 =>
            if is_cont b1 then
              cons ((z0 - 192) * 64 + (Z_of_byte b1 - 128)) <$> decode_chars r1
            else None
        | _ => None
        end
      else if z0 <? 240 then
        match r0 with
        | b1 :: b2 :: r2 =>
            if between (if z0 =? 224 then 160 else 128)
                       (if z0 =? 237 then 159 else 191) b1 && is_cont b2
            then cons ((z0 - 224) * 4096 + (Z_of_byte b1 - 128) * 64
                       + (Z_of_byte b2 - 128)) <$> decode_chars r2
            else None
        | _ => None
        end
      else if z0 <? 245 then
        match r0 with
        | b1 :: b2 :: b3 :: r3 =>
            if between (if z0 =? 240 then 144 else 128)
                       (if z0 =? 244 then 143 else 191) b1
               && is_cont b2 && is_cont b3
            then cons ((z0 - 240) * 262144 + (Z_of_byte b1 - 128) * 4096
                       + (Z_of_byte b2 - 128) * 64 + (Z_of_byte b3 - 128))
                   <$> decode_chars r3
            else None
        | _ => None
        end
      else None
  end.

Definition decode (decode_msg : bytes -> pystr) (bs : bytes) : res pystr :=
  match decode_chars bs with
  | Some s => Ok s
  | None => Raise (Exn UnicodeError (decode_msg bs))
  end.

(** ** Paths ([posixpath]) *)

(** [s.rfind(c)]: the last index of [c] in [s], or -1. *)
Fixpoint rfind_from (i : Z) (c : Z) (s : pystr) (best : Z) : Z :=
  match s with
  | [] => best
  | x :: s' => rfind_from (i + 1) c s' (if x =? c then i else best)
  end.

Definition rfind (c : Z) (s : pystr) : Z := rfind_from 0 c s (-1).

(** [os.path.basename(p)]: [p[p.rfind('/') + 1:]] *)
Definition basename (p : pystr) : pystr :=
  drop (Z.to_nat (rfind 47 p + 1)) p.

(** [os.path.join(a, b)] *)
Definition join (a b : pystr) : pystr :=
  if startswith [47] b then b
  else if bool_decide (a = []) || bool_decide (last a = Some 47) then a ++ b
  else a ++ [47] ++ b.

(** [os.path.splitext(p)] *)
Definition splitext (p : pystr) : pystr * pystr :=
  let sepIndex := rfind 47 p in
  let dotIndex := rfind 46 p in
  if (sepIndex <? dotIndex)
     && existsb (fun x => negb (x =? 46))
          (take (Z.to_nat (dotIndex - (sepIndex + 1)))
                (drop (Z.to_nat (sepIndex + 1)) p))
  then (take (Z.to_nat dotIndex) p, drop (Z.to_nat dotIndex) p)
  else (p, []).

(** [os.path.normpath(p)], which is how the file system resolves a path in
    the absence of symbolic links.  [norm_comps] is the loop over the
    components, with [new_comps] kept in reverse. *)
Fixpoint norm_comps (absolute : bool) (comps new_comps : list pystr)
  : list pystr :=
  match comps with
  | [] => rev new_comps
  | comp :: comps' =>
      if bool_decide (comp = []) || bool_decide (comp = [46]) then
        norm_comps absolute comps' new_comps
      else if negb (bool_decide (comp = [46; 46]))
              || (negb absolute && bool_decide (new_comps = []))
              || bool_decide (head new_comps = Some [46; 46])
      then norm_comps absolute comps' (comp :: new_comps)
      else norm_comps absolute comps' (tail new_comps)
  end.

Fixpoint join_with (sep : Z) (l : list pystr) : pystr :=
  match l with
  | [] => []
  | [x] => x
  | x :: l' => x ++ sep :: join_with sep l'
  end.

Definition normpath (p : pystr) : pystr :=
  if bool_decide (p = []) then [46]
  else
    let initial_slashes : nat :=
      if startswith [47] p then
        if startswith [47; 47] p && negb (startswith [47; 47; 47] p)
        then 2%nat else 1%nat
      else 0%nat in
    let comps := norm_comps (negb (Nat.eqb initial_slashes 0))
                            (split_on 47 p) [] in
    let path := replicate initial_slashes 47 ++ join_with 47 comps in
    if bool_decide (path = []) then [46] else path.

(** [p] names something strictly below the directory [dir], by the normal
    forms of the two paths.  [normpath] keeps two leading slashes, so a path
    that begins with exactly two is compared as it is, though Linux resolves
    it as with one: on such a path [inside] can answer otherwise than the
    file system does. *)
Definition inside (dir p : pystr) : bool :=
  let d := normpath dir in
  let q := normpath p in
  startswith (if bool_decide (last d = Some 47) then d else d ++ [47]) q
  && negb (bool_decide (q = d)).

(** ** The clock *)

Record datetime := Datetime {
  year : Z; month : Z; day : Z;
  hour : Z; minute : Z; second : Z; microsecond : Z }.

Definition pad2 (n : Z) : pystr :=
  if n <? 10 then 48 :: str_of_int n else str_of_int n.

(** [dt.strftime("%Y%m%d_%H%M%S")], for the four-digit years of a clock. *)
Definition strftime (dt : datetime) : pystr :=
  str_of_int (year dt) ++ pad2 (month dt) ++ pad2 (day dt) ++ [95]
  ++ pad2 (hour dt) ++ pad2 (minute dt) ++ pad2 (second dt).

(** ** Connections, the file system and the monad of statements *)

(** The statement of the source that made a [send]. *)
Inductive part :=
  | ReqLen | ReqMeta | ReqChunk
  | NameLen | Name | Size | Chunk | Terminator
  | ErrLen | ErrMsg.

#[global] Instance part_eq_dec : EqDecision part.
Proof. solve_decision. Defined.

Record state := State {
  inq : list bytes;               (* segments the peer has still to deliver *)
  sent : list (part * bytes);     (* the [send] calls made, oldest first *)
  credit : option nat;            (* [Some k]: the peer is gone after k sends *)
  fs : gmap pystr bytes           (* regular files, by normalised path *)
}.

Definition M (A : Type) : Type := state -> res A * state.

Definition ret {A} (a : A) : M A := fun st => (Ok a, st).

Definition bind {A B} (m : M A) (k : A -> M B) : M B :=
  fun st =>
    match m st with
    | (Ok a, st') => k a st'
    | (Raise e, st') => (Raise e, st')
    | (OutOfFuel, st') => (OutOfFuel, st')
    end.

Notation "'let!' x ':=' m 'in' k" := (bind m (fun x => k))
  (at level 10, x name, m at level 100, k at level 200).
Notation "'do!' m 'in' k" := (bind m (fun _ => k))
  (at level 10, m at level 100, k at level 200).

Definition raise {A} (e : exn) : M A := fun st => (Raise e, st).

Definition lift {A} (r : res A) : M A := fun st => (r, st).

(** [try: m  except: pass] *)
Definition try_pass (m : M unit) : M unit :=
  fun st =>
    match m st with
    | (Raise _, st') => (Ok tt, st')
    | r => r
    end.

(** The bytes still to come on a connection. *)
Definition stream (q : list bytes) : bytes := concat q.

(** [conn.recv(n)] on the pending segments: at most [n] bytes, from one
    segment; [b''] when nothing is left, which is how a closed stream
    reads.  The pending segments are all that the peer sends before it
    closes.  A peer that stays connected and sends nothing, on which
    [conn.recv] blocks (the server sets no timeout, the client one of 60
    seconds), has no state here: the statements below are about the calls
    that return. *)
Fixpoint take_seg (n : nat) (q : list bytes) : bytes * list bytes :=
  match q with
  | [] => ([], [])
  | seg :: rest =>
      match seg with
      | [] => take_seg n rest
      | _ :: _ =>
          (take n seg,
           match drop n seg with
           | [] => rest
           | b :: over => (b :: over) :: rest
           end)
      end
  end.

Definition recv (n : Z) : M bytes :=
  fun st =>
    let '(data, q) := take_seg (Z.to_nat n) (inq st) in
    (Ok data, State q (sent st) (credit st) (fs st)).

(** [conn.send(data)]; it raises once the peer is gone. *)
Definition send (p : part) (data : bytes) : M unit :=
  fun st =>
    match credit st with
    | Some O => (Raise (Exn OSError (lit "[Errno 32] Broken pipe")), st)
    | Some (S k) =>
        (Ok tt, State (inq st) (sent st ++ [(p, data)]) (Some k) (fs st))
    | None => (Ok tt, State (inq st) (sent st ++ [(p, data)]) None (fs st))
    end.

(** What the peer receives: every [send] arrives as one segment.  This is
    how TLS delivers a [send] of at most 16384 bytes, in one record.  A
    longer [send] arrives in several records, of which one [recv] returns
    the first only: beyond that size [deliver] describes a transport that
    keeps each [send] whole. *)
Definition deliver (s : list (part * bytes)) : list bytes := map snd s.

(** ** The world outside the program *)

Record world := World {
  w_int : pystr -> pystr + Z;            (* [int(s)]: the value, or the
                                            text of the [ValueError] *)
  w_decode_msg : bytes -> pystr;         (* text of a [UnicodeDecodeError] *)
  w_enoent : pystr -> pystr;             (* text of a [FileNotFoundError] *)
  w_open_wb : pystr -> option pystr;     (* [open(p, 'wb')] refused, with
                                            the text of the [OSError] *)
  w_temp_dir : pystr;                    (* [tempfile.TemporaryDirectory()] *)
  w_cwd : pystr;                         (* [os.getcwd()] *)
  w_now : datetime;                      (* [datetime.now()] *)
  (* the libraries, on the content of the input file (if it exists): the
     bytes they write, or the text of the exception they raise *)
  w_fitz_pages : option bytes -> pystr + list bytes;
  w_pil_jpg : option bytes -> pystr + bytes;
  w_pil_png : option bytes -> pystr + bytes;
  w_cv_gray : option bytes -> pystr + bytes;
  w_cv_resize : option bytes -> Z -> Z -> pystr + bytes
}.

Definition py_int (w : world) (s : pystr) : M Z :=
  match w_int w s with
  | inl msg => raise (Exn ValueError msg)
  | inr z => ret z
  end.

Definition library {A} (r : pystr + A) : M A :=
  match r with
  | inl msg => raise (Exn LibraryError msg)
  | inr a => ret a
  end.

(** ** Files *)

(** [os.path.exists(p)] *)
Definition exists_file (p : pystr) : M bool :=
  fun st => (Ok (bool_decide (is_Some (fs st !! normpath p))), st).

(** The content of a file, for a library that opens it. *)
Definition peek (p : pystr) : M (option bytes) :=
  fun st => (Ok (fs st !! normpath p), st).

(** [open(p, 'rb').read()], and [os.path.getsize(p)] through it. *)
Definition read_file (w : world) (p : pystr) : M bytes :=
  fun st =>
    match fs st !! normpath p with
    | Some c => (Ok c, st)
    | None => (Raise (Exn FileNotFoundError (w_enoent w p)), st)
    end.

Definition getsize (w : world) (p : pystr) : M Z :=
  let! c := read_file w p in ret (len c).

(** [open(p, 'wb')]: the file exists and is empty from here on. *)
Definition open_wb (w : world) (p : pystr) : M unit :=
  fun st =>
    match w_open_wb w p with
    | Some msg => (Raise (Exn OSError msg), st)
    | None =>
        (Ok tt, State (inq st) (sent st) (credit st)
                      (<[normpath p := []]> (fs st)))
    end.

(** [f.write(chunk)] on a file opened by [open_wb]. *)
Definition write (p : pystr) (chunk : bytes) : M unit :=
  fun st =>
    (Ok tt, State (inq st) (sent st) (credit st)
                  (alter (fun c => c ++ chunk) (normpath p) (fs st))).

(** A library saving a whole file. *)
Definition save (p : pystr) (c : bytes) : M unit :=
  fun st =>
    (Ok tt, State (inq st) (sent st) (credit st) (<[normpath p := c]> (fs st))).

(** [with tempfile.TemporaryDirectory() as temp_dir: body]: whatever
    happens in the body, the directory and all below it are removed. *)
Definition with_temp_dir {A} (w : world) (body : pystr -> M A) : M A :=
  fun st =>
    let '(r, st') := body (w_temp_dir w) st in
    (r, State (inq st') (sent st') (credit st')
              (filter (fun kv => inside (w_temp_dir w) kv.1 = false) (fs st'))).

(** The successive results of [f.read(4096)] on a file of content [c]. *)
Fixpoint chunked (fuel : nat) (c : bytes) : list bytes :=
  match fuel, c with
  | S fuel', _ :: _ => take 4096 c :: chunked fuel' (drop 4096 c)
  | _, _ => []
  end.

Definition chunks (c : bytes) : list bytes := chunked (length c) c.

(** [while chunk := f.read(4096): conn.send(chunk)] *)
Fixpoint send_chunks (p : part) (cs : list bytes) : M unit :=
  match cs with
  | [] => ret tt
  | chunk :: cs' => do! send p chunk in send_chunks p cs'
  end.

(** The receiving loop of both sides:
<<
    received = 0
    while received < file_size:
        chunk = conn.recv(min(4096, file_size - received))
        if not chunk:
            raise ConnectionError(msg)
        f.write(chunk)
        received += len(chunk)
>> *)
Fixpoint recv_file_loop (fuel : nat) (msg path : pystr)
    (file_size received : Z) : M unit :=
  if received <? file_size then
    match fuel with
    | O => lift OutOfFuel
    | S fuel' =>
        let! chunk := recv (Z.min 4096 (file_size - received)) in
        if bool_decide (chunk = []) then raise (Exn ConnectionError msg)
        else
          do! write path chunk in
          recv_file_loop fuel' msg path file_size (received + len chunk)
    end
  else ret tt.

Definition recv_file (msg path : pystr) (file_size : Z) : M unit :=
  fun st =>
    recv_file_loop (S (length (stream (inq st)))) msg path file_size 0 st.

(** ** The server ([server.py]) *)

Inductive handler :=
  | handle_pdf_to_png | handle_image_conversion | handle_jpg_to_png
  | handle_grayscale | handle_resize.

(** [self.conversion_handlers] *)
Definition conversion_handlers : gmap pystr handler :=
  list_to_map
    [ (lit "pdf2png", handle_pdf_to_png);
      (lit "png2jpg", handle_image_conversion);
      (lit "jpg2png", handle_jpg_to_png);
      (lit "img_grayscale", handle_grayscale);
      (lit "img_resize", handle_resize) ].

(** The loop of [handle_pdf_to_png] over the rendered pages. *)
Fixpoint save_pages (output_dir : pystr) (page_number : Z)
    (pages : list bytes) (outputs : list pystr) : M (list pystr) :=
  match pages with
  | [] => ret outputs
  | pix :: pages' =>
      let output_path :=
        join output_dir
             (lit "page_" ++ str_of_int (page_number + 1) ++ lit ".png") in
      do! save output_path pix in
      save_pages output_dir (page_number + 1) pages' (outputs ++ [output_path])
  end.

(** A handler called with the input path and the output directory, and the
    width and height when they are passed. *)
Definition run_handler (w : world) (h : handler)
    (input_path output_dir : pystr) (dims : option (Z * Z))
  : M (list pystr) :=
  let! img := peek input_path in
  match h with
  | handle_pdf_to_png =>
      let! pages := library (w_fitz_pages w img) in
      save_pages output_dir 0 pages []
  | handle_image_conversion =>
      let! out := library (w_pil_jpg w img) in
      let output_path := join output_dir (lit "converted.jpg") in
      do! save output_path out in ret [output_path]
  | handle_jpg_to_png =>
      let! out := library (w_pil_png w img) in
      let output_path := join output_dir (lit "converted.png") in
      do! save output_path out in ret [output_path]
  | handle_grayscale =>
      let! out := library (w_cv_gray w img) in
      let output_path := join output_dir (lit "grayscale.jpg") in
      do! save output_path out in ret [output_path]
  | handle_resize =>
      let '(width, height) := default (800, 600) dims in
      let! out := library (w_cv_resize w img width height) in
      let output_path := join output_dir (lit "resized.jpg") in
      do! save output_path out in ret [output_path]
  end.

(** Which handler lines 129-133 call, and with which extra arguments:
<<
    if conversion == 'img_resize' and len(parts) >= 5:
        width, height = int(parts[3]), int(parts[4])
        output_files = self.handle_resize(input_path, temp_dir, width, height)
    else:
        output_files = self.conversion_handlers[conversion](input_path, temp_dir)
>> *)
Record call := Call { call_handler : handler; call_dims : option (Z * Z) }.

Definition dispatch (w : world) (conversion : pystr) (parts : list pystr)
    (registered : handler) : M call :=
  if bool_decide (conversion = lit "img_resize") && (5 <=? len parts) then
    let! width := py_int w (nth 3 parts []) in
    let! height := py_int w (nth 4 parts []) in
    ret (Call handle_resize (Some (width, height)))
  else ret (Call registered None).

(** The loop "Send results" of [handle_client]. *)
Fixpoint send_results (w : world) (output_files : list pystr) : M unit :=
  match output_files with
  | [] => ret tt
  | output_path :: rest =>
      let file_name := basename output_path in
      let! file_size := getsize w output_path in
      let! name_len := lift (to_bytes 4 (len file_name)) in
      do! send NameLen name_len in
      let! name := lift (encode file_name) in
      do! send Name name in
      let! size := lift (to_bytes 8 file_size) in
      do! send Size size in
      let! content := read_file w output_path in
      do! send_chunks Chunk (chunks content) in
      send_results w rest
  end.

(** How [handle_client] ended, as its log tells: "Conversion completed and
    sent to client", "Client disconnected before sending metadata length",
    or "Error handling client: ...". *)
Inductive outcome :=
  | Completed
  | Disconnected
  | Failed (e : exn).

(** The [try] block of [handle_client]. *)
Definition serve (w : world) : M outcome :=
  let! metadata_len_bytes := recv 4 in
  if bool_decide (metadata_len_bytes = []) then ret Disconnected
  else
    let metadata_len := from_bytes metadata_len_bytes in
    let! raw := recv metadata_len in
    let! metadata := lift (decode (w_decode_msg w) raw) in
    let parts := split_on 124 metadata in
    if len parts <? 3 then
      raise (Exn ValueError (lit "Invalid metadata format: " ++ metadata))
    else
      let file_name := nth 0 parts [] in
      let conversion := nth 1 parts [] in
      let! file_size := py_int w (nth 2 parts []) in
      with_temp_dir w (fun temp_dir =>
        let input_path := join temp_dir file_name in
        do! open_wb w input_path in
        do! recv_file (lit "Connection closed before file was fully received")
                      input_path file_size in
        match conversion_handlers !! conversion with
        | None =>
            raise (Exn ValueError (lit "Unsupported conversion: " ++ conversion))
        | Some registered =>
            let! c := dispatch w conversion parts registered in
            let! output_files :=
              run_handler w (call_handler c) input_path temp_dir (call_dims c) in
            do! send_results w output_files in
            let! zero := lift (to_bytes 4 0) in
            do! send Terminator zero in
            ret Completed
        end).

(** The [except Exception as e] block. *)
Definition send_error (e : exn) : M unit :=
  try_pass (
    let! error_msg := lift (encode (lit "ERROR: " ++ exn_str e)) in
    let! n := lift (to_bytes 4 (len error_msg)) in
    do! send ErrLen n in
    send ErrMsg error_msg).

(** [ConversionServer.handle_client] *)
Definition handle_client (w : world) : M outcome :=
  fun st =>
    match serve w st with
    | (Raise e, st') =>
        let '(_, st'') := send_error e st' in (Ok (Failed e), st'')
    | r => r
    end.

(** ** The client ([client.py]) *)

(** The metadata line of a request. *)
Fixpoint add_extras (metadata : pystr) (items : list (pystr * Z)) : pystr :=
  match items with
  | [] => metadata
  | (_, value) :: items' =>
      add_extras (metadata ++ lit "|" ++ str_of_int value) items'
  end.

Definition make_metadata (file_name conversion_type : pystr) (file_size : Z)
    (extra_params : option (list (pystr * Z))) : pystr :=
  let metadata :=
    file_name ++ lit "|" ++ conversion_type ++ lit "|" ++ str_of_int file_size in
  match extra_params with
  | Some (item :: items) => add_extras metadata (item :: items)
  | _ => metadata
  end.

(** "Send metadata and file" *)
Definition send_file (w : world) (file_path conversion_type : pystr)
    (extra_params : option (list (pystr * Z))) : M unit :=
  let file_name := basename file_path in
  let! file_size := getsize w file_path in
  let metadata := make_metadata file_name conversion_type file_size extra_params in
  let! n := lift (to_bytes 4 (len metadata)) in
  do! send ReqLen n in
  let! m := lift (encode metadata) in
  do! send ReqMeta m in
  let! content := read_file w file_path in
  send_chunks ReqChunk (chunks content).

(** "Create unique filename to avoid overwriting" *)
Definition unique_path (output_dir timestamp file_name : pystr) : pystr :=
  let '(base_name, ext) := splitext file_name in
  join output_dir (base_name ++ lit "_" ++ timestamp ++ ext).

(** The [while True] loop of "Receive results". *)
Fixpoint recv_results_loop (fuel : nat) (w : world)
    (output_dir timestamp : pystr) (output_files : list pystr)
  : M (list pystr) :=
  match fuel with
  | O => lift OutOfFuel
  | S fuel' =>
      let! name_len_bytes := recv 4 in
      let name_len := from_bytes name_len_bytes in
      if name_len =? 0 then ret output_files
      else
        let! raw := recv name_len in
        let! file_name := lift (decode (w_decode_msg w) raw) in
        if startswith (lit "ERROR:") file_name then
          raise (Exn RuntimeError file_name)
        else
          let! size := recv 8 in
          let file_size := from_bytes size in
          let output_path := unique_path output_dir timestamp file_name in
          do! open_wb w output_path in
          do! recv_file (lit "Connection closed during file transfer")
                        output_path file_size in
          recv_results_loop fuel' w output_dir timestamp
                            (output_files ++ [output_path])
  end.

Definition recv_results (w : world) : M (list pystr) :=
  let output_dir := join (w_cwd w) (lit "converted_files") in
  let timestamp := strftime (w_now w) in
  fun st =>
    recv_results_loop (S (length (stream (inq st)))) w output_dir timestamp [] st.

(** [ConversionClient.send_request], on a connection that is established. *)
Definition send_request (w : world) (file_path conversion_type : pystr)
    (extra_params : option (list (pystr * Z))) : M (list pystr) :=
  let! found := exists_file file_path in
  if negb found then
    raise (Exn FileNotFoundError (lit "Input file not found: " ++ file_path))
  else
    do! send_file w file_path conversion_type extra_params in
    recv_results w.

(** ** One exchange between a client and the server

    The client sends its whole request before it reads, and the server
    reads the request before it answers, so one exchange is: the sends of
    the client, delivered to the server; the run of the handler; the sends
    of the server, delivered to the client, which then runs to its end.
    The answer reaches the client as it was sent, which is so when the
    server has read the whole request before it closes; what a client
    receives from a server that closes with bytes of the request unread
    depends on the transport, and is not told by [exchange]. *)

Definition connect (q : list bytes) (files : gmap pystr bytes) : state :=
  State q [] None files.

Definition exchange (wc ws : world) (cfs sfs : gmap pystr bytes)
    (file_path conversion_type : pystr)
    (extra_params : option (list (pystr * Z)))
  : (res (list pystr) * state) * (res outcome * state) :=
  let request :=
    sent (send_request wc file_path conversion_type extra_params
                       (connect [] cfs)).2 in
  let served := handle_client ws (connect (deliver request) sfs) in
  (send_request wc file_path conversion_type extra_params
                (connect (deliver (sent served.2)) cfs),
   served).

(** ** A world for the examples

    [int()] restricted to an optional minus sign and ASCII digits (it
    refuses the blanks, the plus sign, the underscores and the other digits
    that [int()] accepts, and its error text is without the quoted literal
    that CPython appends), libraries that copy their input, and fixed
    directories and clock. *)

Fixpoint digits_value (s : pystr) (acc : Z) : option Z :=
  match s with
  | [] => Some acc
  | c :: s' =>
      if (48 <=? c) && (c <=? 57) then digits_value s' (acc * 10 + (c - 48))
      else None
  end.

Definition decimal (s : pystr) : pystr + Z :=
  let bad := inl (lit "invalid literal for int() with base 10") in
  match s with
  | [] => bad
  | 45 :: d :: s' =>
      match digits_value (d :: s') 0 with
      | Some v => inr (- v)
      | None => bad
      end
  | _ => match digits_value s 0 with
         | Some v => inr v
         | None => bad
         end
  end.

Definition copy_input (img : option bytes) : pystr + bytes :=
  match img with
  | Some c => inr c
  | None => inl (lit "cannot open input")
  end.

Definition demo_world : world :=
  {| w_int := decimal;
     w_decode_msg := fun _ => lit "'utf-8' codec can't decode bytes";
     w_enoent := fun p => lit "[Errno 2] No such file or directory: " ++ p;
     w_open_wb := fun _ => None;
     w_temp_dir := lit "/tmp/tmpk3x9";
     w_cwd := lit "/home/user";
     w_now := Datetime 2024 1 5 9 3 7 250000;
     w_fitz_pages := fun img =>
       match img with
       | Some c => inr [c; c]
       | None => inl (lit "cannot open input")
       end;
     w_pil_jpg := copy_input;
     w_pil_png := copy_input;
     w_cv_gray := copy_input;
     w_cv_resize := fun img _ _ => copy_input img |}.

(** ** Vocabulary of the statements *)

(** The queue left when [n] bytes have been received, in any number of
    [recv] calls. *)
Fixpoint skip_bytes (n : nat) (q : list bytes) {struct q} : list bytes :=
  match n with
  | O => q
  | S _ =>
      match q with
      | [] => []
      | seg :: rest =>
          if (n <? length seg)%nat then drop n seg :: rest
          else skip_bytes (n - length seg) rest
      end
  end.

(** A file name that the response framing carries as it is: not empty (an
    empty name is the terminator), ASCII (so that its [len] is the length
    of its encoding), not an error record, and short enough for the
    four-byte length. *)
Definition wire_name (name : pystr) : Prop :=
  name <> [] /\ is_ascii name
  /\ startswith (lit "ERROR:") name = false /\ len name < 2 ^ 32.

(** The sends of the server for one result file. *)
Definition frame (name : pystr) (content : bytes) : list (part * bytes) :=
  [ (NameLen, be_bytes 4 (len name));
    (Name, map byte_of_Z name);
    (Size, be_bytes 8 (len content)) ]
  ++ map (pair Chunk) (chunks content).

(** The files of the client after it has stored the received ones. *)
Definition store (od ts : pystr) (m : gmap pystr bytes)
    (files : list (pystr * bytes)) : gmap pystr bytes :=
  foldl (fun m f => <[normpath (unique_path od ts f.1) := f.2]> m) m files.





(** A world whose resize library writes the width and the height it was
    given, two bytes each, so that they show in the result. *)
Definition dims_world : world :=
  {| w_int := decimal;
     w_decode_msg := w_decode_msg demo_world;
     w_enoent := w_enoent demo_world;
     w_open_wb := fun _ => None;
     w_temp_dir := lit "/tmp/tmpk3x9";
     w_cwd := lit "/home/user";
     w_now := Datetime 2024 1 5 9 3 7 900000;
     w_fitz_pages := w_fitz_pages demo_world;
     w_pil_jpg := copy_input;
     w_pil_png := copy_input;
     w_cv_gray := copy_input;
     w_cv_resize := fun _ width height =>
                      inr (be_bytes 2 width ++ be_bytes 2 height) |}.

(** A request as a client frames it: length, metadata, payload. *)
Definition raw_request (metadata : string) (payload : bytes) : list bytes :=
  let m := map byte_of_Z (lit metadata) in
  [be_bytes 4 (len m); m] ++ chunks payload.

(** What the extra parameters add to the metadata line. *)
Definition extras_tail (items : list (pystr * Z)) : pystr :=
  concat (map (fun kv : pystr * Z => lit "|" ++ str_of_int kv.2) items).

(** ** The command line ([client.py]) and the web page ([app.py]) *)

(** The [__main__] block of [client.py]: width and height are passed only
    for a resize. *)
Definition cli_extra_params (conversion_type : pystr) (width height : Z)
  : option (list (pystr * Z)) :=
  if bool_decide (conversion_type = lit "img_resize")
  then Some [(lit "width", width); (lit "height", height)]
  else None.

(** [extra_params] as [app.py] builds it: an empty dict, to which width and
    height are added for a resize. *)
Definition gui_extra_params (conversion_type : pystr) (width height : Z)
  : option (list (pystr * Z)) :=
  if bool_decide (conversion_type = lit "img_resize")
  then Some [(lit "width", width); (lit "height", height)]
  else Some [].

(** [conversion_options] *)
Definition conversion_options : gmap pystr pystr :=
  list_to_map
    [ (lit "pdf2png", lit "Convert PDF to PNG images");
      (lit "png2jpg", lit "Convert PNG to JPG");
      (lit "jpg2png", lit "Convert JPG to PNG");
      (lit "img_grayscale", lit "Convert image to grayscale");
      (lit "img_resize", lit "Resize image") ].

(** [available_conversions], for the type of the uploaded file: the keys in
    the order of insertion, each with [conversion_options[key]], which is
    [None] where the lookup would raise [KeyError]. *)
Definition available_conversions (file_type : pystr)
  : list (pystr * option pystr) :=
  let option key := (key, conversion_options !! key) in
  if bool_decide (file_type = lit "application/pdf") then
    [option (lit "pdf2png")]
  else if bool_decide (file_type = lit "image/png") then
    [option (lit "png2jpg"); option (lit "img_grayscale");
     option (lit "img_resize")]
  else if bool_decide (file_type ∈ [lit "image/jpeg"; lit "image/jpg"]) then
    [option (lit "jpg2png"); option (lit "img_grayscale");
     option (lit "img_resize")]
  else [].

(** ** Vocabulary of the further statements *)

(** The values of [extra_params], in the order of the dict. *)
Definition extra_values (extra_params : option (list (pystr * Z)))
  : list Z :=
  map snd (default [] extra_params).

(** A file name that names an entry of the directory it is joined to: not
    empty, without a slash, and neither [.] nor [..]. *)
Definition plain_name (name : pystr) : Prop :=
  name <> [] /\ (47 ∉ name) /\ name <> [46] /\ name <> [46; 46].

(** The [initial_slashes] of [normpath]. *)
Definition initial_slashes (p : pystr) : nat :=
  if startswith [47] p then
    if startswith [47; 47] p && negb (startswith [47; 47; 47] p)
    then 2%nat else 1%nat
  else 0%nat.

(** The files that [TemporaryDirectory] leaves when it is removed. *)
Abbreviation outside dir :=
  (fun kv : pystr * bytes => inside dir kv.1 = false).

(** A computation that changes no file outside the directory [dir]. *)
Definition scratch_only (dir : pystr) {A} (m : M A) : Prop :=
  forall st,
    filter (outside dir) (fs (m st).2) = filter (outside dir) (fs st).

(** Two states of one connection: the same pending input, the same sends
    and the same credit. *)
Definition same_connection (st st' : state) : Prop :=
  inq st' = inq st /\ sent st' = sent st /\ credit st' = credit st.

(** The [try] block of [handle_client] from [parts = metadata.split('|')]
    on. *)
Definition after_metadata (w : world) (metadata : pystr) : M outcome :=
  let parts := split_on 124 metadata in
  if len parts <? 3 then
    raise (Exn ValueError (lit "Invalid metadata format: " ++ metadata))
  else
    let file_name := nth 0 parts [] in
    let conversion := nth 1 parts [] in
    let! file_size := py_int w (nth 2 parts []) in
    with_temp_dir w (fun temp_dir =>
      let input_path := join temp_dir file_name in
      do! open_wb w input_path in
      do! recv_file (lit "Connection closed before file was fully received")
                    input_path file_size in
      match conversion_handlers !! conversion with
      | None =>
          raise (Exn ValueError (lit "Unsupported conversion: " ++ conversion))
      | Some registered =>
          let! c := dispatch w conversion parts registered in
          let! output_files :=
            run_handler w (call_handler c) input_path temp_dir (call_dims c) in
          do! send_results w output_files in
          let! zero := lift (to_bytes 4 0) in
          do! send Terminator zero in
          ret Completed
      end).

(** The head of a request whose metadata line is [metadata]. *)
Definition request_head (metadata : pystr) : list bytes :=
  [be_bytes 4 (len metadata); map byte_of_Z metadata].

(** The sends of the client for a request. *)
Definition request_sends (metadata : pystr) (content : bytes)
  : list (part * bytes) :=
  [(ReqLen, be_bytes 4 (len metadata)); (ReqMeta, map byte_of_Z metadata)]
  ++ map (pair ReqChunk) (chunks content).

(** The error record of the server for the message [msg]. *)
Definition error_sends (msg : pystr) : list (part * bytes) :=
  [(ErrLen, be_bytes 4 (len msg + 7));
   (ErrMsg, map byte_of_Z (lit "ERROR: " ++ msg))].

(** The sends of the server that open the record of one result file. *)
Definition frame_head (name : pystr) (file_size : Z) : list bytes :=
  [be_bytes 4 (len name); map byte_of_Z name; be_bytes 8 file_size].

(** The sends of the server for the result files [outs], read in the
    files [m], and the terminator. *)
Definition response_sends (m : gmap pystr bytes) (outs : list pystr)
  : list (part * bytes) :=
  flat_map (fun p => frame (basename p) (default [] (m !! normpath p))) outs
  ++ [(Terminator, be_bytes 4 0)].

(** The result files as the client receives them: name and content. *)
Definition received (m : gmap pystr bytes) (outs : list pystr)
  : list (pystr * bytes) :=
  map (fun p => (basename p, default [] (m !! normpath p))) outs.

(** The name of page [k] of a PDF, at the server. *)
Definition page_name (k : Z) : pystr :=
  lit "page_" ++ str_of_int k ++ lit ".png".

(** The output path of page [k] of a PDF. *)
Definition page_path (dir : pystr) (k : Z) : pystr :=
  join dir (lit "page_" ++ str_of_int k ++ lit ".png").

(** The path under which the client stores page [k]. *)
Definition client_page_path (cwd timestamp : pystr) (k : Z) : pystr :=
  join (join cwd (lit "converted_files"))
       (lit "page_" ++ str_of_int k ++ lit "_" ++ timestamp ++ lit ".png").

(** A date and time that a clock shows, with a year of four digits. *)
Definition clock_time (dt : datetime) : Prop :=
  1000 <= year dt <= 9999 /\ 1 <= month dt <= 12 /\ 1 <= day dt <= 31
  /\ 0 <= hour dt <= 23 /\ 0 <= minute dt <= 59 /\ 0 <= second dt <= 59.

(** The second in which a clock was read. *)
Definition to_second (dt : datetime) : datetime :=
  Datetime (year dt) (month dt) (day dt) (hour dt) (minute dt) (second dt) 0.

(** * Properties *)

(** ** Bytes and fixed-width integers *)

Lemma Z_of_byte_range (b : byte) : 0 <= Z_of_byte b < 256.
Proof.
  unfold Z_of_byte. pose proof (Byte.to_N_bounded b). lia.
Qed.

Lemma Z_of_byte_of_Z (z : Z) : 0 <= z < 256 -> Z_of_byte (byte_of_Z z) = z.
Proof.
  intros Hz. unfold Z_of_byte, byte_of_Z.
  destruct (Byte.of_N (Z.to_N z)) as [b|] eqn:E.
  - apply Byte.to_of_N in E. lia.
  - apply Byte.of_N_None_iff in E. lia.
Qed.

Lemma byte_of_Z_of_byte (b : byte) : byte_of_Z (Z_of_byte b) = b.
Proof.
  unfold Z_of_byte, byte_of_Z. rewrite N2Z.id, Byte.of_to_N. reflexivity.
Qed.

Lemma length_be_bytes (k : nat) (n : Z) : length (be_bytes k n) = k.
Proof. induction k; simpl; congruence. Qed.

Lemma fold_be_bytes (k : nat) (n acc : Z) :
  0 <= n ->
  fold_left (fun a b => a * 256 + Z_of_byte b) (be_bytes k n) acc
  = acc * 256 ^ Z.of_nat k + n mod 256 ^ Z.of_nat k.
Proof.
  intros Hn. revert acc. induction k as [|k IH]; intros acc.
  - simpl. rewrite Z.mod_1_r. lia.
  - cbn [be_bytes fold_left]. rewrite IH.
    rewrite Z_of_byte_of_Z by (apply Z.mod_pos_bound; lia).
    rewrite Nat2Z.inj_succ, Z.pow_succ_r by lia.
    assert (H256 : 0 < 256 ^ Z.of_nat k) by (apply Z.pow_pos_nonneg; lia).
    rewrite (Z.mul_comm 256 (256 ^ Z.of_nat k)).
    rewrite (Z.rem_mul_r n (256 ^ Z.of_nat k) 256) by lia.
    ring.
Qed.

Lemma from_bytes_be_bytes (k : nat) (n : Z) :
  0 <= n < 256 ^ Z.of_nat k -> from_bytes (be_bytes k n) = n.
Proof.
  intros Hn. unfold from_bytes. rewrite fold_be_bytes by lia.
  rewrite Z.mod_small by lia. lia.
Qed.

Lemma to_bytes_ok (k : nat) (n : Z) :
  0 <= n < 256 ^ Z.of_nat k -> to_bytes k n = Ok (be_bytes k n).
Proof.
  intros Hn. unfold to_bytes.
  destruct (Z.ltb_spec n 0); [lia|].
  destruct (Z.leb_spec (256 ^ Z.of_nat k) n); [lia|]. reflexivity.
Qed.

Lemma from_bytes_nil : from_bytes [] = 0.
Proof. reflexivity. Qed.

Lemma len_nonneg {A} (l : list A) : 0 <= len l.
Proof. unfold len. lia. Qed.

Lemma len_app {A} (l1 l2 : list A) : len (l1 ++ l2) = len l1 + len l2.
Proof. unfold len. rewrite length_app. lia. Qed.

Lemma len_nil_iff {A} (l : list A) : len l = 0 <-> l = [].
Proof. unfold len. destruct l; simpl; split; intros; try easy; lia. Qed.

(** ** Receiving from a segmented stream *)

Lemma skip_bytes_nil (n : nat) : skip_bytes n [] = [].
Proof. destruct n; reflexivity. Qed.

Lemma skip_bytes_0 (q : list bytes) : skip_bytes 0 q = q.
Proof. destruct q; reflexivity. Qed.

Lemma skip_bytes_add (a b : nat) (q : list bytes) :
  skip_bytes (a + b) q = skip_bytes b (skip_bytes a q).
Proof.
  revert a. induction q as [|seg rest IH]; intros a.
  - rewrite !skip_bytes_nil. reflexivity.
  - destruct a as [|a]; [reflexivity|].
    cbn [skip_bytes Nat.add].
    destruct (Nat.ltb_spec (S a) (length seg)) as [Ha|Ha].
    + destruct b as [|b].
      * rewrite Nat.add_0_r.
        destruct (Nat.ltb_spec (S a) (length seg)); [reflexivity|lia].
      * cbn [skip_bytes]. rewrite length_drop.
        destruct (Nat.ltb_spec (S (a + S b)) (length seg));
          destruct (Nat.ltb_spec (S b) (length seg - S a)); try lia.
        -- rewrite drop_drop. reflexivity.
        -- f_equal. lia.
    + destruct (Nat.ltb_spec (S (a + b)) (length seg)); [lia|].
      rewrite <- IH. f_equal. lia.
Qed.

Lemma stream_skip_bytes (n : nat) (q : list bytes) :
  stream (skip_bytes n q) = drop n (stream q).
Proof.
  revert n. induction q as [|seg rest IH]; intros n.
  - rewrite skip_bytes_nil. unfold stream. simpl. by rewrite drop_nil.
  - destruct n as [|n]; [reflexivity|].
    cbn [skip_bytes]. unfold stream in *. cbn [concat].
    destruct (Nat.ltb_spec (S n) (length seg)).
    + cbn [concat]. rewrite drop_app_le by lia. reflexivity.
    + rewrite IH, drop_app_ge by lia. reflexivity.
Qed.

Lemma skip_bytes_segments (segs q : list bytes) :
  Forall (fun seg => seg <> []) segs ->
  skip_bytes (length (concat segs)) (segs ++ q) = q.
Proof.
  induction 1 as [|seg segs Hseg _ IH]; [apply skip_bytes_0|].
  cbn [concat app]. rewrite length_app.
  destruct seg as [|b seg]; [done|].
  cbn [length Nat.add skip_bytes].
  destruct (Nat.ltb_spec (S (length seg + length (concat segs)))
                         (S (length seg))); [lia|].
  replace (S (length seg + length (concat segs)) - S (length seg))%nat
    with (length (concat segs)) by lia.
  exact IH.
Qed.

(** One [recv] of at least one byte: what it returns and what it leaves. *)
Lemma take_seg_spec (k : nat) (q : list bytes) :
  (0 < k)%nat ->
  let d := (take_seg k q).1 in
  let q' := (take_seg k q).2 in
  stream q = d ++ stream q'
  /\ (length d <= k)%nat
  /\ (d = [] -> stream q = [] /\ q' = [])
  /\ (d <> [] -> q' = skip_bytes (length d) q).
Proof.
  intros Hk. induction q as [|seg rest IH]; cbn zeta.
  - simpl. repeat split; try done. lia.
  - destruct seg as [|b seg].
    + cbn [take_seg]. destruct IH as (H1 & H2 & H3 & H4).
      split; [done|]. split; [done|]. split.
      * intros E. by apply H3.
      * intros E. rewrite (H4 E).
        destruct (length (take_seg k rest).1) as [|m] eqn:El.
        { destruct ((take_seg k rest).1); done. }
        cbn [skip_bytes length]. simpl. reflexivity.
    + cbn [take_seg fst snd].
      destruct k as [|k]; [lia|].
      repeat split; try done.
      * unfold stream. cbn [concat].
        destruct (drop (S k) (b :: seg)) as [|x l] eqn:Ed.
        -- rewrite <- (take_drop (S k) (b :: seg)) at 1. rewrite Ed.
           by rewrite app_nil_r.
        -- cbn [concat]. rewrite <- Ed, app_assoc, take_drop. reflexivity.
      * rewrite length_take. lia.
      * intros _. rewrite length_take.
        destruct (Nat.le_gt_cases (length (b :: seg)) (S k)) as [Hle|Hgt].
        -- rewrite drop_ge by lia.
           rewrite Nat.min_r by lia. cbn [length skip_bytes].
           destruct (Nat.ltb_spec (S (length seg)) (S (length seg))); [lia|].
           match goal with
           | |- _ = skip_bytes ?n _ => replace n with 0%nat by lia
           end.
           by rewrite skip_bytes_0.
        -- rewrite Nat.min_l by lia.
           destruct (drop (S k) (b :: seg)) as [|x l] eqn:Ed.
           { apply (f_equal length) in Ed. rewrite length_drop in Ed.
             simpl in Ed, Hgt. lia. }
           cbn [skip_bytes].
           destruct (Nat.ltb_spec (S k) (length (b :: seg))); [|lia].
           by rewrite Ed.
Qed.

Lemma alter_app_app (p : pystr) (a b : bytes) (m : gmap pystr bytes) :
  alter (fun c => c ++ b) p (alter (fun c => c ++ a) p m)
  = alter (fun c => c ++ (a ++ b)) p m.
Proof.
  apply map_eq. intros j.
  destruct (decide (p = j)) as [->|Hne].
  - rewrite !lookup_alter_eq. destruct (m !! j); simpl; [|done].
    by rewrite app_assoc.
  - by rewrite !lookup_alter_ne.
Qed.

Lemma alter_app_nil (p : pystr) (m : gmap pystr bytes) :
  alter (fun c => c ++ []) p m = m.
Proof. apply alter_id. intros x _. apply app_nil_r. Qed.

(** The receiving loop obtains exactly the bytes it was asked for, however
    the stream is cut into segments. *)
Lemma recv_file_loop_ok (fuel : nat) (msg path : pystr)
    (file_size received : Z) (st : state) :
  let n := Z.to_nat (file_size - received) in
  (n <= length (stream (inq st)))%nat ->
  (length (stream (inq st)) < fuel)%nat ->
  recv_file_loop fuel msg path file_size received st
  = (Ok tt,
     State (skip_bytes n (inq st)) (sent st) (credit st)
           (alter (fun c => c ++ take n (stream (inq st)))
                  (normpath path) (fs st))).
Proof.
  revert received st. induction fuel as [|fuel IH]; intros received st n Hn Hf.
  { lia. }
  cbn [recv_file_loop].
  destruct (Z.ltb_spec received file_size) as [Hlt|Hge].
  - unfold bind at 1. unfold recv.
    set (k := Z.to_nat (Z.min 4096 (file_size - received))).
    assert (Hk : (0 < k)%nat) by lia.
    pose proof (take_seg_spec k (inq st) Hk) as (Hs & Hlen & Hnil & Hskip).
    destruct (take_seg k (inq st)) as [d q'] eqn:Et. cbn [fst snd] in *.
    destruct d as [|b d].
    { destruct (Hnil eq_refl) as [Hempty _]. rewrite Hempty in Hn.
      simpl in Hn. lia. }
    rewrite bool_decide_eq_false_2 by done.
    unfold bind at 1. unfold write. cbn [inq sent credit fs].
    set (d' := b :: d) in *.
    assert (Hd : (length d' <= n)%nat) by lia.
    rewrite IH; cbn [inq sent credit fs].
    + rewrite alter_app_app. f_equal. f_equal.
      * rewrite Hskip by done.
        replace (Z.to_nat (file_size - (received + len d')))
          with (n - length d')%nat by (unfold len; lia).
        rewrite <- skip_bytes_add. f_equal. lia.
      * f_equal.
        replace (Z.to_nat (file_size - (received + len d')))
          with (n - length d')%nat by (unfold len; lia).
        rewrite Hs, take_app_ge by lia. reflexivity.
    + rewrite Hs, length_app in Hn. unfold len. lia.
    + rewrite Hs, length_app in Hf. subst d'. simpl in *. lia.
  - unfold ret. replace n with 0%nat by lia.
    rewrite skip_bytes_0. cbn [take]. rewrite alter_app_nil.
    by destruct st.
Qed.

(** If the stream closes before [file_size] bytes have come, the loop
    raises, having written all that came. *)
Lemma recv_file_loop_closed (fuel : nat) (msg path : pystr)
    (file_size received : Z) (st : state) :
  (length (stream (inq st)) < Z.to_nat (file_size - received))%nat ->
  (length (stream (inq st)) < fuel)%nat ->
  recv_file_loop fuel msg path file_size received st
  = (Raise (Exn ConnectionError msg),
     State [] (sent st) (credit st)
           (alter (fun c => c ++ stream (inq st)) (normpath path) (fs st))).
Proof.
  revert received st. induction fuel as [|fuel IH]; intros received st Hn Hf.
  { lia. }
  cbn [recv_file_loop].
  destruct (Z.ltb_spec received file_size) as [Hlt|Hge]; [|lia].
  unfold bind at 1. unfold recv.
  set (k := Z.to_nat (Z.min 4096 (file_size - received))).
  assert (Hk : (0 < k)%nat) by lia.
  pose proof (take_seg_spec k (inq st) Hk) as (Hs & Hlen & Hnil & Hskip).
  destruct (take_seg k (inq st)) as [d q'] eqn:Et. cbn [fst snd] in *.
  destruct d as [|b d].
  - destruct (Hnil eq_refl) as [Hempty ->]. rewrite Hempty.
    rewrite bool_decide_eq_true_2 by done. unfold raise.
    by rewrite alter_app_nil.
  - rewrite bool_decide_eq_false_2 by done.
    unfold bind at 1. unfold write. cbn [inq sent credit fs].
    set (d' := b :: d) in *.
    rewrite IH; cbn [inq sent credit fs].
    + rewrite alter_app_app, Hs. reflexivity.
    + rewrite Hs, length_app in Hn. unfold len. lia.
    + rewrite Hs, length_app in Hf. subst d'. simpl in *. lia.
Qed.

(** ** ASCII strings and their encoding *)

Lemma is_ascii_app (a b : pystr) : is_ascii (a ++ b) <-> is_ascii a /\ is_ascii b.
Proof. apply Forall_app. Qed.

Lemma encode_chars_ascii (s : pystr) :
  is_ascii s -> encode_chars s = Some (map byte_of_Z s).
Proof.
  induction 1 as [|c s Hc _ IH]; [reflexivity|].
  cbn [encode_chars map]. rewrite IH. unfold encode_char.
  destruct (Z.ltb_spec c 0); [lia|].
  destruct (Z.ltb_spec c 128); [|lia]. reflexivity.
Qed.

Lemma encode_ascii (s : pystr) : is_ascii s -> encode s = Ok (map byte_of_Z s).
Proof. intros H. unfold encode. by rewrite encode_chars_ascii. Qed.

Lemma decode_chars_ascii (s : pystr) :
  is_ascii s -> decode_chars (map byte_of_Z s) = Some s.
Proof.
  induction 1 as [|c s Hc _ IH]; [reflexivity|].
  cbn [decode_chars map]. rewrite Z_of_byte_of_Z by lia.
  destruct (Z.ltb_spec c 128); [|lia]. by rewrite IH.
Qed.

Lemma decode_ascii (m : bytes -> pystr) (s : pystr) :
  is_ascii s -> decode m (map byte_of_Z s) = Ok s.
Proof. intros H. unfold decode. by rewrite decode_chars_ascii. Qed.

Lemma len_map {A B} (f : A -> B) (l : list A) : len (map f l) = len l.
Proof. unfold len. by rewrite length_map. Qed.

(** ** Chunks of a file *)

Lemma chunked_concat (fuel : nat) (c : bytes) :
  (length c <= fuel)%nat -> concat (chunked fuel c) = c.
Proof.
  revert c. induction fuel as [|fuel IH]; intros c Hc.
  - destruct c; [reflexivity|simpl in Hc; lia].
  - destruct c as [|b c]; [reflexivity|].
    cbn [chunked concat]. rewrite IH.
    + apply take_drop.
    + rewrite length_drop. simpl in *. lia.
Qed.

Lemma chunks_concat (c : bytes) : concat (chunks c) = c.
Proof. by apply chunked_concat. Qed.

Lemma chunked_nonempty (fuel : nat) (c : bytes) :
  Forall (fun seg => seg <> []) (chunked fuel c).
Proof.
  revert c. induction fuel as [|fuel IH]; intros c; [constructor|].
  destruct c as [|b c]; [constructor|].
  cbn [chunked]. constructor; [done|apply IH].
Qed.

Lemma chunks_nonempty (c : bytes) : Forall (fun seg => seg <> []) (chunks c).
Proof. apply chunked_nonempty. Qed.

(** ** Sending while the peer listens *)

Lemma send_open (p : part) (d : bytes) (st : state) :
  credit st = None ->
  send p d st = (Ok tt, State (inq st) (sent st ++ [(p, d)]) None (fs st)).
Proof. intros H. unfold send. by rewrite H. Qed.

Lemma send_chunks_open (p : part) (cs : list bytes) (st : state) :
  credit st = None ->
  send_chunks p cs st
  = (Ok tt, State (inq st) (sent st ++ map (pair p) cs) None (fs st)).
Proof.
  revert st. induction cs as [|c cs IH]; intros st H.
  - cbn. rewrite app_nil_r. destruct st; simpl in *; by subst.
  - cbn [send_chunks map]. unfold bind. rewrite send_open by done.
    rewrite IH by done. cbn [inq sent credit fs].
    by rewrite <- app_assoc.
Qed.

Lemma recv_whole (n : Z) (seg : bytes) (q : list bytes) (st : state) :
  inq st = seg :: q -> seg <> [] -> Z.to_nat n = length seg ->
  recv n st = (Ok seg, State q (sent st) (credit st) (fs st)).
Proof.
  intros Hq Hseg Hn. unfold recv. rewrite Hq, Hn.
  destruct seg as [|b seg]; [done|].
  cbn [take_seg]. rewrite firstn_all, drop_all. reflexivity.
Qed.

Lemma recv_closed (n : Z) (st : state) :
  stream (inq st) = [] ->
  recv n st = (Ok [], State [] (sent st) (credit st) (fs st)).
Proof.
  intros Hq. unfold recv.
  assert (take_seg (Z.to_nat n) (inq st) = ([], [])) as ->; [|done].
  induction (inq st) as [|seg q IH]; [done|].
  unfold stream in Hq. cbn [concat] in Hq.
  apply app_eq_nil in Hq as [-> Hq]. cbn [take_seg]. by apply IH.
Qed.

Lemma recv_file_ok (msg path : pystr) (file_size : Z) (st : state) :
  (Z.to_nat file_size <= length (stream (inq st)))%nat ->
  recv_file msg path file_size st
  = (Ok tt,
     State (skip_bytes (Z.to_nat file_size) (inq st)) (sent st) (credit st)
           (alter (fun c => c ++ take (Z.to_nat file_size) (stream (inq st)))
                  (normpath path) (fs st))).
Proof.
  intros H. unfold recv_file.
  pose proof (recv_file_loop_ok (S (length (stream (inq st)))) msg path
                file_size 0 st) as L.
  cbn zeta in L. rewrite Z.sub_0_r in L. apply L; lia.
Qed.

Lemma recv_file_closed (msg path : pystr) (file_size : Z) (st : state) :
  (length (stream (inq st)) < Z.to_nat file_size)%nat ->
  recv_file msg path file_size st
  = (Raise (Exn ConnectionError msg),
     State [] (sent st) (credit st)
           (alter (fun c => c ++ stream (inq st)) (normpath path) (fs st))).
Proof.
  intros H. unfold recv_file. apply recv_file_loop_closed; [|lia].
  by rewrite Z.sub_0_r.
Qed.

Lemma deliver_chunks (p : part) (cs : list bytes) :
  deliver (map (pair p) cs) = cs.
Proof.
  unfold deliver. rewrite map_map. cbn [snd]. apply map_id.
Qed.

(** A whole payload, cut in any way into non-empty segments, is received
    into the opened file and nothing more is consumed. *)
Lemma recv_file_segments (msg path : pystr) (segs q : list bytes)
    (sn : list (part * bytes)) (cr : option nat) (files : gmap pystr bytes) :
  Forall (fun seg => seg <> []) segs ->
  recv_file msg path (len (concat segs))
            (State (segs ++ q) sn cr (<[normpath path := []]> files))
  = (Ok tt, State q sn cr (<[normpath path := concat segs]> files)).
Proof.
  intros Hsegs.
  rewrite recv_file_ok; cbn [inq sent credit fs]; unfold len.
  - rewrite Nat2Z.id, skip_bytes_segments by done.
    unfold stream. rewrite concat_app, take_app_length.
    by rewrite alter_insert_eq.
  - rewrite Nat2Z.id. unfold stream. rewrite concat_app, length_app. lia.
Qed.

(** ** One record of the response, as the client reads it *)

Lemma pow_256_4 : 256 ^ Z.of_nat 4 = 4294967296.
Proof. reflexivity. Qed.

Lemma pow_256_8 : 256 ^ Z.of_nat 8 = 18446744073709551616.
Proof. reflexivity. Qed.

Lemma recv_results_step (fuel : nat) (w : world) (od ts : pystr)
    (outs : list pystr) (name : pystr) (content : bytes) (segs q : list bytes)
    (st : state) :
  wire_name name ->
  len content < 2 ^ 64 ->
  w_open_wb w (unique_path od ts name) = None ->
  Forall (fun seg => seg <> []) segs -> concat segs = content ->
  inq st = be_bytes 4 (len name) :: map byte_of_Z name
           :: be_bytes 8 (len content) :: segs ++ q ->
  recv_results_loop (S fuel) w od ts outs st
  = recv_results_loop fuel w od ts (outs ++ [unique_path od ts name])
      (State q (sent st) (credit st)
             (<[normpath (unique_path od ts name) := content]> (fs st))).
Proof.
  intros (Hne & Hascii & Herr & Hlen) Hsize Hopen Hsegs Hcat Hq.
  change (2 ^ 32) with 4294967296 in Hlen.
  change (2 ^ 64) with 18446744073709551616 in Hsize.
  pose proof (len_nonneg name) as Hn0. pose proof (len_nonneg content) as Hc0.
  cbn [recv_results_loop]. unfold bind at 1.
  rewrite (recv_whole 4 _ _ st Hq);
    [|by destruct (be_bytes 4 (len name)) eqn:E;
         [apply (f_equal length) in E; rewrite length_be_bytes in E|]
     |by rewrite length_be_bytes].
  rewrite from_bytes_be_bytes by (rewrite pow_256_4; lia).
  destruct (Z.eqb_spec (len name) 0) as [E0|_].
  { apply len_nil_iff in E0. done. }
  unfold bind at 1.
  erewrite recv_whole; [|reflexivity| |].
  2: { by destruct name. }
  2: { rewrite length_map. unfold len. lia. }
  unfold bind at 1. unfold lift at 1. rewrite decode_ascii by done.
  rewrite Herr. unfold bind at 1. cbn [inq sent credit fs].
  erewrite recv_whole; [|reflexivity| |].
  2: { destruct (be_bytes 8 (len content)) eqn:E; [|done].
       apply (f_equal length) in E. by rewrite length_be_bytes in E. }
  2: { by rewrite length_be_bytes. }
  rewrite from_bytes_be_bytes by (rewrite pow_256_8; lia).
  unfold bind at 1. unfold open_wb at 1. rewrite Hopen.
  cbn [inq sent credit fs]. unfold bind at 1.
  rewrite <- Hcat, recv_file_segments by done.
  reflexivity.
Qed.

Lemma frame_bytes (name : pystr) (content : bytes) (q : list bytes) :
  (0 < length (stream (deliver (frame name content) ++ q)))%nat.
Proof.
  unfold frame, deliver, stream. cbn [app map snd concat].
  rewrite length_app, length_be_bytes. lia.
Qed.

Lemma recv_results_frames (files : list (pystr * bytes)) (fuel : nat)
    (w : world) (od ts : pystr) (outs : list pystr) (q : list bytes)
    (st : state) :
  Forall (fun f => wire_name f.1 /\ len f.2 < 2 ^ 64
                   /\ w_open_wb w (unique_path od ts f.1) = None) files ->
  inq st = deliver (flat_map (fun f => frame f.1 f.2) files) ++ q ->
  recv_results_loop (length files + fuel) w od ts outs st
  = recv_results_loop fuel w od ts
      (outs ++ map (fun f => unique_path od ts f.1) files)
      (State q (sent st) (credit st) (store od ts (fs st) files)).
Proof.
  intros Hfiles. revert outs st.
  induction Hfiles as [|[name content] files (Hname & Hsize & Hopen) _ IH];
    intros outs st Hq.
  - cbn in *. rewrite app_nil_r. destruct st; cbn in *; by subst.
  - cbn [length Nat.add flat_map] in *.
    unfold deliver in Hq. rewrite map_app in Hq. fold (deliver) in Hq.
    erewrite recv_results_step with (segs := chunks content);
      [|exact Hname|exact Hsize|exact Hopen|apply chunks_nonempty
       |apply chunks_concat|].
    2: { rewrite Hq. unfold frame. cbn [map app snd].
         rewrite deliver_chunks. rewrite <- !app_assoc. reflexivity. }
    rewrite IH by reflexivity. cbn [inq sent credit fs map store foldl].
    by rewrite <- app_assoc.
Qed.

Lemma stream_frames_length (files : list (pystr * bytes)) (q : list bytes) :
  (length files
   <= length (stream (deliver (flat_map (fun f => frame f.1 f.2) files) ++ q)))%nat.
Proof.
  induction files as [|[name content] files IH]; [cbn; lia|].
  cbn [flat_map length]. unfold deliver in *. rewrite map_app, <- app_assoc.
  unfold frame at 1. cbn [map app snd]. unfold stream in *. cbn [concat].
  rewrite length_app, length_be_bytes.
  rewrite !concat_app, !length_app in *. lia.
Qed.

(** ** The server sending its results *)

Lemma send_results_ok (w : world) (files : list (pystr * bytes))
    (q : list bytes) (sn : list (part * bytes)) (m : gmap pystr bytes) :
  Forall (fun f => m !! normpath f.1 = Some f.2
                   /\ wire_name (basename f.1) /\ len f.2 < 2 ^ 64) files ->
  send_results w (map fst files) (State q sn None m)
  = (Ok tt,
     State q (sn ++ flat_map (fun f => frame (basename f.1) f.2) files)
           None m).
Proof.
  intros Hfiles. revert sn.
  induction Hfiles as [|[path content] files (Hfs & Hname & Hsize) _ IH];
    intros sn.
  - cbn. by rewrite app_nil_r.
  - destruct Hname as (Hne & Hascii & Herr & Hlen).
    change (2 ^ 32) with 4294967296 in Hlen.
    change (2 ^ 64) with 18446744073709551616 in Hsize.
    pose proof (len_nonneg (basename path)).
    pose proof (len_nonneg content).
    cbn [map send_results fst snd] in *.
    unfold bind at 1. unfold getsize, bind at 1. unfold read_file at 1.
    cbn [fs]. rewrite Hfs. unfold ret at 1.
    unfold bind at 1. unfold lift at 1.
    rewrite to_bytes_ok by (rewrite pow_256_4; lia).
    unfold bind at 1. rewrite send_open by done.
    unfold bind at 1. unfold lift at 1. rewrite encode_ascii by done.
    unfold bind at 1. rewrite send_open by done.
    unfold bind at 1. unfold lift at 1.
    rewrite to_bytes_ok by (rewrite pow_256_8; lia).
    unfold bind at 1. rewrite send_open by done.
    unfold bind at 1. unfold read_file at 1. cbn [inq sent credit fs].
    rewrite Hfs. unfold bind at 1. rewrite send_chunks_open by done.
    cbn [inq sent credit fs].
    rewrite IH. cbn [flat_map]. unfold frame at 2.
    rewrite <- !app_assoc. reflexivity.
Qed.

Lemma recv_results_closed (fuel : nat) (w : world) (od ts : pystr)
    (outs : list pystr) (st : state) :
  stream (inq st) = [] ->
  recv_results_loop (S fuel) w od ts outs st
  = (Ok outs, State [] (sent st) (credit st) (fs st)).
Proof.
  intros Hq. cbn [recv_results_loop]. unfold bind.
  by rewrite recv_closed.
Qed.

Lemma recv_results_terminator (fuel : nat) (w : world) (od ts : pystr)
    (outs : list pystr) (st : state) :
  inq st = [be_bytes 4 0] ->
  recv_results_loop (S fuel) w od ts outs st
  = (Ok outs, State [] (sent st) (credit st) (fs st)).
Proof.
  intros Hq. cbn [recv_results_loop]. unfold bind.
  by rewrite (recv_whole 4 _ _ st Hq).
Qed.

Ltac concrete_name :=
  split; [done|split; [repeat constructor; lia|split; [reflexivity|done]]].

(** ** Round trip of the response framing *)

(** C1. Whatever result files a handler left in the scratch directory (under
    names that the framing carries, as the names of the five handlers are),
    the server's "Send results" loop followed by the terminator, read by the
    client's "Receive results" loop, gives the client one output file per
    result, in order, named after the result's name, with exactly the bytes
    the handler wrote; the loop ends without error and the stream is
    consumed to its end. *)
Theorem response_roundtrip (ws wc : world) (files : list (pystr * bytes))
    (q : list bytes) (sn : list (part * bytes)) (sfs cfs : gmap pystr bytes) :
  let od := join (w_cwd wc) (lit "converted_files") in
  let ts := strftime (w_now wc) in
  Forall (fun f => sfs !! normpath f.1 = Some f.2
                   /\ wire_name (basename f.1) /\ len f.2 < 2 ^ 64
                   /\ w_open_wb wc (unique_path od ts (basename f.1)) = None)
         files ->
  exists response,
    (do! send_results ws (map fst files) in
     let! zero := lift (to_bytes 4 0) in
     send Terminator zero) (State q sn None sfs)
    = (Ok tt, State q (sn ++ response) None sfs)
    /\ recv_results wc (connect (deliver response) cfs)
       = (Ok (map (fun f => unique_path od ts (basename f.1)) files),
          State [] [] None
                (store od ts cfs (map (fun f => (basename f.1, f.2)) files))).
Proof.
  intros od ts Hfiles.
  exists (flat_map (fun f => frame (basename f.1) f.2) files
          ++ [(Terminator, be_bytes 4 0)]).
  split.
  - unfold bind at 1. rewrite send_results_ok.
    + unfold bind, lift. rewrite to_bytes_ok by done.
      rewrite send_open by done. cbn [inq sent credit fs].
      by rewrite app_assoc.
    + eapply Forall_impl; [exact Hfiles|]. intros f (?&?&?&?). done.
  - set (named := map (fun f : pystr * bytes => (basename f.1, f.2)) files).
    assert (Hframes : flat_map (fun f => frame (basename f.1) f.2) files
                      = flat_map (fun f => frame f.1 f.2) named).
    { subst named. clear. induction files as [|f files IH]; [done|].
      cbn [map flat_map fst snd]. by rewrite IH. }
    assert (Hnamed : Forall (fun f => wire_name f.1 /\ len f.2 < 2 ^ 64
                       /\ w_open_wb wc (unique_path od ts f.1) = None) named).
    { subst named. apply Forall_map. eapply Forall_impl; [exact Hfiles|].
      intros f (?&?&?&?). done. }
    unfold recv_results. fold od ts. unfold connect. cbn [inq].
    rewrite Hframes.
    replace (deliver (flat_map (fun f => frame f.1 f.2) named
                      ++ [(Terminator, be_bytes 4 0)]))
      with (deliver (flat_map (fun f => frame f.1 f.2) named)
            ++ [be_bytes 4 0])
      by (unfold deliver; by rewrite map_app).
    pose proof (stream_frames_length named [be_bytes 4 0]) as Hlen.
    destruct (Nat.le_exists_sub _ _ Hlen) as (k & Hk & _).
    rewrite Hk.
    replace (S (k + length named)) with (length named + S k)%nat by lia.
    rewrite recv_results_frames with (q := [be_bytes 4 0]);
      [|exact Hnamed|reflexivity].
    rewrite recv_results_terminator by reflexivity.
    cbn [sent credit fs app]. subst named. rewrite map_map. reflexivity.
Qed.

Lemma response_roundtrip_witness :
  exists response,
    (do! send_results demo_world [lit "/tmp/tmpk3x9/page_1.png"] in
     let! zero := lift (to_bytes 4 0) in
     send Terminator zero)
      (State [] [] None {[ lit "/tmp/tmpk3x9/page_1.png" := [x01; x02; x03] ]})
    = (Ok tt, State [] ([] ++ response) None
                    {[ lit "/tmp/tmpk3x9/page_1.png" := [x01; x02; x03] ]})
    /\ recv_results demo_world (connect (deliver response) ∅)
       = (Ok [lit "/home/user/converted_files/page_1_20240105_090307.png"],
          State [] [] None
                {[ lit "/home/user/converted_files/page_1_20240105_090307.png"
                   := [x01; x02; x03] ]}).
Proof.
  apply (response_roundtrip demo_world demo_world
           [(lit "/tmp/tmpk3x9/page_1.png", [x01; x02; x03])] [] []
           {[ lit "/tmp/tmpk3x9/page_1.png" := [x01; x02; x03] ]} ∅).
  repeat constructor; try done; try (cbn; lia).
Defined.

(** ** A stream that closes between two records *)



(** ** What a connection handler sends *)

Section Emits.
Context {P : part -> Prop}.






















End Emits.








(** ** Terminator and error record *)





(** ** Width and height of a resize *)




(** ** Names of the output files of the client *)

(** The timestamp in an output name has the resolution of one second. *)
Lemma strftime_ignores_microsecond (y mo d h mi sec us1 us2 : Z) :
  strftime (Datetime y mo d h mi sec us1)
  = strftime (Datetime y mo d h mi sec us2).
Proof. reflexivity. Qed.

(** C6 fails on the code: two calls of [send_request] that begin in the same
    second (here at 09:03:07.25 and 09:03:07.90 of the same day) and each
    receive a result named "converted.jpg" write the same local path, and
    the second call overwrites the output of the first. *)
Theorem same_second_same_path :
  let response c := deliver (frame (lit "converted.jpg") c
                             ++ [(Terminator, be_bytes 4 0)]) in
  let first := recv_results demo_world (connect (response [x01]) ∅) in
  let second := recv_results dims_world
                  (connect (response [x02]) (fs first.2)) in
  w_now demo_world <> w_now dims_world
  /\ first.1 = Ok [lit "/home/user/converted_files/converted_20240105_090307.jpg"]
  /\ second.1 = first.1
  /\ fs first.2
      !! lit "/home/user/converted_files/converted_20240105_090307.jpg"
     = Some [x01]
  /\ fs second.2
      !! lit "/home/user/converted_files/converted_20240105_090307.jpg"
     = Some [x02]
  /\ size (fs second.2) = 1%nat.
Proof. vm_compute. repeat split; congruence. Qed.

(** ** The length prefix of the request *)

(** For an ASCII metadata line the prefix is the number of bytes that
    follow. *)
Lemma metadata_prefix_ascii (metadata : pystr) :
  is_ascii metadata ->
  encode metadata = Ok (map byte_of_Z metadata)
  /\ len (map byte_of_Z metadata) = len metadata.
Proof. intros H. split; [by apply encode_ascii|apply len_map]. Qed.

(** C7 fails on the code: the prefix is [len(metadata)], the number of
    characters, and not the number of bytes of [metadata.encode()].  For
    the file "é.png" (three bytes long) and the conversion "png2jpg" the
    client announces 15 bytes and sends 16.  The server reads 15, so that
    the last byte of the metadata, the "3" of the file size, is left in the
    stream in front of the payload; the size field it parses is empty and
    the request fails, although it is a valid one. *)
Theorem length_prefix_counts_characters :
  let file_path := 233 :: lit ".png" in
  let cfs : gmap pystr bytes := {[ file_path := [x01; x02; x03] ]} in
  let request :=
    sent (send_file demo_world file_path (lit "png2jpg") None
                    (connect [] cfs)).2 in
  exists l m,
    request = [(ReqLen, l); (ReqMeta, m); (ReqChunk, [x01; x02; x03])]
    /\ from_bytes l = 15 /\ len m = 16
    /\ decode_chars m = Some (233 :: lit ".png|png2jpg|3")
    /\ (handle_client demo_world (connect (deliver request) ∅)).1
       = Ok (Failed (Exn ValueError
                         (lit "invalid literal for int() with base 10")))
    /\ (exchange demo_world demo_world cfs ∅ file_path (lit "png2jpg") None).1.1
       = Raise (Exn RuntimeError
                    (lit "ERROR: invalid literal for int() with base 10")).
Proof.
  exists (be_bytes 4 15), (map byte_of_Z (195 :: 169 :: lit ".png|png2jpg|3")).
  vm_compute. repeat split; reflexivity.
Qed.

(** ** The scratch file of the server *)

(** [os.path.join] gives way to an absolute second argument. *)
Lemma join_absolute (temp_dir file_name : pystr) :
  join temp_dir (47 :: file_name) = 47 :: file_name.
Proof. unfold join. cbn [startswith]. by rewrite Z.eqb_refl. Qed.

(** C10. There are requests whose payload the server writes outside the
    scratch directory of the connection: a file name with ".." components
    and a file name that is an absolute path.  In both cases the file is
    still there when the handler has returned and the scratch directory
    has been removed. *)
Theorem upload_escapes_scratch_dir :
  (exists (request : list bytes) (p : pystr),
      let st' := (handle_client demo_world (connect request ∅)).2 in
      request = raw_request "../evil.png|bogus|3" [x01; x02; x03]
      /\ fs st' !! p = Some [x01; x02; x03]
      /\ p = lit "/tmp/evil.png"
      /\ inside (w_temp_dir demo_world) p = false)
  /\ (exists (request : list bytes) (p : pystr),
      let st' := (handle_client demo_world (connect request ∅)).2 in
      request = raw_request "/home/user/.profile|png2jpg|3" [x01; x02; x03]
      /\ fs st' !! p = Some [x01; x02; x03]
      /\ p = lit "/home/user/.profile"
      /\ inside (w_temp_dir demo_world) p = false).
Proof.
  split.
  - exists (raw_request "../evil.png|bogus|3" [x01; x02; x03]),
           (lit "/tmp/evil.png").
    vm_compute. repeat split; reflexivity.
  - exists (raw_request "/home/user/.profile|png2jpg|3" [x01; x02; x03]),
           (lit "/home/user/.profile").
    vm_compute. repeat split; reflexivity.
Qed.

(** ** Reads of the framing layer *)

Lemma handle_client_closed (w : world) (st : state) :
  stream (inq st) = [] ->
  handle_client w st
  = (Ok Disconnected, State [] (sent st) (credit st) (fs st)).
Proof.
  intros H. unfold handle_client, serve, bind. by rewrite recv_closed.
Qed.

(** C2, as the code has it.  The two payload loops (the upload on the
    server, each result on the client) obtain exactly [file_size] bytes,
    however the stream is cut into segments, and consume nothing more; if
    the stream closes before that count they raise [ConnectionError], the
    bytes that did arrive being written to the file.  The first read of the
    server, of the metadata length, is guarded: on a stream that is already
    closed the handler returns without raising and sends nothing.  On the
    client a closed stream at the name length ends the loop as the
    terminator does. *)
Theorem payload_reads_are_exact (msg path : pystr) (file_size : Z)
    (st : state) :
  ((Z.to_nat file_size <= length (stream (inq st)))%nat ->
   exists st',
     recv_file msg path file_size st = (Ok tt, st')
     /\ stream (inq st') = drop (Z.to_nat file_size) (stream (inq st))
     /\ fs st' = alter (fun c => c ++ take (Z.to_nat file_size)
                                          (stream (inq st)))
                       (normpath path) (fs st)
     /\ sent st' = sent st)
  /\ ((length (stream (inq st)) < Z.to_nat file_size)%nat ->
      exists st',
        recv_file msg path file_size st
        = (Raise (Exn ConnectionError msg), st')
        /\ stream (inq st') = []
        /\ fs st' = alter (fun c => c ++ stream (inq st))
                          (normpath path) (fs st)
        /\ sent st' = sent st)
  /\ (stream (inq st) = [] ->
      forall w, handle_client w st
                = (Ok Disconnected, State [] (sent st) (credit st) (fs st)))
  /\ (stream (inq st) = [] ->
      forall w fuel od ts outs,
        recv_results_loop (S fuel) w od ts outs st
        = (Ok outs, State [] (sent st) (credit st) (fs st))).
Proof.
  repeat split.
  - intros H. eexists. split; [by apply recv_file_ok|].
    cbn [inq fs sent]. by rewrite stream_skip_bytes.
  - intros H. eexists. split; [by apply recv_file_closed|]. done.
  - intros H w. by apply handle_client_closed.
  - intros H w fuel od ts outs. by apply recv_results_closed.
Qed.

Lemma payload_reads_are_exact_witness :
  exists st',
    recv_file (lit "closed") (lit "/tmp/f") 3
      (State [[x01]; [x02; x03; x04]; [x05]] [] None {[ lit "/tmp/f" := [] ]})
    = (Ok tt, st')
    /\ stream (inq st') = [x04; x05]
    /\ fs st' !! lit "/tmp/f" = Some [x01; x02; x03]
    /\ sent st' = [].
Proof.
  destruct (proj1 (payload_reads_are_exact (lit "closed") (lit "/tmp/f") 3
      (State [[x01]; [x02; x03; x04]; [x05]] [] None {[ lit "/tmp/f" := [] ]})))
    as (st' & H1 & H2 & H3 & H4).
  { vm_compute. lia. }
  exists st'. split; [exact H1|]. split; [exact H2|]. split; [|exact H4].
  rewrite H3. vm_compute. reflexivity.
Defined.

(** C2 as the specification states it fails at the first read of the
    server: on a connection closed before the four bytes of the metadata
    length, nothing is raised. *)
Lemma closed_before_metadata_length :
  length (stream (inq (connect [] ∅))) = 0%nat
  /\ serve demo_world (connect [] ∅) = (Ok Disconnected, connect [] ∅)
  /\ ~ (exists e st', serve demo_world (connect [] ∅) = (Raise e, st')).
Proof.
  assert (E : serve demo_world (connect [] ∅)
              = (Ok Disconnected, connect [] ∅)) by (vm_compute; reflexivity).
  split; [reflexivity|]. split; [exact E|].
  intros (e & st' & H). rewrite E in H. discriminate H.
Qed.

(** The reads of the header fields are single [recv] calls, and use what
    they get.  Here the name length of a complete response arrives in two
    segments of two bytes: the client reads the first two, takes them for
    the terminator and returns no file. *)
Example split_length_field_is_misread :
  (recv_results demo_world
     (connect ([x00; x00] :: [x00; x0a]
               :: tail (deliver (frame (lit "page_1.png") [x01]
                                 ++ [(Terminator, be_bytes 4 0)]))) ∅)).1
  = Ok [].
Proof. vm_compute. reflexivity. Qed.

(** ** The metadata line and its fields *)

Lemma split_on_field (a : pystr) : 124 ∉ a -> split_on 124 a = [a].
Proof.
  induction a as [|c a IH]; intros H; [reflexivity|].
  apply not_elem_of_cons in H as [Hc Ha]. cbn [split_on].
  destruct (Z.eqb_spec c 124); [congruence|]. by rewrite IH.
Qed.

Lemma split_on_app (a rest : pystr) :
  124 ∉ a -> split_on 124 (a ++ 124 :: rest) = a :: split_on 124 rest.
Proof.
  induction a as [|c a IH]; intros H.
  - cbn [app split_on]. by rewrite Z.eqb_refl.
  - apply not_elem_of_cons in H as [Hc Ha]. cbn [app split_on].
    destruct (Z.eqb_spec c 124); [congruence|]. by rewrite IH.
Qed.

Lemma digits_Forall (P : Z -> Prop) (fuel : nat) (n : Z) (acc : pystr) :
  (forall d, 0 <= d < 10 -> P (48 + d)) ->
  Forall P acc -> Forall P (digits fuel n acc).
Proof.
  intros HP. revert n acc. induction fuel as [|fuel IH]; intros n acc Hacc;
    cbn [digits].
  - constructor; [|done]. apply HP, Z.mod_pos_bound. lia.
  - destruct (n <? 10).
    + constructor; [|done]. apply HP, Z.mod_pos_bound. lia.
    + apply IH. constructor; [|done]. apply HP, Z.mod_pos_bound. lia.
Qed.

Lemma str_of_int_Forall (P : Z -> Prop) (n : Z) :
  P 45 -> (forall d, 0 <= d < 10 -> P (48 + d)) -> Forall P (str_of_int n).
Proof.
  intros H45 HP. unfold str_of_int. destruct (n <? 0).
  - constructor; [done|]. by apply digits_Forall.
  - by apply digits_Forall.
Qed.

Lemma str_of_int_ascii (n : Z) : is_ascii (str_of_int n).
Proof. apply str_of_int_Forall; intros; lia. Qed.

Lemma str_of_int_no_bar (n : Z) : 124 ∉ str_of_int n.
Proof.
  pose proof (str_of_int_Forall (fun c => c <> 124) n) as H.
  rewrite Forall_forall in H. intros Hin. eapply H; [lia| |exact Hin|done].
  intros; lia.
Qed.

Lemma add_extras_tail (m : pystr) (items : list (pystr * Z)) :
  add_extras m items = m ++ extras_tail items.
Proof.
  revert m. induction items as [|[k v] items IH]; intros m.
  - cbn. by rewrite app_nil_r.
  - cbn [add_extras]. rewrite IH. unfold extras_tail. cbn [map concat snd].
    change (lit "|") with [124]. rewrite <- !app_assoc. reflexivity.
Qed.

Lemma extras_tail_shape (items : list (pystr * Z)) :
  (extras_tail items = [] \/ exists t, extras_tail items = 124 :: t)
  /\ is_ascii (extras_tail items).
Proof.
  split.
  - destruct items as [|[k v] items]; [by left|right].
    unfold extras_tail. cbn [map concat snd]. change (lit "|") with [124].
    cbn [app]. eauto.
  - induction items as [|[k v] items IH]; [constructor|].
    unfold extras_tail. cbn [map concat snd].
    apply is_ascii_app. split; [|exact IH].
    apply is_ascii_app. split; [|apply str_of_int_ascii].
    change (lit "|") with [124]. repeat constructor; lia.
Qed.

Lemma make_metadata_shape (fn ct : pystr) (size : Z)
    (extra_params : option (list (pystr * Z))) :
  exists tail,
    make_metadata fn ct size extra_params
    = fn ++ 124 :: ct ++ 124 :: str_of_int size ++ tail
    /\ (tail = [] \/ exists t, tail = 124 :: t)
    /\ is_ascii tail.
Proof.
  unfold make_metadata. change (lit "|") with [124].
  destruct extra_params as [[|item items]|].
  - exists []. rewrite app_nil_r. split; [reflexivity|].
    split; [by left|constructor].
  - exists (extras_tail (item :: items)).
    rewrite add_extras_tail. split; [|apply extras_tail_shape].
    rewrite <- !app_assoc. reflexivity.
  - exists []. rewrite app_nil_r. split; [reflexivity|].
    split; [by left|constructor].
Qed.

Lemma make_metadata_fields (fn ct : pystr) (size : Z)
    (extra_params : option (list (pystr * Z))) :
  is_ascii fn -> is_ascii ct -> 124 ∉ fn -> 124 ∉ ct ->
  let metadata := make_metadata fn ct size extra_params in
  is_ascii metadata /\ metadata <> []
  /\ exists ps, split_on 124 metadata = fn :: ct :: str_of_int size :: ps.
Proof.
  intros Hfn Hct Hnf Hnc metadata. subst metadata.
  destruct (make_metadata_shape fn ct size extra_params)
    as (tail & -> & Htail & Hascii).
  split; [|split].
  - apply is_ascii_app. split; [done|]. constructor; [lia|].
    apply is_ascii_app. split; [done|]. constructor; [lia|].
    apply is_ascii_app. split; [apply str_of_int_ascii|done].
  - by destruct fn.
  - rewrite split_on_app by done. rewrite split_on_app by done.
    destruct Htail as [->|[t ->]].
    + rewrite app_nil_r, split_on_field by apply str_of_int_no_bar. eauto.
    + rewrite split_on_app by apply str_of_int_no_bar. eauto.
Qed.

(** ** An exchange, end to end *)

Lemma be_bytes_nonempty (k : nat) (n : Z) : (0 < k)%nat -> be_bytes k n <> [].
Proof.
  intros Hk E. apply (f_equal length) in E. rewrite length_be_bytes in E.
  simpl in E. lia.
Qed.

Lemma send_file_ok (w : world) (file_path conversion_type : pystr)
    (extra_params : option (list (pystr * Z))) (content : bytes)
    (q : list bytes) (sn : list (part * bytes)) (cfs : gmap pystr bytes) :
  let metadata := make_metadata (basename file_path) conversion_type
                                (len content) extra_params in
  cfs !! normpath file_path = Some content ->
  is_ascii metadata -> len metadata < 2 ^ 32 ->
  send_file w file_path conversion_type extra_params (State q sn None cfs)
  = (Ok tt,
     State q (sn ++ [(ReqLen, be_bytes 4 (len metadata));
                     (ReqMeta, map byte_of_Z metadata)]
                 ++ map (pair ReqChunk) (chunks content))
           None cfs).
Proof.
  intros metadata Hfile Hascii Hlen.
  change (2 ^ 32) with 4294967296 in Hlen.
  pose proof (len_nonneg metadata).
  unfold send_file. unfold bind at 1. unfold getsize, bind at 1.
  unfold read_file at 1. cbn [fs]. rewrite Hfile. unfold ret at 1.
  fold metadata.
  unfold bind at 1. unfold lift at 1.
  rewrite to_bytes_ok by (rewrite pow_256_4; lia).
  unfold bind at 1. rewrite send_open by done.
  unfold bind at 1. unfold lift at 1. rewrite encode_ascii by done.
  unfold bind at 1. rewrite send_open by done.
  unfold bind at 1. unfold read_file at 1. cbn [inq sent credit fs].
  rewrite Hfile. rewrite send_chunks_open by done. cbn [inq sent credit fs].
  by rewrite <- !app_assoc.
Qed.

Lemma send_error_open (e : exn) (q : list bytes) (sn : list (part * bytes))
    (m : gmap pystr bytes) :
  is_ascii (exn_str e) -> len (exn_str e) + 7 < 2 ^ 32 ->
  send_error e (State q sn None m)
  = (Ok tt,
     State q (sn ++ [(ErrLen, be_bytes 4 (len (exn_str e) + 7));
                     (ErrMsg, map byte_of_Z (lit "ERROR: " ++ exn_str e))])
           None m).
Proof.
  intros Hascii Hlen. change (2 ^ 32) with 4294967296 in Hlen.
  pose proof (len_nonneg (exn_str e)).
  assert (Ha : is_ascii (lit "ERROR: " ++ exn_str e)).
  { apply is_ascii_app. split; [|done]. repeat constructor; lia. }
  assert (Hl : len (map byte_of_Z (lit "ERROR: " ++ exn_str e))
               = len (exn_str e) + 7).
  { rewrite len_map, len_app. change (len (lit "ERROR: ")) with 7. lia. }
  unfold send_error, try_pass, bind, lift.
  rewrite encode_ascii by done. rewrite Hl.
  rewrite to_bytes_ok by (rewrite pow_256_4; lia).
  rewrite send_open by done. rewrite send_open by done.
  cbn [inq sent credit fs]. by rewrite <- app_assoc.
Qed.

Lemma recv_results_error (w : world) (msg : pystr) (st : state) :
  is_ascii msg -> startswith (lit "ERROR:") msg = true ->
  len msg < 2 ^ 32 ->
  inq st = [be_bytes 4 (len msg); map byte_of_Z msg] ->
  recv_results w st
  = (Raise (Exn RuntimeError msg), State [] (sent st) (credit st) (fs st)).
Proof.
  intros Hascii Herr Hlen Hq. change (2 ^ 32) with 4294967296 in Hlen.
  pose proof (len_nonneg msg).
  assert (Hne : msg <> []) by (intros ->; discriminate Herr).
  unfold recv_results. cbn [recv_results_loop]. unfold bind at 1.
  rewrite (recv_whole 4 _ _ st Hq);
    [|by apply be_bytes_nonempty; lia|by rewrite length_be_bytes].
  rewrite from_bytes_be_bytes by (rewrite pow_256_4; lia).
  destruct (Z.eqb_spec (len msg) 0) as [E0|_].
  { apply len_nil_iff in E0. done. }
  unfold bind at 1.
  erewrite recv_whole; [|reflexivity| |].
  2: { by destruct msg. }
  2: { rewrite length_map. unfold len. lia. }
  unfold bind at 1. unfold lift at 1. rewrite decode_ascii by done.
  by rewrite Herr.
Qed.

Lemma recv_file_chunks (msg path : pystr) (content : bytes)
    (sn : list (part * bytes)) (cr : option nat) (files : gmap pystr bytes) :
  recv_file msg path (len content)
            (State (chunks content) sn cr (<[normpath path := []]> files))
  = (Ok tt, State [] sn cr (<[normpath path := content]> files)).
Proof.
  pose proof (recv_file_segments msg path (chunks content) [] sn cr files
                (chunks_nonempty content)) as H.
  by rewrite chunks_concat, app_nil_r in H.
Qed.

Lemma serve_unsupported (ws : world) (sn : list (part * bytes))
    (sfs : gmap pystr bytes) (metadata file_name conversion size_s : pystr)
    (ps : list pystr) (content : bytes) :
  is_ascii metadata -> metadata <> [] -> len metadata < 2 ^ 32 ->
  split_on 124 metadata = file_name :: conversion :: size_s :: ps ->
  w_int ws size_s = inr (len content) ->
  w_open_wb ws (join (w_temp_dir ws) file_name) = None ->
  conversion_handlers !! conversion = None ->
  serve ws (State (be_bytes 4 (len metadata) :: map byte_of_Z metadata
                   :: chunks content) sn None sfs)
  = (Raise (Exn ValueError (lit "Unsupported conversion: " ++ conversion)),
     State [] sn None
           (filter (fun kv => inside (w_temp_dir ws) kv.1 = false)
                   (<[normpath (join (w_temp_dir ws) file_name) := content]>
                      sfs))).
Proof.
  intros Hascii Hne Hlen Hsplit Hint Hopen Hreg.
  change (2 ^ 32) with 4294967296 in Hlen.
  pose proof (len_nonneg metadata).
  unfold serve. unfold bind at 1.
  erewrite recv_whole;
    [|reflexivity|by apply be_bytes_nonempty; lia|by rewrite length_be_bytes].
  rewrite bool_decide_eq_false_2 by (by apply be_bytes_nonempty; lia).
  rewrite from_bytes_be_bytes by (rewrite pow_256_4; lia).
  unfold bind at 1.
  erewrite recv_whole; [|reflexivity| |].
  2: { by destruct metadata. }
  2: { rewrite length_map. unfold len. lia. }
  unfold bind at 1. unfold lift at 1. rewrite decode_ascii by done.
  cbn zeta. rewrite Hsplit. cbn [nth].
  replace (len (file_name :: conversion :: size_s :: ps) <? 3) with false
    by (symmetry; apply Z.ltb_ge; unfold len; cbn [length]; lia).
  unfold bind at 1. unfold py_int at 1. rewrite Hint. unfold ret at 1.
  unfold with_temp_dir. unfold bind at 1. unfold open_wb at 1.
  rewrite Hopen. cbn [inq sent credit fs]. unfold bind at 1.
  rewrite recv_file_chunks. rewrite Hreg. reflexivity.
Qed.

(** ** The builtins on examples *)

Example str_of_int_examples :
  str_of_int 1234567890 = lit "1234567890" /\ str_of_int (-40) = lit "-40"
  /\ str_of_int 0 = lit "0".
Proof. repeat split; reflexivity. Qed.

Example split_on_example :
  split_on 124 (lit "a|b||c|") = [lit "a"; lit "b"; lit ""; lit "c"; lit ""].
Proof. reflexivity. Qed.

Example to_bytes_examples :
  to_bytes 4 258 = Ok [x00; x00; x01; x02]
  /\ from_bytes [x00; x00; x01; x02] = 258
  /\ (exists e, to_bytes 4 (2 ^ 32) = Raise e).
Proof. repeat split; try reflexivity. by eexists. Qed.

Example encode_examples :
  encode (233 :: lit ".png") = Ok [xc3; xa9; x2e; x70; x6e; x67]
  /\ encode_char 8364 = Some [xe2; x82; xac]
  /\ encode_char 128512 = Some [xf0; x9f; x98; x80]
  /\ encode_char 55296 = None
  /\ decode_chars [xe2; x82; xac; xf0; x9f; x98; x80] = Some [8364; 128512]
  /\ decode_chars [xc0; x80] = None
  /\ decode_chars [xed; xa0; x80] = None.
Proof. repeat split; reflexivity. Qed.

Example path_examples :
  basename (lit "/tmp/x/converted.jpg") = lit "converted.jpg"
  /\ basename (lit "a/") = lit ""
  /\ join (lit "/tmp/t") (lit "../x") = lit "/tmp/t/../x"
  /\ join (lit "/tmp/t/") (lit "x") = lit "/tmp/t/x"
  /\ splitext (lit "page_1.png") = (lit "page_1", lit ".png")
  /\ splitext (lit ".bashrc") = (lit ".bashrc", lit "")
  /\ splitext (lit "a.b/c") = (lit "a.b/c", lit "")
  /\ normpath (lit "/tmp/t/../x") = lit "/tmp/x"
  /\ normpath (lit "//tmp/./t//x/") = lit "//tmp/t/x"
  /\ normpath (lit "../../a/..") = lit "../.."
  /\ inside (lit "/tmp/t") (lit "/tmp/t/x") = true
  /\ inside (lit "/tmp/t") (lit "/tmp/tx") = false.
Proof. repeat split; reflexivity. Qed.

Example strftime_example :
  strftime (Datetime 2024 1 5 9 3 7 123) = lit "20240105_090307".
Proof. reflexivity. Qed.

(** A PDF of two pages through "pdf2png", and what the client then holds. *)
Example pdf_exchange :
  let cfs : gmap pystr bytes := {[ lit "in/doc.pdf" := [x25; x50; x44] ]} in
  let r := exchange demo_world demo_world cfs ∅
                    (lit "in/doc.pdf") (lit "pdf2png") None in
  r.2.1 = Ok Completed
  /\ map fst (sent r.2.2)
     = [NameLen; Name; Size; Chunk; NameLen; Name; Size; Chunk; Terminator]
  /\ r.1.1
     = Ok [lit "/home/user/converted_files/page_1_20240105_090307.png";
           lit "/home/user/converted_files/page_2_20240105_090307.png"]
  /\ size (fs r.2.2) = 0%nat.
Proof. vm_compute. repeat split; reflexivity. Qed.

(** * The rest of the server and of the client *)

(** ** A plain name joined to an absolute directory *)

Lemma split_on_nonempty (sep : Z) (s : pystr) : split_on sep s <> [].
Proof.
  induction s as [|c s IH]; [done|]. cbn [split_on].
  destruct (c =? sep); [done|]. by destruct (split_on sep s).
Qed.

Lemma split_on_plain (sep : Z) (a : pystr) : sep ∉ a -> split_on sep a = [a].
Proof.
  induction a as [|c a IH]; intros H; [reflexivity|].
  apply not_elem_of_cons in H as [Hc Ha]. cbn [split_on].
  destruct (Z.eqb_spec c sep); [congruence|]. by rewrite IH.
Qed.

Lemma split_on_sep (sep : Z) (x y : pystr) :
  split_on sep (x ++ sep :: y) = split_on sep x ++ split_on sep y.
Proof.
  induction x as [|c x IH].
  - cbn [app split_on]. by rewrite Z.eqb_refl.
  - cbn [app split_on]. destruct (c =? sep); [by rewrite IH|].
    rewrite IH. pose proof (split_on_nonempty sep x).
    by destruct (split_on sep x).
Qed.

Lemma norm_comps_app (absolute : bool) (c1 c2 acc : list pystr) :
  norm_comps absolute (c1 ++ c2) acc
  = norm_comps absolute c2 (rev (norm_comps absolute c1 acc)).
Proof.
  revert acc. induction c1 as [|c c1 IH]; intros acc.
  - cbn [app norm_comps]. by rewrite rev_involutive.
  - cbn [app norm_comps]. by repeat case_match.
Qed.

Lemma norm_comps_plain (absolute : bool) (comps : list pystr) (name : pystr) :
  plain_name name ->
  norm_comps absolute (comps ++ [name]) []
  = norm_comps absolute comps [] ++ [name].
Proof.
  intros (Hne & _ & Hdot & Hdots). rewrite norm_comps_app. cbn [norm_comps].
  rewrite !bool_decide_eq_false_2 by done. cbn [negb orb].
  cbn [rev]. by rewrite rev_involutive.
Qed.

Lemma norm_comps_empty (absolute : bool) (comps : list pystr) :
  norm_comps absolute (comps ++ [[]]) [] = norm_comps absolute comps [].
Proof.
  rewrite norm_comps_app. cbn [norm_comps]. rewrite bool_decide_eq_true_2 by done.
  cbn [orb]. by rewrite rev_involutive.
Qed.

Lemma join_with_snoc (sep : Z) (l : list pystr) (x : pystr) :
  join_with sep (l ++ [x])
  = match l with [] => x | _ => join_with sep l ++ sep :: x end.
Proof.
  induction l as [|a l IH]; [reflexivity|].
  destruct l as [|b l]; [reflexivity|].
  change ((a :: b :: l) ++ [x]) with (a :: ((b :: l) ++ [x])).
  change (join_with sep (a :: (b :: l) ++ [x]))
    with (a ++ sep :: join_with sep ((b :: l) ++ [x])).
  rewrite IH.
  change (join_with sep (a :: b :: l)) with (a ++ sep :: join_with sep (b :: l)).
  by rewrite <- app_assoc.
Qed.

Lemma normpath_unfold (p : pystr) :
  p <> [] ->
  normpath p
  = let path := replicate (initial_slashes p) 47
                ++ join_with 47 (norm_comps (negb (Nat.eqb (initial_slashes p) 0))
                                            (split_on 47 p) []) in
    if bool_decide (path = []) then [46] else path.
Proof.
  intros H. unfold normpath. by rewrite bool_decide_eq_false_2.
Qed.

(** Joining a plain name to an absolute directory: the path that results
    splits in the components of the directory and the name. *)
Lemma join_plain_split (dir name : pystr) :
  startswith [47] dir = true -> plain_name name ->
  initial_slashes (join dir name) = initial_slashes dir
  /\ join dir name <> []
  /\ norm_comps true (split_on 47 (join dir name)) []
     = norm_comps true (split_on 47 dir) [] ++ [name].
Proof.
  intros Habs Hplain. pose proof Hplain as (Hne & Hslash & _ & _).
  destruct name as [|c name]; [done|].
  assert (Hc : c <> 47) by (intros ->; apply Hslash; left).
  destruct dir as [|a dir]; [discriminate Habs|].
  cbn [startswith] in Habs. rewrite andb_true_r in Habs.
  apply Z.eqb_eq in Habs as <-.
  unfold join. cbn [startswith]. destruct (Z.eqb_spec 47 c); [congruence|].
  cbn [andb]. rewrite (bool_decide_eq_false_2 (_ = [])) by done. cbn [orb].
  destruct (bool_decide_reflect (last (47 :: dir) = Some 47)) as [Hl|Hl].
  - split; [|split].
    + unfold initial_slashes. destruct dir as [|b [|b' dir]].
      * cbn [app startswith]. rewrite ?Z.eqb_refl.
        by destruct (Z.eqb_spec 47 c).
      * injection Hl as ->. cbn [app startswith]. rewrite ?Z.eqb_refl.
        by destruct (Z.eqb_spec 47 c).
      * reflexivity.
    + done.
    + apply last_Some in Hl as [d' Hd']. rewrite Hd'. rewrite <- app_assoc.
      cbn [app]. rewrite !split_on_sep.
      change (split_on 47 []) with [@nil Z].
      rewrite (split_on_plain 47 (c :: name)) by done.
      rewrite norm_comps_empty. by apply norm_comps_plain.
  - split; [|split].
    + unfold initial_slashes. destruct dir as [|b [|b' dir]].
      * by exfalso; apply Hl.
      * cbn [app startswith]. rewrite ?Z.eqb_refl.
        destruct (Z.eqb_spec 47 b); [|done].
        subst b. by exfalso; apply Hl.
      * reflexivity.
    + done.
    + change ((47 :: dir) ++ [47] ++ c :: name)
        with ((47 :: dir) ++ 47 :: c :: name).
      rewrite split_on_sep. rewrite (split_on_plain 47 (c :: name)) by done.
      by apply norm_comps_plain.
Qed.

Lemma initial_slashes_absolute (p : pystr) :
  startswith [47] p = true ->
  exists k, initial_slashes p = S k.
Proof.
  intros H. unfold initial_slashes. rewrite H.
  destruct (_ && _); eauto.
Qed.

(** The normal form of an absolute directory and of a plain name joined to
    it. *)
Lemma normpath_join_plain (dir name : pystr) :
  startswith [47] dir = true -> plain_name name ->
  exists k comps,
    normpath dir = replicate (S k) 47 ++ join_with 47 comps
    /\ normpath (join dir name)
       = replicate (S k) 47 ++ join_with 47 (comps ++ [name]).
Proof.
  intros Habs Hplain.
  destruct (join_plain_split dir name Habs Hplain) as (Hs & Hne & Hcomps).
  destruct (initial_slashes_absolute dir Habs) as [k Hk].
  exists k, (norm_comps true (split_on 47 dir) []).
  split.
  - rewrite normpath_unfold by (by destruct dir). cbn zeta.
    rewrite Hk. cbn [Nat.eqb negb]. by rewrite bool_decide_eq_false_2.
  - rewrite normpath_unfold by done. cbn zeta. rewrite Hs, Hk.
    cbn [Nat.eqb negb]. rewrite Hcomps. by rewrite bool_decide_eq_false_2.
Qed.

Lemma startswith_app (a b : pystr) : startswith a (a ++ b) = true.
Proof.
  induction a as [|x a IH]; [reflexivity|].
  cbn [app startswith]. by rewrite Z.eqb_refl, IH.
Qed.

(** A plain name joined to an absolute directory names a file below that
    directory. *)
Lemma plain_name_inside (dir name : pystr) :
  startswith [47] dir = true -> plain_name name ->
  inside dir (join dir name) = true.
Proof.
  intros Habs Hplain.
  destruct (normpath_join_plain dir name Habs Hplain) as (k & comps & Hd & Hq).
  pose proof Hplain as (Hne & _).
  unfold inside. cbn zeta. rewrite Hq, Hd. rewrite join_with_snoc.
  apply andb_true_intro. split.
  - destruct comps as [|c0 comps].
    + rewrite bool_decide_eq_true_2.
      * cbn [join_with]. rewrite app_nil_r. apply startswith_app.
      * cbn [join_with]. rewrite app_nil_r.
        clear. induction k as [|k IH]; [reflexivity|].
        change (replicate (S (S k)) 47) with (47 :: replicate (S k) 47).
        rewrite last_cons, IH. reflexivity.
    + case_bool_decide.
      * rewrite app_assoc. apply startswith_app.
      * rewrite app_assoc.
        change (47 :: name) with ([47] ++ name).
        rewrite (app_assoc _ [47] name). apply startswith_app.
  - apply negb_true_iff, bool_decide_eq_false_2. intros Heq.
    apply (f_equal (@length Z)) in Heq.
    destruct comps as [|c0 comps].
    + cbn [join_with] in Heq. rewrite !length_app in Heq.
      destruct name; [done|]. cbn [length] in Heq. lia.
    + rewrite !length_app in Heq. cbn [length] in Heq. lia.
Qed.

(** Two plain names joined to one absolute directory name one file only if
    they are the same name. *)
Lemma normpath_join_inj (dir a b : pystr) :
  startswith [47] dir = true -> plain_name a -> plain_name b ->
  normpath (join dir a) = normpath (join dir b) -> a = b.
Proof.
  intros Habs Ha Hb Heq.
  destruct (join_plain_split dir a Habs Ha) as (Hsa & Hnea & Hca).
  destruct (join_plain_split dir b Habs Hb) as (Hsb & Hneb & Hcb).
  destruct (initial_slashes_absolute dir Habs) as [k Hk].
  rewrite !normpath_unfold in Heq by done. cbn zeta in Heq.
  rewrite Hsa, Hsb, Hk in Heq. cbn [Nat.eqb negb] in Heq.
  rewrite Hca, Hcb in Heq.
  rewrite !bool_decide_eq_false_2 in Heq by done.
  apply app_inv_head in Heq. rewrite !join_with_snoc in Heq.
  destruct (norm_comps true (split_on 47 dir) []); [done|].
  apply app_inv_head in Heq. by injection Heq.
Qed.

(** ** The names of the result files *)

Lemma rfind_from_notin (i c : Z) (s : pystr) (best : Z) :
  c ∉ s -> rfind_from i c s best = best.
Proof.
  revert i best. induction s as [|x s IH]; intros i best H; [reflexivity|].
  apply not_elem_of_cons in H as [Hx Hs]. cbn [rfind_from].
  destruct (Z.eqb_spec x c); [congruence|]. by apply IH.
Qed.

Lemma rfind_from_last (i c : Z) (x y : pystr) (best : Z) :
  c ∉ y -> rfind_from i c (x ++ c :: y) best = i + len x.
Proof.
  intros Hy. revert i best. induction x as [|a x IH]; intros i best.
  - cbn [app rfind_from]. rewrite Z.eqb_refl, rfind_from_notin by done.
    unfold len. simpl. lia.
  - cbn [app rfind_from]. rewrite IH. unfold len. cbn [length]. lia.
Qed.

Lemma basename_plain (name : pystr) : 47 ∉ name -> basename name = name.
Proof.
  intros H. unfold basename, rfind. by rewrite rfind_from_notin.
Qed.

Lemma basename_last (x name : pystr) :
  47 ∉ name -> basename (x ++ 47 :: name) = name.
Proof.
  intros H. unfold basename, rfind. rewrite rfind_from_last by done.
  replace (Z.to_nat (0 + len x + 1)) with (length x + 1)%nat
    by (unfold len; lia).
  rewrite drop_app_ge by lia.
  by replace (length x + 1 - length x)%nat with 1%nat by lia.
Qed.

Lemma basename_join (dir name : pystr) :
  47 ∉ name -> name <> [] -> basename (join dir name) = name.
Proof.
  intros H Hne. unfold join.
  destruct name as [|c name]; [done|].
  assert (Hc : c <> 47) by (intros ->; apply H; left).
  cbn [startswith]. destruct (Z.eqb_spec 47 c); [congruence|]. cbn [andb].
  destruct (bool_decide_reflect (dir = [])) as [->|Hdir]; cbn [orb].
  - by apply basename_plain.
  - destruct (bool_decide_reflect (last dir = Some 47)) as [Hl|Hl].
    + apply last_Some in Hl as [dir' ->]. rewrite <- app_assoc.
      by apply basename_last.
    + by apply basename_last.
Qed.

Lemma digits_length (fuel : nat) (n : Z) (acc : pystr) :
  (length (digits fuel n acc) <= S fuel + length acc)%nat.
Proof.
  revert n acc. induction fuel as [|fuel IH]; intros n acc; cbn [digits].
  - simpl. lia.
  - destruct (n <? 10); [simpl; lia|].
    etransitivity; [apply IH|]. simpl. lia.
Qed.

Lemma str_of_int_len (n : Z) : 0 <= n -> len (str_of_int n) <= Z.log2 n + 1.
Proof.
  intros Hn. unfold str_of_int. destruct (Z.ltb_spec n 0); [lia|].
  pose proof (digits_length (Z.to_nat (Z.log2 n)) n []) as Hd.
  pose proof (Z.log2_nonneg n). unfold len. simpl in Hd. lia.
Qed.

Lemma page_name_wire (k : Z) :
  0 < k < 2 ^ 31 ->
  let name := lit "page_" ++ str_of_int k ++ lit ".png" in
  wire_name name /\ 47 ∉ name.
Proof.
  intros Hk name.
  assert (Hd : Forall (fun c => 48 <= c <= 57 \/ c = 45) (str_of_int k)).
  { apply str_of_int_Forall; intros; lia. }
  assert (Hall : Forall (fun c => 0 <= c < 128 /\ c <> 47) name).
  { subst name. change (lit "page_") with [112; 97; 103; 101; 95].
    change (lit ".png") with [46; 112; 110; 103].
    apply Forall_app. split; [repeat (constructor; [lia|]); constructor|].
    apply Forall_app. split; [|repeat (constructor; [lia|]); constructor].
    eapply Forall_impl; [exact Hd|]. intros c Hc. cbn beta in Hc. lia. }
  split; [split; [|split; [|split]]|].
  - done.
  - eapply Forall_impl; [exact Hall|]. intros c Hc. cbn beta in Hc. lia.
  - reflexivity.
  - subst name. rewrite !len_app.
    pose proof (str_of_int_len k ltac:(lia)) as Hl.
    assert (Z.log2 k < 31) by (apply Z.log2_lt_pow2; lia).
    change (len (lit "page_")) with 5. change (len (lit ".png")) with 4.
    change (2 ^ 32) with 4294967296. lia.
  - intros Hin. rewrite Forall_forall in Hall. apply Hall in Hin. lia.
Qed.

Lemma save_pages_length (dir : pystr) (pages : list bytes) (i : Z)
    (outs : list pystr) (st : state) (r : list pystr) (st' : state) :
  save_pages dir i pages outs st = (Ok r, st') ->
  len r = len outs + len pages.
Proof.
  revert i outs st. induction pages as [|pix pages IH]; intros i outs st H.
  - cbn in H. injection H as <- _. unfold len. cbn [length]. lia.
  - cbn [save_pages] in H. unfold bind at 1, save at 1 in H.
    apply IH in H. rewrite H, len_app. unfold len. cbn [length]. lia.
Qed.

Lemma save_pages_names (dir : pystr) (pages : list bytes) (i : Z)
    (outs : list pystr) (st : state) (r : list pystr) (st' : state) :
  0 <= i -> i + len pages < 2 ^ 31 ->
  Forall (fun p => wire_name (basename p)) outs ->
  save_pages dir i pages outs st = (Ok r, st') ->
  Forall (fun p => wire_name (basename p)) r.
Proof.
  revert i outs st. induction pages as [|pix pages IH];
    intros i outs st Hi Hn Houts H.
  - cbn in H. by injection H as <- _.
  - cbn [save_pages] in H. unfold bind at 1, save at 1 in H.
    unfold len in Hn. cbn [length] in Hn.
    eapply (IH (i + 1)); [lia|unfold len; lia| |exact H].
    apply Forall_app. split; [done|]. constructor; [|constructor].
    destruct (page_name_wire (i + 1) ltac:(lia)) as [Hw Hs].
    rewrite basename_join; [done|done|]. by destruct Hw.
Qed.

Ltac literal_name :=
  rewrite basename_join;
  [ split; [done|split; [repeat constructor; lia|split; [reflexivity|done]]]
  | let H := fresh in
    intros H;
    repeat (apply elem_of_cons in H as [H|H]; [discriminate H|]);
    by apply elem_of_nil in H
  | done ].

(** The five handlers give their result files names that the response
    framing carries (when there are fewer than 2^31 of them, which bounds
    the pages of a PDF). *)
Lemma run_handler_names (w : world) (h : handler) (input dir : pystr)
    (dims : option (Z * Z)) (st : state) (outs : list pystr) (st' : state) :
  len outs < 2 ^ 31 ->
  run_handler w h input dir dims st = (Ok outs, st') ->
  Forall (fun p => wire_name (basename p)) outs.
Proof.
  intros Hpages H. unfold run_handler in H. unfold bind at 1, peek at 1 in H.
  destruct h.
  - unfold bind at 1, library at 1 in H.
    destruct (w_fitz_pages w (fs st !! normpath input)) as [msg|pages] eqn:E;
      [discriminate H|].
    pose proof (save_pages_length _ _ _ _ _ _ _ H) as Hl.
    change (len (@nil pystr)) with 0 in Hl.
    eapply save_pages_names; [| | |exact H]; [lia|lia|constructor].
  - unfold bind at 1, library at 1 in H.
    destruct (w_pil_jpg w (fs st !! normpath input)); [discriminate H|].
    cbn in H. injection H as <- _. constructor; [|constructor]. literal_name.
  - unfold bind at 1, library at 1 in H.
    destruct (w_pil_png w (fs st !! normpath input)); [discriminate H|].
    cbn in H. injection H as <- _. constructor; [|constructor]. literal_name.
  - unfold bind at 1, library at 1 in H.
    destruct (w_cv_gray w (fs st !! normpath input)); [discriminate H|].
    cbn in H. injection H as <- _. constructor; [|constructor]. literal_name.
  - destruct (default (800, 600) dims) as [width height].
    unfold bind at 1, library at 1 in H.
    destruct (w_cv_resize w (fs st !! normpath input) width height);
      [discriminate H|].
    cbn in H. injection H as <- _. constructor; [|constructor]. literal_name.
Qed.

(** ** From the handler to the client *)

Lemma save_pages_stored (dir : pystr) (pages : list bytes) (i : Z)
    (outs : list pystr) (st : state) (r : list pystr) (st' : state) :
  Forall (fun p => is_Some (fs st !! normpath p)) outs ->
  save_pages dir i pages outs st = (Ok r, st') ->
  same_connection st st'
  /\ Forall (fun p => is_Some (fs st' !! normpath p)) r.
Proof.
  revert i outs st. induction pages as [|pix pages IH]; intros i outs st Houts H.
  - cbn in H. injection H as <- <-. by split.
  - cbn [save_pages] in H. unfold bind at 1, save at 1 in H.
    apply IH in H as [Hc Hr]; [by split|]. cbn [fs].
    apply Forall_app. split.
    + eapply Forall_impl; [exact Houts|]. intros p Hp. cbn beta in *.
      rewrite lookup_insert. by case_decide.
    + constructor; [|constructor]. by rewrite lookup_insert_eq.
Qed.

Lemma run_handler_stored (w : world) (h : handler) (input dir : pystr)
    (dims : option (Z * Z)) (st : state) (outs : list pystr) (st' : state) :
  run_handler w h input dir dims st = (Ok outs, st') ->
  same_connection st st'
  /\ Forall (fun p => is_Some (fs st' !! normpath p)) outs.
Proof.
  intros H. unfold run_handler in H. unfold bind at 1, peek at 1 in H.
  destruct h.
  - unfold bind at 1, library at 1 in H.
    destruct (w_fitz_pages w (fs st !! normpath input)); [discriminate H|].
    by apply save_pages_stored in H.
  - unfold bind at 1, library at 1 in H.
    destruct (w_pil_jpg w (fs st !! normpath input)); [discriminate H|].
    cbn in H. injection H as <- <-. split; [done|].
    constructor; [|constructor]. cbn [fs]. by rewrite lookup_insert_eq.
  - unfold bind at 1, library at 1 in H.
    destruct (w_pil_png w (fs st !! normpath input)); [discriminate H|].
    cbn in H. injection H as <- <-. split; [done|].
    constructor; [|constructor]. cbn [fs]. by rewrite lookup_insert_eq.
  - unfold bind at 1, library at 1 in H.
    destruct (w_cv_gray w (fs st !! normpath input)); [discriminate H|].
    cbn in H. injection H as <- <-. split; [done|].
    constructor; [|constructor]. cbn [fs]. by rewrite lookup_insert_eq.
  - destruct (default (800, 600) dims) as [width height].
    unfold bind at 1, library at 1 in H.
    destruct (w_cv_resize w (fs st !! normpath input) width height);
      [discriminate H|].
    cbn in H. injection H as <- <-. split; [done|].
    constructor; [|constructor]. cbn [fs]. by rewrite lookup_insert_eq.
Qed.

(** The sends of the server for a list of stored result files, and the
    client reading them. *)
Lemma frames_roundtrip (ws wc : world) (files : list (pystr * bytes))
    (q : list bytes) (sn : list (part * bytes)) (sfs : gmap pystr bytes)
    (csn : list (part * bytes)) (ccr : option nat) (cfs : gmap pystr bytes) :
  let od := join (w_cwd wc) (lit "converted_files") in
  let ts := strftime (w_now wc) in
  let response := flat_map (fun f => frame (basename f.1) f.2) files
                  ++ [(Terminator, be_bytes 4 0)] in
  Forall (fun f => sfs !! normpath f.1 = Some f.2
                   /\ wire_name (basename f.1) /\ len f.2 < 2 ^ 64
                   /\ w_open_wb wc (unique_path od ts (basename f.1)) = None)
         files ->
  (do! send_results ws (map fst files) in
   let! zero := lift (to_bytes 4 0) in
   send Terminator zero) (State q sn None sfs)
  = (Ok tt, State q (sn ++ response) None sfs)
  /\ recv_results wc (State (deliver response) csn ccr cfs)
     = (Ok (map (fun f => unique_path od ts (basename f.1)) files),
        State [] csn ccr
              (store od ts cfs (map (fun f => (basename f.1, f.2)) files))).
Proof.
  intros od ts response Hfiles. subst response. split.
  - unfold bind at 1. rewrite send_results_ok.
    + unfold bind, lift. rewrite to_bytes_ok by done.
      rewrite send_open by done. cbn [inq sent credit fs].
      by rewrite app_assoc.
    + eapply Forall_impl; [exact Hfiles|]. intros f (?&?&?&?). done.
  - set (named := map (fun f : pystr * bytes => (basename f.1, f.2)) files).
    assert (Hframes : flat_map (fun f => frame (basename f.1) f.2) files
                      = flat_map (fun f => frame f.1 f.2) named).
    { subst named. clear. induction files as [|f files IH]; [done|].
      cbn [map flat_map fst snd]. by rewrite IH. }
    assert (Hnamed : Forall (fun f => wire_name f.1 /\ len f.2 < 2 ^ 64
                       /\ w_open_wb wc (unique_path od ts f.1) = None) named).
    { subst named. apply Forall_map. eapply Forall_impl; [exact Hfiles|].
      intros f (?&?&?&?). done. }
    unfold recv_results. fold od ts. cbn [inq].
    rewrite Hframes.
    replace (deliver (flat_map (fun f => frame f.1 f.2) named
                      ++ [(Terminator, be_bytes 4 0)]))
      with (deliver (flat_map (fun f => frame f.1 f.2) named)
            ++ [be_bytes 4 0])
      by (unfold deliver; by rewrite map_app).
    pose proof (stream_frames_length named [be_bytes 4 0]) as Hlen.
    destruct (Nat.le_exists_sub _ _ Hlen) as (k & Hk & _).
    rewrite Hk.
    replace (S (k + length named)) with (length named + S k)%nat by lia.
    rewrite recv_results_frames with (q := [be_bytes 4 0]);
      [|exact Hnamed|reflexivity].
    rewrite recv_results_terminator by reflexivity.
    cbn [sent credit fs app]. subst named. rewrite map_map. reflexivity.
Qed.

(** X1. What a handler returns reaches the client.  When a handler succeeds,
    the sends of the "Send results" loop and the terminator, read by the
    receiving loop of the client, make it return one path per result file,
    in the order of the handler, each file stored with the content the
    handler wrote and under the name of the handler's file with the
    timestamp. *)
Theorem handler_response_roundtrip (ws wc : world) (h : handler)
    (input dir : pystr) (dims : option (Z * Z)) (st st' : state)
    (outs : list pystr) (cfs : gmap pystr bytes) :
  let od := join (w_cwd wc) (lit "converted_files") in
  let ts := strftime (w_now wc) in
  let files :=
    map (fun p => (basename p, default [] (fs st' !! normpath p))) outs in
  run_handler ws h input dir dims st = (Ok outs, st') ->
  credit st = None ->
  len outs < 2 ^ 31 ->
  Forall (fun f => len f.2 < 2 ^ 64) files ->
  (forall p, w_open_wb wc p = None) ->
  exists response,
    (do! send_results ws outs in
     let! zero := lift (to_bytes 4 0) in
     send Terminator zero) st'
    = (Ok tt, State (inq st) (sent st ++ response) None (fs st'))
    /\ recv_results wc (connect (deliver response) cfs)
       = (Ok (map (fun f => unique_path od ts f.1) files),
          State [] [] None (store od ts cfs files)).
Proof.
  intros od ts files Hrun Hcredit Hpages Hsizes Hopen.
  destruct (run_handler_stored _ _ _ _ _ _ _ _ Hrun)
    as ((Hinq & Hsent & Hcr) & Hstored).
  pose proof (run_handler_names _ _ _ _ _ _ _ _ Hpages Hrun) as Hnames.
  set (stored := map (fun p => (p, default [] (fs st' !! normpath p))) outs).
  assert (Hfst : map fst stored = outs).
  { subst stored. rewrite map_map. cbn [fst]. apply map_id. }
  assert (Hfiles : map (fun f : pystr * bytes => (basename f.1, f.2)) stored
                   = files).
  { subst stored files. by rewrite map_map. }
  destruct (frames_roundtrip ws wc stored (inq st') (sent st') (fs st')
              [] None cfs) as (Hsend & Hrecv).
  { subst stored. apply Forall_map. rewrite Forall_forall.
    intros p Hp. cbn [fst snd].
    pose proof (proj1 (Forall_forall _ _) Hstored p Hp) as [c Hc].
    pose proof (proj1 (Forall_forall _ _) Hnames p Hp) as Hname.
    pose proof (proj1 (Forall_forall _ _) Hsizes
                  (basename p, default [] (fs st' !! normpath p))) as Hsize.
    rewrite Hc in *. cbn [default snd] in *.
    split; [done|]. split; [done|]. split; [|apply Hopen].
    apply Hsize. subst files.
    apply list_elem_of_fmap. exists p. by rewrite Hc. }
  rewrite Hfst in Hsend. rewrite Hfiles in Hrecv.
  eexists. split.
  - rewrite <- Hinq, <- Hsent. rewrite <- Hsend.
    f_equal. rewrite Hcredit in Hcr. destruct st' as [q sn cr m].
    cbn [inq sent credit fs] in *. by rewrite Hcr.
  - unfold connect. rewrite Hrecv. do 2 f_equal.
    rewrite <- Hfiles, map_map. reflexivity.
Qed.

Lemma handler_response_roundtrip_witness :
  let st := State [] [] None {[ lit "/tmp/tmpk3x9/a.pdf" := [x25; x50] ]} in
  let pages := [lit "/tmp/tmpk3x9/page_1.png"; lit "/tmp/tmpk3x9/page_2.png"] in
  let run := run_handler demo_world handle_pdf_to_png
               (lit "/tmp/tmpk3x9/a.pdf") (lit "/tmp/tmpk3x9") None st in
  exists response,
    run.1 = Ok pages
    /\ (do! send_results demo_world pages in
        let! zero := lift (to_bytes 4 0) in
        send Terminator zero) run.2
       = (Ok tt, State [] ([] ++ response) None (fs run.2))
    /\ (recv_results demo_world (connect (deliver response) ∅)).1
       = Ok [lit "/home/user/converted_files/page_1_20240105_090307.png";
             lit "/home/user/converted_files/page_2_20240105_090307.png"].
Proof.
  intros st pages run.
  assert (Hrun : run = (Ok pages, run.2)).
  { apply injective_projections; [vm_compute; reflexivity|reflexivity]. }
  destruct (handler_response_roundtrip demo_world demo_world handle_pdf_to_png
              (lit "/tmp/tmpk3x9/a.pdf") (lit "/tmp/tmpk3x9") None st run.2
              pages ∅ Hrun) as (response & Hsend & Hrecv).
  - reflexivity.
  - done.
  - repeat (constructor; [vm_compute; reflexivity|]). constructor.
  - reflexivity.
  - exists response. split; [vm_compute; reflexivity|]. split; [exact Hsend|].
    rewrite Hrecv. vm_compute. reflexivity.
Defined.

(** ** [str] of an [int] and back *)

Lemma digits_acc (fuel : nat) (n : Z) (acc : pystr) :
  digits fuel n acc = digits fuel n [] ++ acc.
Proof.
  revert n acc. induction fuel as [|fuel IH]; intros n acc; cbn [digits].
  - reflexivity.
  - destruct (n <? 10); [reflexivity|].
    rewrite (IH _ (_ :: acc)), (IH _ [_]). by rewrite <- app_assoc.
Qed.

Lemma digits_value_app (x y : pystr) (a : Z) :
  digits_value (x ++ y) a
  = match digits_value x a with
    | Some v => digits_value y v
    | None => None
    end.
Proof.
  revert a. induction x as [|c x IH]; intros a; [reflexivity|].
  cbn [app digits_value]. by destruct (_ && _).
Qed.

Lemma digits_value_digit (d a : Z) :
  0 <= d < 10 -> digits_value [48 + d] a = Some (a * 10 + d).
Proof.
  intros Hd. cbn [digits_value].
  destruct (Z.leb_spec 48 (48 + d)); [|lia].
  destruct (Z.leb_spec (48 + d) 57); [|lia].
  cbn [andb]. f_equal. lia.
Qed.

Lemma digits_value_digits (fuel : nat) (n : Z) :
  0 <= n < 10 ^ Z.of_nat (S fuel) ->
  digits_value (digits fuel n []) 0 = Some n.
Proof.
  revert n. induction fuel as [|fuel IH]; intros n Hn; cbn [digits].
  - change (10 ^ Z.of_nat 1) with 10 in Hn.
    rewrite digits_value_digit by (apply Z.mod_pos_bound; lia).
    f_equal. rewrite Z.mod_small; lia.
  - destruct (Z.ltb_spec n 10).
    + rewrite digits_value_digit by (apply Z.mod_pos_bound; lia).
      f_equal. rewrite Z.mod_small; lia.
    + rewrite digits_acc, digits_value_app. rewrite IH.
      * rewrite digits_value_digit by (apply Z.mod_pos_bound; lia).
        f_equal. pose proof (Z.div_mod n 10 ltac:(lia)). lia.
      * split; [apply Z.div_pos; lia|].
        apply Z.div_lt_upper_bound; [lia|].
        replace (Z.of_nat (S (S fuel))) with (Z.succ (Z.of_nat (S fuel)))
          in Hn by lia.
        rewrite Z.pow_succ_r in Hn by lia. lia.
Qed.

(** The decimal digits of [str(n)] give [n] back. *)
Lemma str_of_int_value (n : Z) :
  0 <= n -> digits_value (str_of_int n) 0 = Some n.
Proof.
  intros Hn. unfold str_of_int. destruct (Z.ltb_spec n 0); [lia|].
  apply digits_value_digits. split; [done|].
  destruct (Z.eq_dec n 0) as [->|]; [reflexivity|].
  pose proof (Z.log2_nonneg n).
  replace (Z.of_nat (S (Z.to_nat (Z.log2 n)))) with (Z.succ (Z.log2 n)) by lia.
  pose proof (proj2 (Z.log2_spec n ltac:(lia))) as Hlog.
  eapply Z.lt_le_trans; [exact Hlog|].
  apply Z.pow_le_mono_l. lia.
Qed.

Lemma str_of_int_inj (a b : Z) :
  0 <= a -> 0 <= b -> str_of_int a = str_of_int b -> a = b.
Proof.
  intros Ha Hb H. pose proof (str_of_int_value a Ha) as Hva.
  rewrite H, str_of_int_value in Hva by done. by injection Hva.
Qed.

Lemma decimal_digits (c : Z) (s : pystr) :
  c <> 45 ->
  decimal (c :: s)
  = match digits_value (c :: s) 0 with
    | Some v => inr v
    | None => inl (lit "invalid literal for int() with base 10")
    end.
Proof.
  intros Hc. unfold decimal. destruct c as [|p|p]; try reflexivity.
  repeat (destruct p as [p|p|]; try reflexivity). done.
Qed.

(** [int(str(n))] is [n], for the [int] of the example worlds. *)
Lemma decimal_str_of_int (n : Z) : 0 <= n -> decimal (str_of_int n) = inr n.
Proof.
  intros Hn. pose proof (str_of_int_value n Hn) as Hv.
  destruct (str_of_int n) as [|c s] eqn:E.
  - cbn in Hv. injection Hv as <-. discriminate E.
  - destruct (Z.eq_dec c 45) as [->|Hc]; [discriminate Hv|].
    rewrite decimal_digits by done. by rewrite Hv.
Qed.

(** ** The pages of a PDF *)

Lemma page_name_plain (k : Z) :
  plain_name (lit "page_" ++ str_of_int k ++ lit ".png").
Proof.
  split; [done|]. split; [|split; done].
  assert (Hd : Forall (fun c => 48 <= c <= 57 \/ c = 45) (str_of_int k)).
  { apply str_of_int_Forall; intros; lia. }
  assert (Hall : Forall (fun c => c <> 47)
                        (lit "page_" ++ str_of_int k ++ lit ".png")).
  { change (lit "page_") with [112; 97; 103; 101; 95].
    change (lit ".png") with [46; 112; 110; 103].
    apply Forall_app. split; [repeat (constructor; [lia|]); constructor|].
    apply Forall_app. split; [|repeat (constructor; [lia|]); constructor].
    eapply Forall_impl; [exact Hd|]. intros c Hc. cbn beta in Hc. lia. }
  intros Hin. rewrite Forall_forall in Hall. by apply Hall in Hin.
Qed.

Lemma page_path_inj (dir : pystr) (a b : Z) :
  startswith [47] dir = true -> 0 <= a -> 0 <= b ->
  normpath (page_path dir a) = normpath (page_path dir b) -> a = b.
Proof.
  intros Habs Ha Hb H. unfold page_path in H.
  apply normpath_join_inj in H; [|done|apply page_name_plain..].
  apply app_inv_head, app_inv_tail in H. by apply str_of_int_inj.
Qed.

Lemma save_pages_spec (dir : pystr) (pages : list bytes) (i : Z)
    (outs : list pystr) (st : state) :
  startswith [47] dir = true -> 0 <= i ->
  exists st',
    save_pages dir i pages outs st
    = (Ok (outs ++ map (fun k => page_path dir (i + Z.of_nat k))
                       (seq 1 (length pages))), st')
    /\ same_connection st st'
    /\ (forall k pix, pages !! k = Some pix ->
          fs st' !! normpath (page_path dir (i + Z.of_nat (S k))) = Some pix)
    /\ (forall p, (forall k, (k < length pages)%nat ->
                     p <> normpath (page_path dir (i + Z.of_nat (S k)))) ->
          fs st' !! p = fs st !! p).
Proof.
  intros Habs. revert i outs st.
  induction pages as [|pix pages IH]; intros i outs st Hi.
  - exists st. cbn [save_pages length seq map]. rewrite app_nil_r.
    split; [reflexivity|]. split; [done|]. split; [|done].
    intros k pix Hk. by rewrite lookup_nil in Hk.
  - cbn [save_pages]. unfold bind at 1, save at 1.
    destruct (IH (i + 1) (outs ++ [page_path dir (i + 1)])
                 (State (inq st) (sent st) (credit st)
                    (<[normpath (page_path dir (i + 1)) := pix]> (fs st)))
                 ltac:(lia)) as (st' & Hrun & Hconn & Hpages & Hrest).
    exists st'. split; [|split; [|split]].
    + fold (page_path dir (i + 1)). rewrite Hrun. f_equal. f_equal.
      rewrite <- app_assoc. f_equal. cbn [length seq map app].
      replace (i + Z.of_nat 1) with (i + 1) by lia. f_equal.
      rewrite <- (seq_shift (length pages) 1), map_map.
      apply map_ext. intros k. f_equal. lia.
    + destruct Hconn as (? & ? & ?). by repeat split.
    + intros [|k] pix' Hk.
      * cbn in Hk. injection Hk as <-. rewrite Hrest.
        -- cbn [fs]. replace (i + Z.of_nat 1) with (i + 1) by lia.
           by rewrite lookup_insert_eq.
        -- intros k Hlt Heq. apply page_path_inj in Heq; [lia|done|lia..].
      * cbn in Hk. specialize (Hpages k pix' Hk).
        replace (i + Z.of_nat (S (S k))) with (i + 1 + Z.of_nat (S k)) by lia.
        done.
    + intros p Hp. rewrite Hrest.
      * cbn [fs]. rewrite lookup_insert_ne; [done|].
        intros Heq. apply (Hp 0%nat); [cbn [length]; lia|].
        rewrite <- Heq. reflexivity.
      * intros k Hlt. specialize (Hp (S k)). cbn [length] in Hp.
        replace (i + 1 + Z.of_nat (S k)) with (i + Z.of_nat (S (S k))) by lia.
        apply Hp. lia.
Qed.

Lemma run_handler_pdf (w : world) (input dir : pystr)
    (dims : option (Z * Z)) (st : state) (pages : list bytes) :
  startswith [47] dir = true ->
  w_fitz_pages w (fs st !! normpath input) = inr pages ->
  exists st',
    run_handler w handle_pdf_to_png input dir dims st
    = (Ok (map (fun k => page_path dir (Z.of_nat k)) (seq 1 (length pages))),
       st')
    /\ same_connection st st'
    /\ (forall k pix, pages !! k = Some pix ->
          fs st' !! normpath (page_path dir (Z.of_nat (S k))) = Some pix)
    /\ (forall p, (forall k, (k < length pages)%nat ->
                     p <> normpath (page_path dir (Z.of_nat (S k)))) ->
          fs st' !! p = fs st !! p).
Proof.
  intros Habs Hlib. unfold run_handler. unfold bind at 1, peek at 1.
  unfold bind at 1. rewrite Hlib. unfold library, ret.
  destruct (save_pages_spec dir pages 0 [] st Habs ltac:(lia))
    as (st' & Hrun & Hconn & Hpages & Hrest).
  exists st'. split; [|split; [|split]]; try done.
Qed.

(** X2. [handle_pdf_to_png] returns one path per page of the document, named
    [page_1.png], [page_2.png], ... in the order of the pages; each holds the
    rendering of its page, and no other file changes.  Nothing is sent or
    received. *)
Theorem pdf_pages_in_order (w : world) (input dir : pystr)
    (dims : option (Z * Z)) (st : state) (pages : list bytes) :
  startswith [47] dir = true ->
  w_fitz_pages w (fs st !! normpath input) = inr pages ->
  exists st',
    run_handler w handle_pdf_to_png input dir dims st
    = (Ok (map (fun k => page_path dir (Z.of_nat k)) (seq 1 (length pages))),
       st')
    /\ same_connection st st'
    /\ (forall k pix, pages !! k = Some pix ->
          fs st' !! normpath (page_path dir (Z.of_nat (S k))) = Some pix)
    /\ (forall p, (forall k, (k < length pages)%nat ->
                     p <> normpath (page_path dir (Z.of_nat (S k)))) ->
          fs st' !! p = fs st !! p).
Proof.
  intros Habs Hlib. unfold run_handler. unfold bind at 1, peek at 1.
  unfold bind at 1. rewrite Hlib. unfold library, ret.
  destruct (save_pages_spec dir pages 0 [] st Habs ltac:(lia))
    as (st' & Hrun & Hconn & Hpages & Hrest).
  exists st'. split; [|split; [|split]]; try done.
Qed.

Lemma pdf_pages_in_order_witness :
  exists st',
    run_handler demo_world handle_pdf_to_png (lit "/tmp/tmpk3x9/a.pdf")
                (lit "/tmp/tmpk3x9") None
                (State [] [] None {[ lit "/tmp/tmpk3x9/a.pdf" := [x25; x50] ]})
    = (Ok [lit "/tmp/tmpk3x9/page_1.png"; lit "/tmp/tmpk3x9/page_2.png"], st')
    /\ fs st' !! lit "/tmp/tmpk3x9/page_2.png" = Some [x25; x50].
Proof.
  destruct (pdf_pages_in_order demo_world (lit "/tmp/tmpk3x9/a.pdf")
              (lit "/tmp/tmpk3x9") None
              (State [] [] None {[ lit "/tmp/tmpk3x9/a.pdf" := [x25; x50] ]})
              [[x25; x50]; [x25; x50]])
    as (st' & Hrun & _ & Hpages & _).
  - reflexivity.
  - vm_compute. reflexivity.
  - exists st'. split; [exact Hrun|].
    exact (Hpages 1%nat [x25; x50] eq_refl).
Defined.

(** ** Normal forms are normal *)

Lemma split_on_no_sep (sep : Z) (s : pystr) :
  Forall (fun c => sep ∉ c) (split_on sep s).
Proof.
  induction s as [|c s IH]; cbn [split_on].
  - constructor; [apply not_elem_of_nil|constructor].
  - destruct (Z.eqb_spec c sep).
    + constructor; [apply not_elem_of_nil|done].
    + destruct (split_on sep s) as [|p ps]; constructor.
      * apply not_elem_of_cons. split; [congruence|apply not_elem_of_nil].
      * constructor.
      * apply Forall_cons in IH as [Hp _].
        apply not_elem_of_cons. split; [congruence|done].
      * by apply Forall_cons in IH as [_ Hps].
Qed.

Lemma norm_comps_good (comps acc : list pystr) :
  Forall (fun c => 47 ∉ c) comps -> Forall plain_name acc ->
  Forall plain_name (norm_comps true comps acc).
Proof.
  revert acc. induction comps as [|c comps IH]; intros acc Hc Hacc.
  - cbn [norm_comps]. by apply Forall_rev.
  - apply Forall_cons in Hc as [Hc Hcomps]. cbn [norm_comps].
    destruct (bool_decide_reflect (c = [])) as [|Hne]; [by apply IH|].
    destruct (bool_decide_reflect (c = [46])) as [|Hdot]; [by apply IH|].
    cbn [orb negb andb].
    destruct (bool_decide_reflect (c = [46; 46])) as [->|Hdots].
    + cbn [negb orb]. case_bool_decide as Hh.
      * destruct acc as [|a acc]; [discriminate Hh|].
        injection Hh as ->. apply Forall_cons in Hacc as [(_&_&_&Ha) _].
        done.
      * apply IH; [done|]. destruct acc; [done|].
        by apply Forall_cons in Hacc as [_ ?].
    + cbn [negb orb]. apply IH; [done|]. by constructor.
Qed.

Lemma norm_comps_id (goods acc : list pystr) :
  Forall plain_name goods ->
  norm_comps true goods acc = rev acc ++ goods.
Proof.
  revert acc. induction goods as [|c goods IH]; intros acc H.
  - cbn [norm_comps]. by rewrite app_nil_r.
  - apply Forall_cons in H as [(Hne & _ & Hdot & Hdots) H]. cbn [norm_comps].
    rewrite !bool_decide_eq_false_2 by done. cbn [negb orb].
    rewrite IH by done. cbn [rev]. by rewrite <- app_assoc.
Qed.

Lemma split_on_join_with (goods : list pystr) :
  goods <> [] -> Forall (fun c => 47 ∉ c) goods ->
  split_on 47 (join_with 47 goods) = goods.
Proof.
  induction goods as [|x goods IH]; intros Hne H; [done|].
  apply Forall_cons in H as [Hx H]. destruct goods as [|y goods].
  - cbn [join_with]. by apply split_on_plain.
  - change (join_with 47 (x :: y :: goods))
      with (x ++ 47 :: join_with 47 (y :: goods)).
    rewrite split_on_sep, split_on_plain by done. by rewrite IH.
Qed.

Lemma split_on_slashes (k : nat) (s : pystr) :
  split_on 47 (replicate k 47 ++ s) = replicate k [] ++ split_on 47 s.
Proof.
  induction k as [|k IH]; [reflexivity|].
  cbn [replicate app split_on]. rewrite Z.eqb_refl. by rewrite IH.
Qed.

Lemma norm_comps_skip (absolute : bool) (k : nat) (comps acc : list pystr) :
  norm_comps absolute (replicate k [] ++ comps) acc
  = norm_comps absolute comps acc.
Proof.
  induction k as [|k IH]; [reflexivity|].
  cbn [replicate app norm_comps]. by rewrite bool_decide_eq_true_2.
Qed.

Lemma initial_slashes_le (p : pystr) : (initial_slashes p <= 2)%nat.
Proof.
  unfold initial_slashes. destruct (startswith [47] p); [|lia].
  destruct (_ && _); lia.
Qed.

(** [normpath] leaves an absolute path in normal form as it is. *)
Lemma normpath_normal (k : nat) (goods : list pystr) :
  (k <= 1)%nat -> goods <> [] -> Forall plain_name goods ->
  normpath (replicate (S k) 47 ++ join_with 47 goods)
  = replicate (S k) 47 ++ join_with 47 goods.
Proof.
  intros Hk Hne Hgoods.
  assert (Hslash : Forall (fun c => 47 ∉ c) goods).
  { eapply Forall_impl; [exact Hgoods|]. by intros c (_ & ? & _). }
  destruct goods as [|g goods]; [done|].
  assert (Hfirst : exists c rest, join_with 47 (g :: goods) = c :: rest
                                  /\ c <> 47).
  { apply Forall_cons in Hgoods as [(Hg & Hs & _) _].
    destruct g as [|c g]; [done|]. exists c.
    assert (c <> 47) by (intros ->; apply Hs; left).
    destruct goods; eauto. }
  destruct Hfirst as (c & rest & Hj & Hc).
  assert (Hinit : initial_slashes (replicate (S k) 47 ++ join_with 47 (g :: goods))
                  = S k).
  { rewrite Hj. unfold initial_slashes.
    destruct k as [|[|k]]; [| |lia];
      cbn [replicate app startswith]; rewrite ?Z.eqb_refl;
      by destruct (Z.eqb_spec 47 c). }
  rewrite normpath_unfold by done. cbn zeta. rewrite Hinit.
  cbn [Nat.eqb negb]. rewrite split_on_slashes, norm_comps_skip.
  rewrite split_on_join_with by done. rewrite norm_comps_id by done.
  cbn [rev app]. by rewrite bool_decide_eq_false_2.
Qed.

(** The path of a plain name in an absolute directory is normalised once
    and for all. *)
Lemma normpath_join_idem (dir name : pystr) :
  startswith [47] dir = true -> plain_name name ->
  normpath (normpath (join dir name)) = normpath (join dir name).
Proof.
  intros Habs Hplain.
  destruct (join_plain_split dir name Habs Hplain) as (Hs & Hne & Hcomps).
  destruct (initial_slashes_absolute dir Habs) as [k Hk].
  pose proof (initial_slashes_le dir) as Hle.
  rewrite (normpath_unfold (join dir name)) by done. cbn zeta.
  rewrite Hs, Hk. cbn [Nat.eqb negb]. rewrite Hcomps.
  rewrite (bool_decide_eq_false_2 (_ = [])) by done.
  apply normpath_normal;
    [lia|by destruct (norm_comps true (split_on 47 dir) [])|].
  apply Forall_app. split; [|by constructor].
  apply norm_comps_good; [apply split_on_no_sep|constructor].
Qed.

Lemma inside_normpath (dir p : pystr) :
  normpath (normpath p) = normpath p -> inside dir (normpath p) = inside dir p.
Proof. intros H. unfold inside. cbn zeta. by rewrite H. Qed.

(** ** What the removal of the scratch directory leaves *)

Lemma filter_outside_insert (dir name : pystr) (c : bytes)
    (m : gmap pystr bytes) :
  startswith [47] dir = true -> plain_name name ->
  filter (outside dir) (<[normpath (join dir name) := c]> m)
  = filter (outside dir) m.
Proof.
  intros Habs Hplain. apply map_filter_insert_not. intros y.
  cbn [fst].
  rewrite inside_normpath by (by apply normpath_join_idem).
  by rewrite plain_name_inside.
Qed.

Lemma filter_outside_alter (dir name : pystr) (f : bytes -> bytes)
    (m : gmap pystr bytes) :
  startswith [47] dir = true -> plain_name name ->
  filter (outside dir) (alter f (normpath (join dir name)) m)
  = filter (outside dir) m.
Proof.
  intros Habs Hplain. apply map_eq. intros k.
  rewrite !map_lookup_filter.
  destruct (decide (k = normpath (join dir name))) as [->|Hk].
  - rewrite lookup_alter_eq.
    destruct (m !! normpath (join dir name)) as [c|]; [|reflexivity].
    cbn [fmap option_fmap option_map mbind option_bind].
    rewrite !option_guard_False; [done|..];
      cbn [fst];
      rewrite inside_normpath by (by apply normpath_join_idem);
      by rewrite plain_name_inside.
  - by rewrite lookup_alter_ne.
Qed.

Lemma filter_outside_id (dir : pystr) (m : gmap pystr bytes) :
  (forall k c, m !! k = Some c -> inside dir k = false) ->
  filter (outside dir) m = m.
Proof.
  intros H. apply map_filter_id. intros k c Hk. by apply (H k c).
Qed.

Lemma literal_plain (name : string) :
  Forall (fun c => c <> 47) (lit name) ->
  lit name <> [] -> lit name <> [46] -> lit name <> [46; 46] ->
  plain_name (lit name).
Proof.
  intros Hall ? ? ?. split; [done|]. split; [|done].
  intros Hin. rewrite Forall_forall in Hall. by apply Hall in Hin.
Qed.

Lemma save_pages_scratch (dir : pystr) (pages : list bytes) (i : Z)
    (outs : list pystr) (st : state) :
  startswith [47] dir = true ->
  filter (outside dir) (fs (save_pages dir i pages outs st).2)
  = filter (outside dir) (fs st).
Proof.
  intros Habs. revert i outs st.
  induction pages as [|pix pages IH]; intros i outs st; [reflexivity|].
  cbn [save_pages]. unfold bind at 1, save at 1. rewrite IH. cbn [fs].
  apply filter_outside_insert; [done|apply page_name_plain].
Qed.

(** A handler writes in its output directory only. *)
Lemma run_handler_scratch (w : world) (h : handler) (input dir : pystr)
    (dims : option (Z * Z)) (st : state) :
  startswith [47] dir = true ->
  filter (outside dir) (fs (run_handler w h input dir dims st).2)
  = filter (outside dir) (fs st).
Proof.
  intros Habs. unfold run_handler. unfold bind at 1, peek at 1.
  assert (Hlit : forall name out,
             Forall (fun c => c <> 47) (lit name) ->
             lit name <> [] -> lit name <> [46] -> lit name <> [46; 46] ->
             filter (outside dir)
               (fs ((do! save (join dir (lit name)) out in
                     ret [join dir (lit name)]) st).2)
             = filter (outside dir) (fs st)).
  { intros name out ? ? ? ?. unfold bind, save, ret. cbn [fs snd].
    apply filter_outside_insert; [done|by apply literal_plain]. }
  destruct h.
  - unfold bind at 1, library at 1.
    destruct (w_fitz_pages w (fs st !! normpath input)); [reflexivity|].
    unfold ret. by apply save_pages_scratch.
  - unfold bind at 1, library at 1.
    destruct (w_pil_jpg w (fs st !! normpath input)); [reflexivity|].
    unfold ret at 1. apply Hlit;
      [vm_compute; repeat (constructor; [lia|]); constructor|done..].
  - unfold bind at 1, library at 1.
    destruct (w_pil_png w (fs st !! normpath input)); [reflexivity|].
    unfold ret at 1. apply Hlit;
      [vm_compute; repeat (constructor; [lia|]); constructor|done..].
  - unfold bind at 1, library at 1.
    destruct (w_cv_gray w (fs st !! normpath input)); [reflexivity|].
    unfold ret at 1. apply Hlit;
      [vm_compute; repeat (constructor; [lia|]); constructor|done..].
  - destruct (default (800, 600) dims) as [width height].
    unfold bind at 1, library at 1.
    destruct (w_cv_resize w (fs st !! normpath input) width height);
      [reflexivity|].
    unfold ret at 1. apply Hlit;
      [vm_compute; repeat (constructor; [lia|]); constructor|done..].
Qed.

(** ** Which statements touch the files *)

Section Scratch.
Context (dir : pystr).

Lemma scratch_quiet {A} (m : M A) :
  (forall st, fs (m st).2 = fs st) -> scratch_only dir m.
Proof. intros H st. by rewrite H. Qed.

Lemma scratch_bind {A B} (m : M A) (k : A -> M B) :
  scratch_only dir m -> (forall a, scratch_only dir (k a)) ->
  scratch_only dir (bind m k).
Proof.
  intros Hm Hk st. unfold bind. specialize (Hm st).
  destruct (m st) as [[a| |] st1]; cbn [snd] in *; [|done..].
  by rewrite Hk.
Qed.

Lemma scratch_ret {A} (a : A) : scratch_only dir (ret a).
Proof. by apply scratch_quiet. Qed.

Lemma scratch_raise {A} (e : exn) : scratch_only dir (@raise A e).
Proof. by apply scratch_quiet. Qed.

Lemma scratch_lift {A} (r : res A) : scratch_only dir (lift r).
Proof. by apply scratch_quiet. Qed.

Lemma scratch_recv (n : Z) : scratch_only dir (recv n).
Proof.
  apply scratch_quiet. intros st. unfold recv. by destruct (take_seg _ _).
Qed.

Lemma scratch_send (p : part) (d : bytes) : scratch_only dir (send p d).
Proof.
  apply scratch_quiet. intros st. unfold send.
  by destruct (credit st) as [[|k]|].
Qed.

Lemma scratch_send_chunks (p : part) (cs : list bytes) :
  scratch_only dir (send_chunks p cs).
Proof.
  induction cs as [|c cs IH]; cbn [send_chunks].
  - apply scratch_ret.
  - apply scratch_bind; [apply scratch_send|done].
Qed.

Lemma scratch_py_int (w : world) (s : pystr) : scratch_only dir (py_int w s).
Proof.
  unfold py_int. destruct (w_int w s); [apply scratch_raise|apply scratch_ret].
Qed.

Lemma scratch_read_file (w : world) (p : pystr) :
  scratch_only dir (read_file w p).
Proof.
  apply scratch_quiet. intros st. unfold read_file.
  by destruct (fs st !! normpath p).
Qed.

Lemma scratch_getsize (w : world) (p : pystr) :
  scratch_only dir (getsize w p).
Proof.
  apply scratch_bind; [apply scratch_read_file|intros; apply scratch_ret].
Qed.

Lemma scratch_send_results (w : world) (outs : list pystr) :
  scratch_only dir (send_results w outs).
Proof.
  induction outs as [|p outs IH]; cbn [send_results]; [apply scratch_ret|].
  repeat first
    [ exact IH
    | apply scratch_bind; [|intros ?]
    | apply scratch_getsize | apply scratch_read_file | apply scratch_lift
    | apply scratch_send | apply scratch_send_chunks ].
Qed.

Lemma scratch_dispatch (w : world) (conversion : pystr) (parts : list pystr)
    (registered : handler) :
  scratch_only dir (dispatch w conversion parts registered).
Proof.
  unfold dispatch. destruct (_ && _); [|apply scratch_ret].
  repeat first
    [ apply scratch_bind; [|intros ?] | apply scratch_py_int
    | apply scratch_ret ].
Qed.

Lemma scratch_run_handler (w : world) (h : handler) (input : pystr)
    (dims : option (Z * Z)) :
  startswith [47] dir = true ->
  scratch_only dir (run_handler w h input dir dims).
Proof. intros Habs st. by apply run_handler_scratch. Qed.

Lemma scratch_open_wb (w : world) (name : pystr) :
  startswith [47] dir = true -> plain_name name ->
  scratch_only dir (open_wb w (join dir name)).
Proof.
  intros Habs Hplain st. unfold open_wb.
  destruct (w_open_wb w (join dir name)); [reflexivity|]. cbn [snd fs].
  by apply filter_outside_insert.
Qed.

Lemma scratch_write (name : pystr) (chunk : bytes) :
  startswith [47] dir = true -> plain_name name ->
  scratch_only dir (write (join dir name) chunk).
Proof.
  intros Habs Hplain st. unfold write. cbn [snd fs].
  by apply filter_outside_alter.
Qed.

Lemma scratch_recv_file_loop (fuel : nat) (msg name : pystr)
    (file_size received : Z) :
  startswith [47] dir = true -> plain_name name ->
  scratch_only dir (recv_file_loop fuel msg (join dir name) file_size received).
Proof.
  intros Habs Hplain. revert received.
  induction fuel as [|fuel IH]; intros received; cbn [recv_file_loop];
    destruct (received <? file_size); try apply scratch_ret;
    [apply scratch_lift|].
  apply scratch_bind; [apply scratch_recv|]. intros chunk.
  case_bool_decide; [apply scratch_raise|].
  apply scratch_bind; [by apply scratch_write|]. intros _. apply IH.
Qed.

Lemma scratch_recv_file (msg name : pystr) (file_size : Z) :
  startswith [47] dir = true -> plain_name name ->
  scratch_only dir (recv_file msg (join dir name) file_size).
Proof.
  intros Habs Hplain st. unfold recv_file.
  by apply scratch_recv_file_loop.
Qed.

End Scratch.

Lemma send_error_files (e : exn) (st : state) :
  fs (send_error e st).2 = fs st.
Proof.
  unfold send_error, try_pass, bind, lift.
  destruct (encode _) as [m| |]; [|done..].
  destruct (to_bytes 4 (len m)) as [l| |]; [|done..].
  unfold send. destruct (credit st) as [[|k]|]; cbn [credit]; try done.
  by destruct k.
Qed.

(** ** Reading the head of a request *)

Lemma serve_header (w : world) (metadata : pystr) (q : list bytes)
    (sn : list (part * bytes)) (cr : option nat) (sfs : gmap pystr bytes) :
  is_ascii metadata -> metadata <> [] -> len metadata < 2 ^ 32 ->
  serve w (State (request_head metadata ++ q) sn cr sfs)
  = after_metadata w metadata (State q sn cr sfs).
Proof.
  intros Hascii Hne Hlen. change (2 ^ 32) with 4294967296 in Hlen.
  pose proof (len_nonneg metadata).
  unfold serve, request_head. cbn [app]. unfold bind at 1.
  erewrite recv_whole;
    [|reflexivity|by apply be_bytes_nonempty; lia|by rewrite length_be_bytes].
  rewrite bool_decide_eq_false_2 by (by apply be_bytes_nonempty; lia).
  rewrite from_bytes_be_bytes by (rewrite pow_256_4; lia).
  unfold bind at 1.
  erewrite recv_whole; [|reflexivity| |].
  2: { by destruct metadata. }
  2: { rewrite length_map. unfold len. lia. }
  unfold bind at 1. unfold lift at 1. rewrite decode_ascii by done.
  reflexivity.
Qed.

(** X3. Whatever the peer sends and however the exchange ends, the server
    leaves no file in its scratch directory, if there was none when the
    connection was accepted. *)
Theorem scratch_dir_is_removed (w : world) (st : state) :
  (forall k c, fs st !! k = Some c -> inside (w_temp_dir w) k = false) ->
  forall k c, fs (handle_client w st).2 !! k = Some c ->
              inside (w_temp_dir w) k = false.
Proof.
  intros Hclean.
  assert (Hserve : forall k c, fs (serve w st).2 !! k = Some c ->
                               inside (w_temp_dir w) k = false).
  { unfold serve. unfold bind at 1, recv at 1.
    destruct (take_seg (Z.to_nat 4) (inq st)) as [d q].
    case_bool_decide; [exact Hclean|].
    unfold bind at 1, recv at 1. cbn [inq sent credit fs].
    destruct (take_seg _ q) as [raw q'].
    unfold bind at 1, lift at 1.
    destruct (decode (w_decode_msg w) raw) as [metadata| |];
      [|exact Hclean..].
    cbn zeta. destruct (_ <? 3); [exact Hclean|].
    unfold bind at 1, py_int at 1.
    destruct (w_int w _); [exact Hclean|]. unfold ret at 1.
    unfold with_temp_dir. destruct (bind _ _ _) as [r st']. cbn [snd fs].
    intros k c Hk. apply map_lookup_filter_Some in Hk as [_ Hk]. exact Hk. }
  unfold handle_client.
  destruct (serve w st) as [[o|e|] st'] eqn:E; cbn [snd] in *; try done.
  pose proof (send_error_files e st') as Hfs.
  destruct (send_error e st') as [r st'']. cbn [snd] in *.
  by rewrite Hfs.
Qed.

Lemma scratch_dir_is_removed_witness :
  fs (handle_client demo_world
        (connect (raw_request "a.png|png2jpg|2" [x01; x02]) ∅)).2
     !! lit "/tmp/tmpk3x9/converted.jpg" = None.
Proof.
  destruct (fs _ !! _) as [c|] eqn:E; [|reflexivity].
  apply (scratch_dir_is_removed demo_world) in E.
  - vm_compute in E. discriminate E.
  - intros k c' Hk. unfold connect in Hk. cbn [fs] in Hk.
    by rewrite lookup_empty in Hk.
Defined.

(** X4. A request whose file name is plain leaves the files of the server
    exactly as they were, whatever the rest of the request is and however
    the exchange ends. *)
Theorem plain_upload_leaves_no_trace (w : world) (metadata : pystr)
    (q : list bytes) (sn : list (part * bytes)) (cr : option nat)
    (sfs : gmap pystr bytes) :
  is_ascii metadata -> metadata <> [] -> len metadata < 2 ^ 32 ->
  plain_name (nth 0 (split_on 124 metadata) []) ->
  startswith [47] (w_temp_dir w) = true ->
  (forall k c, sfs !! k = Some c -> inside (w_temp_dir w) k = false) ->
  fs (handle_client w (State (request_head metadata ++ q) sn cr sfs)).2 = sfs.
Proof.
  intros Hascii Hne Hlen Hplain Habs Hclean.
  assert (Hserve : fs (serve w (State (request_head metadata ++ q) sn cr sfs)).2
                   = sfs).
  { rewrite serve_header by done. unfold after_metadata. cbn zeta.
    destruct (_ <? 3); [reflexivity|].
    unfold bind at 1, py_int at 1.
    destruct (w_int w _); [reflexivity|]. unfold ret at 1.
    unfold with_temp_dir.
    match goal with
    | |- context [bind ?m ?k ?st] =>
        assert (Hbody : scratch_only (w_temp_dir w) (bind m k))
    end.
    { apply scratch_bind; [by apply scratch_open_wb|]. intros _.
      apply scratch_bind; [by apply scratch_recv_file|]. intros _.
      destruct (conversion_handlers !! _); [|apply scratch_raise].
      apply scratch_bind; [apply scratch_dispatch|]. intros c.
      apply scratch_bind; [by apply scratch_run_handler|]. intros outs.
      apply scratch_bind; [apply scratch_send_results|]. intros _.
      apply scratch_bind; [apply scratch_lift|]. intros zero.
      apply scratch_bind; [apply scratch_send|]. intros _.
      apply scratch_ret. }
    specialize (Hbody (State q sn cr sfs)).
    destruct (bind _ _ _) as [r st']. cbn [snd fs] in *.
    rewrite Hbody. by apply filter_outside_id. }
  unfold handle_client.
  destruct (serve w _) as [[o|e|] st'] eqn:E; cbn [snd] in *; try done.
  pose proof (send_error_files e st') as Hfs.
  destruct (send_error e st') as [r st'']. cbn [snd] in *.
  by rewrite Hfs.
Qed.

Lemma plain_upload_leaves_no_trace_witness :
  fs (handle_client demo_world
        (State (request_head (lit "a.png|png2jpg|5") ++ [[x01; x02]]) [] None
               {[ lit "/srv/keep.txt" := [x41] ]})).2
  = {[ lit "/srv/keep.txt" := [x41] ]}.
Proof.
  apply (plain_upload_leaves_no_trace demo_world (lit "a.png|png2jpg|5")).
  - repeat constructor; lia.
  - done.
  - by vm_compute.
  - change (nth 0 (split_on 124 (lit "a.png|png2jpg|5")) [])
      with (lit "a.png").
    apply literal_plain;
      [vm_compute; repeat (constructor; [lia|]); constructor|done..].
  - reflexivity.
  - intros k c Hk. apply lookup_singleton_Some in Hk as [<- _].
    vm_compute. reflexivity.
Defined.

(** ** Requests that are refused *)

Lemma handle_client_raise (w : world) (st st' : state) (e : exn) :
  serve w st = (Raise e, st') ->
  credit st' = None ->
  is_ascii (exn_str e) -> len (exn_str e) + 7 < 2 ^ 32 ->
  handle_client w st
  = (Ok (Failed e),
     State (inq st') (sent st' ++ error_sends (exn_str e)) None (fs st')).
Proof.
  intros Hserve Hcr Hascii Hlen. unfold handle_client. rewrite Hserve.
  destruct st' as [q sn cr m]. cbn [credit] in Hcr. subst cr.
  by rewrite send_error_open.
Qed.

(** X5. A metadata line with fewer than three fields is answered by one error
    record that quotes the line; nothing of what follows it is read, and no
    file is touched. *)
Theorem too_few_fields (w : world) (metadata : pystr) (q : list bytes)
    (sn : list (part * bytes)) (sfs : gmap pystr bytes) :
  let message := lit "Invalid metadata format: " ++ metadata in
  is_ascii metadata -> metadata <> [] -> len message + 7 < 2 ^ 32 ->
  len (split_on 124 metadata) < 3 ->
  handle_client w (State (request_head metadata ++ q) sn None sfs)
  = (Ok (Failed (Exn ValueError message)),
     State q (sn ++ error_sends message) None sfs).
Proof.
  intros message Hascii Hne Hlen Hparts.
  assert (Hl : len message = len metadata + 25).
  { subst message. rewrite len_app.
    change (len (lit "Invalid metadata format: ")) with 25. lia. }
  change (2 ^ 32) with 4294967296 in *.
  rewrite (handle_client_raise w _ (State q sn None sfs)
             (Exn ValueError message)).
  - reflexivity.
  - rewrite serve_header by (try done; change (2 ^ 32) with 4294967296; lia).
    unfold after_metadata. cbn zeta.
    by rewrite (proj2 (Z.ltb_lt _ _) Hparts).
  - reflexivity.
  - apply is_ascii_app. split; [repeat constructor; lia|done].
  - done.
Qed.

Lemma too_few_fields_witness :
  handle_client demo_world
    (State (request_head (lit "a.png|png2jpg") ++ [[x01; x02]]) [] None ∅)
  = (Ok (Failed (Exn ValueError
                     (lit "Invalid metadata format: a.png|png2jpg"))),
     State [[x01; x02]]
           ([] ++ error_sends (lit "Invalid metadata format: a.png|png2jpg"))
           None ∅).
Proof.
  apply (too_few_fields demo_world (lit "a.png|png2jpg")).
  - repeat constructor; lia.
  - done.
  - by vm_compute.
  - by vm_compute.
Defined.

(** X6. When [int()] refuses the size field, the answer is one error record
    with the text of that [ValueError]; the upload is not read and no file
    is touched. *)
Theorem size_not_an_integer (w : world) (metadata msg : pystr)
    (q : list bytes) (sn : list (part * bytes)) (sfs : gmap pystr bytes) :
  is_ascii metadata -> metadata <> [] -> len metadata < 2 ^ 32 ->
  3 <= len (split_on 124 metadata) ->
  w_int w (nth 2 (split_on 124 metadata) []) = inl msg ->
  is_ascii msg -> len msg + 7 < 2 ^ 32 ->
  handle_client w (State (request_head metadata ++ q) sn None sfs)
  = (Ok (Failed (Exn ValueError msg)),
     State q (sn ++ error_sends msg) None sfs).
Proof.
  intros Hascii Hne Hlen Hparts Hint Hmsg Hl.
  rewrite (handle_client_raise w _ (State q sn None sfs) (Exn ValueError msg));
    try done.
  rewrite serve_header by done. unfold after_metadata. cbn zeta.
  rewrite (proj2 (Z.ltb_ge _ _) Hparts).
  unfold bind, py_int. by rewrite Hint.
Qed.

Lemma size_not_an_integer_witness :
  handle_client demo_world
    (State (request_head (lit "a.png|png2jpg|2.5") ++ [[x01; x02]]) [] None ∅)
  = (Ok (Failed (Exn ValueError
                     (lit "invalid literal for int() with base 10"))),
     State [[x01; x02]]
           ([] ++ error_sends (lit "invalid literal for int() with base 10"))
           None ∅).
Proof.
  apply (size_not_an_integer demo_world (lit "a.png|png2jpg|2.5")).
  - repeat constructor; lia.
  - done.
  - by vm_compute.
  - by vm_compute.
  - by vm_compute.
  - repeat constructor; lia.
  - by vm_compute.
Defined.

(** X7. When the stream ends before [file_size] bytes of the upload have
    come, the server answers with the error record "Connection closed before
    file was fully received", whatever the conversion is, and nothing of
    the upload is left: for a plain file name, the files of the server are
    what they were before the connection. *)
Theorem upload_cut_short (w : world) (metadata file_name conversion size_s : pystr)
    (ps : list pystr) (file_size : Z) (q : list bytes)
    (sn : list (part * bytes)) (sfs : gmap pystr bytes) :
  let message := lit "Connection closed before file was fully received" in
  let input_path := join (w_temp_dir w) file_name in
  is_ascii metadata -> metadata <> [] -> len metadata < 2 ^ 32 ->
  split_on 124 metadata = file_name :: conversion :: size_s :: ps ->
  plain_name file_name ->
  w_int w size_s = inr file_size ->
  w_open_wb w input_path = None ->
  startswith [47] (w_temp_dir w) = true ->
  (forall k c, sfs !! k = Some c -> inside (w_temp_dir w) k = false) ->
  len (stream q) < file_size ->
  handle_client w (State (request_head metadata ++ q) sn None sfs)
  = (Ok (Failed (Exn ConnectionError message)),
     State [] (sn ++ error_sends message) None sfs).
Proof.
  intros message input_path Hascii Hne Hlen Hsplit Hplain Hint Hopen Habs
         Hclean Hshort.
  rewrite (handle_client_raise w _ (State [] sn None sfs)
             (Exn ConnectionError message)).
  - reflexivity.
  - rewrite serve_header by done. unfold after_metadata. cbn zeta.
    rewrite Hsplit. cbn [nth].
    replace (len (file_name :: conversion :: size_s :: ps) <? 3) with false
      by (symmetry; apply Z.ltb_ge; unfold len; cbn [length]; lia).
    unfold bind at 1. unfold py_int at 1. rewrite Hint. unfold ret at 1.
    unfold with_temp_dir. unfold bind at 1. unfold open_wb at 1.
    fold input_path. rewrite Hopen. cbn [inq sent credit fs]. unfold bind at 1.
    rewrite recv_file_closed by (cbn [inq]; unfold len in Hshort; lia).
    cbn [inq sent credit fs]. rewrite alter_insert_eq. subst input_path.
    rewrite filter_outside_insert by done.
    by rewrite filter_outside_id.
  - reflexivity.
  - repeat constructor; lia.
  - by vm_compute.
Qed.

Lemma upload_cut_short_witness :
  handle_client demo_world
    (State (request_head (lit "a.png|bogus|5") ++ [[x01; x02]; [x03]])
           [] None {[ lit "/srv/keep.txt" := [x41] ]})
  = (Ok (Failed (Exn ConnectionError
           (lit "Connection closed before file was fully received"))),
     State [] ([] ++ error_sends
                 (lit "Connection closed before file was fully received"))
           None {[ lit "/srv/keep.txt" := [x41] ]}).
Proof.
  apply (upload_cut_short demo_world (lit "a.png|bogus|5")
           (lit "a.png") (lit "bogus") (lit "5") [] 5).
  - repeat constructor; lia.
  - done.
  - by vm_compute.
  - by vm_compute.
  - apply literal_plain;
      [vm_compute; repeat (constructor; [lia|]); constructor|done..].
  - by vm_compute.
  - reflexivity.
  - reflexivity.
  - intros k c Hk. apply lookup_singleton_Some in Hk as [<- _].
    vm_compute. reflexivity.
  - by vm_compute.
Defined.

(** ** The fields of the metadata line, as the server splits them *)

Lemma split_on_extras (a : pystr) (items : list (pystr * Z)) :
  124 ∉ a ->
  split_on 124 (a ++ extras_tail items)
  = a :: map (fun kv => str_of_int kv.2) items.
Proof.
  revert a. induction items as [|[k v] items IH]; intros a Ha.
  - unfold extras_tail. cbn [map concat]. rewrite app_nil_r.
    by apply split_on_field.
  - unfold extras_tail. cbn [map concat snd].
    fold (extras_tail items). change (lit "|") with [124].
    rewrite <- app_assoc. cbn [app].
    rewrite split_on_app by done. rewrite IH by apply str_of_int_no_bar.
    reflexivity.
Qed.

Lemma split_make_metadata (fn ct : pystr) (size : Z)
    (extra_params : option (list (pystr * Z))) :
  124 ∉ fn -> 124 ∉ ct ->
  split_on 124 (make_metadata fn ct size extra_params)
  = fn :: ct :: str_of_int size :: map str_of_int (extra_values extra_params).
Proof.
  intros Hfn Hct.
  assert (Hm : make_metadata fn ct size extra_params
               = fn ++ 124 :: ct ++ 124 :: str_of_int size
                 ++ extras_tail (default [] extra_params)).
  { unfold make_metadata. change (lit "|") with [124].
    destruct extra_params as [[|item items]|]; cbn [default];
      rewrite ?add_extras_tail; unfold extras_tail at 1; cbn [map concat];
      rewrite <- ?app_assoc; cbn [app]; rewrite ?app_nil_r;
      rewrite <- ?app_assoc; reflexivity. }
  rewrite Hm. rewrite !split_on_app by done.
  rewrite split_on_extras by apply str_of_int_no_bar.
  unfold extra_values. by rewrite map_map.
Qed.

(** X8. The server's [split('|')] gives back the fields that the client
    joined: the file name, the conversion, the size, and the values of the
    extra parameters in their order, when neither the name nor the
    conversion holds a bar. *)
Theorem metadata_fields_roundtrip (fn ct : pystr) (size : Z)
    (extra_params : option (list (pystr * Z))) :
  124 ∉ fn -> 124 ∉ ct ->
  split_on 124 (make_metadata fn ct size extra_params)
  = fn :: ct :: str_of_int size :: map str_of_int (extra_values extra_params).
Proof.
  intros Hfn Hct.
  assert (Hm : make_metadata fn ct size extra_params
               = fn ++ 124 :: ct ++ 124 :: str_of_int size
                 ++ extras_tail (default [] extra_params)).
  { unfold make_metadata. change (lit "|") with [124].
    destruct extra_params as [[|item items]|]; cbn [default];
      rewrite ?add_extras_tail; unfold extras_tail at 1; cbn [map concat];
      rewrite <- ?app_assoc; cbn [app]; rewrite ?app_nil_r;
      rewrite <- ?app_assoc; reflexivity. }
  rewrite Hm. rewrite !split_on_app by done.
  rewrite split_on_extras by apply str_of_int_no_bar.
  unfold extra_values. by rewrite map_map.
Qed.

Lemma metadata_fields_roundtrip_witness :
  split_on 124 (make_metadata (lit "a.png") (lit "img_resize") 3
                  (Some [(lit "width", 640); (lit "height", 480)]))
  = [lit "a.png"; lit "img_resize"; lit "3"; lit "640"; lit "480"].
Proof.
  apply (metadata_fields_roundtrip (lit "a.png") (lit "img_resize") 3
           (Some [(lit "width", 640); (lit "height", 480)])).
  - vm_compute. intros H.
    repeat (apply elem_of_cons in H as [H|H]; [discriminate H|]).
    by apply elem_of_nil in H.
  - vm_compute. intros H.
    repeat (apply elem_of_cons in H as [H|H]; [discriminate H|]).
    by apply elem_of_nil in H.
Defined.

Lemma img_resize_no_bar (ct : pystr) : ct = lit "img_resize" -> 124 ∉ ct.
Proof.
  intros -> H. vm_compute in H.
  repeat (apply elem_of_cons in H as [H|H]; [discriminate H|]).
  by apply elem_of_nil in H.
Qed.

Lemma dispatch_extras (w : world) (fn ct : pystr) (size width height : Z)
    (extra_params : option (list (pystr * Z))) (registered : handler)
    (st : state) :
  extra_params = cli_extra_params ct width height
  \/ extra_params = gui_extra_params ct width height ->
  124 ∉ fn -> 124 ∉ ct ->
  w_int w (str_of_int width) = inr width ->
  w_int w (str_of_int height) = inr height ->
  dispatch w ct (split_on 124 (make_metadata fn ct size extra_params))
           registered st
  = (Ok (if bool_decide (ct = lit "img_resize")
         then Call handle_resize (Some (width, height))
         else Call registered None), st).
Proof.
  intros Hep Hfn Hct Hw Hh. rewrite split_make_metadata by done.
  unfold dispatch, cli_extra_params, gui_extra_params in *.
  destruct (bool_decide_reflect (ct = lit "img_resize")) as [->|Hne].
  - assert (extra_params
            = Some [(lit "width", width); (lit "height", height)])
      as -> by (by destruct Hep).
    unfold extra_values. cbn [default from_option id map snd nth].
    assert (Hfive : forall a b c d e : pystr,
               (5 <=? len [a; b; c; d; e]) = true) by reflexivity.
    rewrite Hfive. cbn [andb]. unfold bind, py_int.
    by rewrite Hw, Hh.
  - reflexivity.
Qed.



(** ** The client on a response that does not complete *)

Lemma recv_results_after_frames (w : world) (files : list (pystr * bytes))
    (rest : list bytes) (sn : list (part * bytes)) (cr : option nat)
    (cfs : gmap pystr bytes) :
  let od := join (w_cwd w) (lit "converted_files") in
  let ts := strftime (w_now w) in
  Forall (fun f => wire_name f.1 /\ len f.2 < 2 ^ 64
                   /\ w_open_wb w (unique_path od ts f.1) = None) files ->
  exists k,
    recv_results w
      (State (deliver (flat_map (fun f => frame f.1 f.2) files) ++ rest)
             sn cr cfs)
    = recv_results_loop (S k) w od ts
        (map (fun f => unique_path od ts f.1) files)
        (State rest sn cr (store od ts cfs files)).
Proof.
  intros od ts Hfiles. unfold recv_results. fold od ts. cbn [inq].
  pose proof (stream_frames_length files rest) as Hlen.
  destruct (Nat.le_exists_sub _ _ Hlen) as (k & Hk & _).
  exists k. rewrite Hk.
  replace (S (k + length files)) with (length files + S k)%nat by lia.
  rewrite recv_results_frames with (q := rest); [|exact Hfiles|reflexivity].
  reflexivity.
Qed.

(** X10. When the stream ends inside the content of a result file, the client
    raises "Connection closed during file transfer" and returns no path; the
    files received before stay, and so does the part of the file that was
    cut, under its final name. *)
Theorem download_cut_short (w : world) (files : list (pystr * bytes))
    (name : pystr) (file_size : Z) (segs : list bytes)
    (sn : list (part * bytes)) (cr : option nat) (cfs : gmap pystr bytes) :
  let od := join (w_cwd w) (lit "converted_files") in
  let ts := strftime (w_now w) in
  Forall (fun f => wire_name f.1 /\ len f.2 < 2 ^ 64
                   /\ w_open_wb w (unique_path od ts f.1) = None) files ->
  wire_name name -> w_open_wb w (unique_path od ts name) = None ->
  len (stream segs) < file_size < 2 ^ 64 ->
  recv_results w
    (State (deliver (flat_map (fun f => frame f.1 f.2) files)
            ++ frame_head name file_size ++ segs) sn cr cfs)
  = (Raise (Exn ConnectionError (lit "Connection closed during file transfer")),
     State [] sn cr
           (<[normpath (unique_path od ts name) := stream segs]>
              (store od ts cfs files))).
Proof.
  intros od ts Hfiles (Hne & Hascii & Herr & Hlen) Hopen [Hshort Hsize].
  change (2 ^ 32) with 4294967296 in Hlen.
  change (2 ^ 64) with 18446744073709551616 in Hsize.
  pose proof (len_nonneg name) as Hn0.
  pose proof (len_nonneg (stream segs)) as Hs0.
  destruct (recv_results_after_frames w files (frame_head name file_size ++ segs)
              sn cr cfs Hfiles) as [k Hk].
  fold od ts in Hk. rewrite Hk. clear Hk.
  unfold frame_head. cbn [app recv_results_loop]. unfold bind at 1.
  erewrite recv_whole;
    [|reflexivity|by apply be_bytes_nonempty; lia|by rewrite length_be_bytes].
  rewrite from_bytes_be_bytes by (rewrite pow_256_4; lia).
  destruct (Z.eqb_spec (len name) 0) as [E0|_].
  { apply len_nil_iff in E0. done. }
  unfold bind at 1.
  erewrite recv_whole; [|reflexivity| |].
  2: { by destruct name. }
  2: { rewrite length_map. unfold len. lia. }
  unfold bind at 1. unfold lift at 1. rewrite decode_ascii by done.
  rewrite Herr. unfold bind at 1. cbn [inq sent credit fs].
  erewrite recv_whole; [|reflexivity| |].
  2: { destruct (be_bytes 8 file_size) eqn:E; [|done].
       apply (f_equal length) in E. by rewrite length_be_bytes in E. }
  2: { by rewrite length_be_bytes. }
  rewrite from_bytes_be_bytes by (rewrite pow_256_8; lia).
  unfold bind at 1. unfold open_wb at 1. rewrite Hopen.
  cbn [inq sent credit fs]. unfold bind at 1.
  rewrite recv_file_closed by (cbn [inq]; unfold len in Hshort; lia).
  cbn [inq sent credit fs]. by rewrite alter_insert_eq.
Qed.

Lemma download_cut_short_witness :
  recv_results demo_world
    (State (deliver (flat_map (fun f => frame f.1 f.2)
                       [(lit "page_1.png", [x01; x02])])
            ++ frame_head (lit "page_2.png") 3 ++ [[x07]]) [] None ∅)
  = (Raise (Exn ConnectionError (lit "Connection closed during file transfer")),
     State [] [] None
       (<[normpath (unique_path (join (w_cwd demo_world) (lit "converted_files"))
                      (strftime (w_now demo_world)) (lit "page_2.png"))
          := stream [[x07]]]>
          (store (join (w_cwd demo_world) (lit "converted_files"))
                 (strftime (w_now demo_world)) ∅
                 [(lit "page_1.png", [x01; x02])]))).
Proof.
  apply (download_cut_short demo_world [(lit "page_1.png", [x01; x02])]
           (lit "page_2.png") 3 [[x07]] [] None ∅).
  - constructor; [|constructor]. split; [|split; [by vm_compute|reflexivity]].
    split; [done|]. split; [repeat constructor; lia|].
    split; [reflexivity|by vm_compute].
  - split; [done|]. split; [repeat constructor; lia|].
    split; [reflexivity|by vm_compute].
  - reflexivity.
  - split; by vm_compute.
Defined.

(** X11. An error record that follows complete result files makes the client
    raise [RuntimeError] with the text of the record; the files received
    before it stay where they were stored, and the client reads no
    further. *)
Theorem error_after_files (w : world) (files : list (pystr * bytes))
    (msg : pystr) (q : list bytes)
    (sn : list (part * bytes)) (cr : option nat) (cfs : gmap pystr bytes) :
  let od := join (w_cwd w) (lit "converted_files") in
  let ts := strftime (w_now w) in
  Forall (fun f => wire_name f.1 /\ len f.2 < 2 ^ 64
                   /\ w_open_wb w (unique_path od ts f.1) = None) files ->
  is_ascii msg -> startswith (lit "ERROR:") msg = true -> len msg < 2 ^ 32 ->
  recv_results w
    (State (deliver (flat_map (fun f => frame f.1 f.2) files)
            ++ [be_bytes 4 (len msg); map byte_of_Z msg] ++ q) sn cr cfs)
  = (Raise (Exn RuntimeError msg), State q sn cr (store od ts cfs files)).
Proof.
  intros od ts Hfiles Hascii Herr Hlen.
  change (2 ^ 32) with 4294967296 in Hlen.
  pose proof (len_nonneg msg).
  assert (Hne : msg <> []) by (intros ->; discriminate Herr).
  destruct (recv_results_after_frames w files
              ([be_bytes 4 (len msg); map byte_of_Z msg] ++ q)
              sn cr cfs Hfiles) as [k Hk].
  fold od ts in Hk. rewrite Hk. clear Hk.
  cbn [app recv_results_loop]. unfold bind at 1.
  erewrite recv_whole;
    [|reflexivity|by apply be_bytes_nonempty; lia|by rewrite length_be_bytes].
  rewrite from_bytes_be_bytes by (rewrite pow_256_4; lia).
  destruct (Z.eqb_spec (len msg) 0) as [E0|_].
  { apply len_nil_iff in E0. done. }
  unfold bind at 1.
  erewrite recv_whole; [|reflexivity| |].
  2: { by destruct msg. }
  2: { rewrite length_map. unfold len. lia. }
  unfold bind at 1. unfold lift at 1. rewrite decode_ascii by done.
  by rewrite Herr.
Qed.

Lemma error_after_files_witness :
  recv_results demo_world
    (State (deliver (flat_map (fun f => frame f.1 f.2)
                       [(lit "page_1.png", [x01; x02])])
            ++ [be_bytes 4 (len (lit "ERROR: disk full"));
                map byte_of_Z (lit "ERROR: disk full")] ++ []) [] None ∅)
  = (Raise (Exn RuntimeError (lit "ERROR: disk full")),
     State [] [] None
       (store (join (w_cwd demo_world) (lit "converted_files"))
              (strftime (w_now demo_world)) ∅
              [(lit "page_1.png", [x01; x02])])).
Proof.
  apply (error_after_files demo_world [(lit "page_1.png", [x01; x02])]
           (lit "ERROR: disk full") [] [] None ∅).
  - constructor; [|constructor]. split; [|split; [by vm_compute|reflexivity]].
    split; [done|]. split; [repeat constructor; lia|].
    split; [reflexivity|by vm_compute].
  - repeat constructor; lia.
  - reflexivity.
  - by vm_compute.
Defined.

(** ** Sending a file in pieces *)

Lemma send_chunks_sends (p : part) (cs : list bytes) (st : state) :
  exists k,
    (k <= length cs)%nat
    /\ sent (send_chunks p cs st).2 = sent st ++ map (pair p) (take k cs)
    /\ ((send_chunks p cs st).1 = Ok tt -> k = length cs)
    /\ (k = length cs -> (send_chunks p cs st).1 = Ok tt).
Proof.
  revert st. induction cs as [|c cs IH]; intros st.
  - exists 0%nat. cbn. by rewrite app_nil_r.
  - cbn [send_chunks]. unfold bind, send.
    destruct (credit st) as [[|n]|].
    + exists 0%nat. cbn. rewrite app_nil_r. repeat split; [lia|done..].
    + destruct (IH (State (inq st) (sent st ++ [(p, c)]) (Some n) (fs st)))
        as (k & Hk & Hsent & Hok & Hall).
      exists (S k). cbn [length take map]. rewrite Hsent. cbn [sent].
      rewrite <- app_assoc. repeat split; [lia|..].
      * intros H. f_equal. by apply Hok.
      * intros H. apply Hall. lia.
    + destruct (IH (State (inq st) (sent st ++ [(p, c)]) None (fs st)))
        as (k & Hk & Hsent & Hok & Hall).
      exists (S k). cbn [length take map]. rewrite Hsent. cbn [sent].
      rewrite <- app_assoc. repeat split; [lia|..].
      * intros H. f_equal. by apply Hok.
      * intros H. apply Hall. lia.
Qed.

Lemma chunked_size (fuel : nat) (c : bytes) :
  Forall (fun seg => (length seg <= 4096)%nat) (chunked fuel c).
Proof.
  revert c. induction fuel as [|fuel IH]; intros c; [constructor|].
  destruct c as [|b c]; [constructor|]. cbn [chunked].
  constructor; [|apply IH]. rewrite length_take. lia.
Qed.

(** X12. The loop that sends a file sends it in order, in pieces of 1 to 4096
    bytes: whenever it stops, what it has sent is the beginning of the file,
    and it is the whole file exactly when no send failed. *)
Theorem file_is_sent_in_order (p : part) (content : bytes) (st : state) :
  let r := send_chunks p (chunks content) st in
  exists new,
    sent r.2 = sent st ++ new
    /\ Forall (fun x => x.1 = p /\ 0 < len x.2 <= 4096) new
    /\ stream (deliver new) `prefix_of` content
    /\ (r.1 = Ok tt <-> stream (deliver new) = content).
Proof.
  intros r. subst r.
  destruct (send_chunks_sends p (chunks content) st)
    as (k & Hk & Hsent & Hok & Hall).
  exists (map (pair p) (take k (chunks content))).
  split; [done|]. rewrite deliver_chunks.
  assert (Hsplit : content
                   = stream (take k (chunks content))
                     ++ stream (drop k (chunks content))).
  { unfold stream. rewrite <- concat_app, take_drop. by rewrite chunks_concat. }
  split; [|split; [|split]].
  - apply Forall_map. apply Forall_take.
    pose proof (chunks_nonempty content) as Hne.
    pose proof (chunked_size (length content) content) as Hsz.
    fold (chunks content) in Hsz.
    rewrite Forall_forall in Hne, Hsz. apply Forall_forall. intros seg Hseg.
    cbn [fst snd]. split; [done|]. specialize (Hne _ Hseg).
    specialize (Hsz _ Hseg). unfold len. destruct seg; [done|].
    cbn [length] in *. lia.
  - eexists. exact Hsplit.
  - intros H. apply Hok in H. subst k. rewrite firstn_all.
    apply chunks_concat.
  - intros H. apply Hall.
    destruct (decide (k = length (chunks content))) as [|Hlt]; [done|].
    exfalso. rewrite H in Hsplit at 1.
    apply (f_equal (@length byte)) in Hsplit. rewrite length_app in Hsplit.
    assert (Hd : drop k (chunks content) <> []).
    { intros Hd. apply (f_equal (@length (list byte))) in Hd.
      rewrite length_drop in Hd. cbn in Hd. lia. }
    destruct (drop k (chunks content)) as [|seg rest] eqn:E; [done|].
    assert (Hin : seg ∈ chunks content).
    { apply (subseteq_drop k). rewrite E. left. }
    pose proof (chunks_nonempty content) as Hne.
    rewrite Forall_forall in Hne. specialize (Hne _ Hin).
    unfold stream in Hsplit. cbn [concat] in Hsplit.
    rewrite length_app in Hsplit. destruct seg; [done|].
    cbn [length] in Hsplit. lia.
Qed.

(** ** A whole exchange *)

Lemma registered_keys (ct : pystr) (h : handler) :
  conversion_handlers !! ct = Some h ->
  (ct, h) ∈ [ (lit "pdf2png", handle_pdf_to_png);
              (lit "png2jpg", handle_image_conversion);
              (lit "jpg2png", handle_jpg_to_png);
              (lit "img_grayscale", handle_grayscale);
              (lit "img_resize", handle_resize) ].
Proof. intros H. by apply elem_of_list_to_map_2 in H. Qed.

Lemma registered_key_shape (ct : pystr) (h : handler) :
  conversion_handlers !! ct = Some h ->
  is_ascii ct /\ (124 ∉ ct) /\ (ct = lit "img_resize" -> h = handle_resize).
Proof.
  intros H. apply registered_keys in H.
  repeat (apply elem_of_cons in H as [H|H];
          [injection H as -> ->;
           (split; [repeat constructor; lia|]);
           (split; [|by intros ?]);
           vm_compute; intros Hin;
           repeat (apply elem_of_cons in Hin as [Hin|Hin]; [discriminate Hin|]);
           by apply elem_of_nil in Hin|]).
  by apply elem_of_nil in H.
Qed.

Lemma deliver_request (metadata : pystr) (content : bytes) :
  deliver (request_sends metadata content)
  = request_head metadata ++ chunks content.
Proof.
  unfold request_sends, request_head, deliver. rewrite map_app.
  cbn [map snd app]. fold (deliver (map (pair ReqChunk) (chunks content))).
  by rewrite deliver_chunks.
Qed.

Lemma send_request_ok (w : world) (file_path conversion_type : pystr)
    (extra_params : option (list (pystr * Z))) (content : bytes)
    (q : list bytes) (sn : list (part * bytes)) (cfs : gmap pystr bytes) :
  let metadata := make_metadata (basename file_path) conversion_type
                                (len content) extra_params in
  cfs !! normpath file_path = Some content ->
  is_ascii metadata -> len metadata < 2 ^ 32 ->
  send_request w file_path conversion_type extra_params (State q sn None cfs)
  = recv_results w (State q (sn ++ request_sends metadata content) None cfs).
Proof.
  intros metadata Hfile Hascii Hlen.
  unfold send_request. unfold bind at 1. unfold exists_file. cbn [fs].
  rewrite Hfile. rewrite bool_decide_eq_true_2 by eauto. cbn [negb].
  unfold bind at 1.
  pose proof (send_file_ok w file_path conversion_type extra_params
                content q sn cfs Hfile Hascii Hlen) as Hsf.
  cbn zeta in Hsf. by rewrite Hsf.
Qed.

(** What a handler returns can be sent: its files are stored, and bear
    names that the framing carries. *)
Lemma run_handler_frames (w : world) (h : handler) (input dir : pystr)
    (dims : option (Z * Z)) (st st' : state) (outs : list pystr) :
  run_handler w h input dir dims st = (Ok outs, st') ->
  len outs < 2 ^ 31 ->
  Forall (fun f => len f.2 < 2 ^ 64) (received (fs st') outs) ->
  Forall (fun f => fs st' !! normpath f.1 = Some f.2
                   /\ wire_name (basename f.1) /\ len f.2 < 2 ^ 64)
         (map (fun p => (p, default [] (fs st' !! normpath p))) outs).
Proof.
  intros Hrun Hpages Hsizes.
  destruct (run_handler_stored _ _ _ _ _ _ _ _ Hrun) as (_ & Hstored).
  pose proof (run_handler_names _ _ _ _ _ _ _ _ Hpages Hrun) as Hnames.
  apply Forall_map. rewrite Forall_forall. intros p Hp. cbn [fst snd].
  pose proof (proj1 (Forall_forall _ _) Hstored p Hp) as [c Hc].
  pose proof (proj1 (Forall_forall _ _) Hnames p Hp) as Hname.
  pose proof (proj1 (Forall_forall _ _) Hsizes
                (basename p, default [] (fs st' !! normpath p))) as Hsize.
  rewrite Hc in *. cbn [default from_option id snd] in *.
  split; [done|]. split; [done|].
  apply Hsize. unfold received.
  apply list_elem_of_fmap. exists p. by rewrite Hc.
Qed.

Lemma response_frames (m : gmap pystr bytes) (outs : list pystr) :
  flat_map (fun f : pystr * bytes => frame (basename f.1) f.2)
           (map (fun p => (p, default [] (m !! normpath p))) outs)
  = flat_map (fun p => frame (basename p) (default [] (m !! normpath p))) outs.
Proof.
  induction outs as [|p outs IH]; [reflexivity|].
  cbn [map flat_map fst snd]. by rewrite IH.
Qed.

(** The server on a request that it can satisfy. *)
Lemma serve_completes (ws wc : world) (metadata : pystr) (content : bytes)
    (sn : list (part * bytes)) (sfs : gmap pystr bytes)
    (file_name conversion size_s : pystr) (ps : list pystr)
    (registered : handler) (c : call) (outs : list pystr) (st2 : state) :
  let parts := file_name :: conversion :: size_s :: ps in
  let input_path := join (w_temp_dir ws) file_name in
  let st1 := State [] sn None (<[normpath input_path := content]> sfs) in
  is_ascii metadata -> metadata <> [] -> len metadata < 2 ^ 32 ->
  split_on 124 metadata = parts ->
  w_int ws size_s = inr (len content) ->
  w_open_wb ws input_path = None ->
  conversion_handlers !! conversion = Some registered ->
  dispatch ws conversion parts registered st1 = (Ok c, st1) ->
  run_handler ws (call_handler c) input_path (w_temp_dir ws) (call_dims c) st1
  = (Ok outs, st2) ->
  len outs < 2 ^ 31 ->
  Forall (fun f => len f.2 < 2 ^ 64) (received (fs st2) outs) ->
  serve ws (State (request_head metadata ++ chunks content) sn None sfs)
  = (Ok Completed,
     State [] (sn ++ response_sends (fs st2) outs) None
           (filter (outside (w_temp_dir ws)) (fs st2))).
Proof.
  intros parts input_path st1 Hascii Hne Hlen Hsplit Hint Hopen Hreg Hdisp
         Hrun Hpages Hsizes.
  rewrite serve_header by done. unfold after_metadata. cbn zeta.
  rewrite Hsplit. subst parts. cbn [nth].
  replace (len (file_name :: conversion :: size_s :: ps) <? 3) with false
    by (symmetry; apply Z.ltb_ge; unfold len; cbn [length]; lia).
  unfold bind at 1. unfold py_int at 1. rewrite Hint. unfold ret at 1.
  unfold with_temp_dir. unfold bind at 1. unfold open_wb at 1.
  fold input_path. rewrite Hopen. cbn [inq sent credit fs]. unfold bind at 1.
  rewrite recv_file_chunks. rewrite Hreg. fold st1.
  unfold bind at 1. rewrite Hdisp. unfold bind at 1. rewrite Hrun.
  destruct (run_handler_stored _ _ _ _ _ _ _ _ Hrun)
    as ((Hinq & Hsent & Hcr) & _).
  destruct st2 as [q2 sn2 cr2 m2]. cbn [inq sent credit fs] in *.
  subst q2 sn2 cr2.
  pose proof (run_handler_frames ws _ _ _ _ _ _ _ Hrun Hpages Hsizes)
    as Hframes.
  unfold bind at 1.
  replace outs
    with (map fst (map (fun p => (p, default [] (m2 !! normpath p))) outs))
    at 1 by (rewrite map_map; apply map_id).
  rewrite send_results_ok.
  - unfold bind, lift. rewrite to_bytes_ok by done.
    rewrite send_open by done. cbn [inq sent credit fs]. unfold ret.
    rewrite response_frames. unfold response_sends.
    by rewrite <- app_assoc.
  - exact Hframes.
Qed.


Lemma recv_response (wc : world) (m : gmap pystr bytes) (outs : list pystr)
    (csn : list (part * bytes)) (ccr : option nat) (cfs : gmap pystr bytes) :
  let od := join (w_cwd wc) (lit "converted_files") in
  let ts := strftime (w_now wc) in
  Forall (fun f => m !! normpath f.1 = Some f.2
                   /\ wire_name (basename f.1) /\ len f.2 < 2 ^ 64)
         (map (fun p => (p, default [] (m !! normpath p))) outs) ->
  (forall p, w_open_wb wc p = None) ->
  recv_results wc (State (deliver (response_sends m outs)) csn ccr cfs)
  = (Ok (map (fun f => unique_path od ts f.1) (received m outs)),
     State [] csn ccr (store od ts cfs (received m outs))).
Proof.
  intros od ts Hframes Hopen.
  destruct (frames_roundtrip wc wc
              (map (fun p => (p, default [] (m !! normpath p))) outs)
              [] [] m csn ccr cfs) as (_ & Hrecv).
  { eapply Forall_impl; [exact Hframes|]. intros f (? & ? & ?).
    split; [done|]. split; [done|]. split; [done|]. apply Hopen. }
  rewrite response_frames in Hrecv. fold (response_sends m outs) in Hrecv.
  rewrite Hrecv. unfold received. rewrite !map_map. reflexivity.
Qed.

(** One exchange, from the request of the client to the files it stores,
    when the server can satisfy the request. *)
Lemma exchange_runs (wc ws : world) (cfs sfs : gmap pystr bytes)
    (file_path ct : pystr) (extra_params : option (list (pystr * Z)))
    (content : bytes) (registered : handler) (c : call) (outs : list pystr)
    (st2 : state) :
  let file_name := basename file_path in
  let metadata := make_metadata file_name ct (len content) extra_params in
  let input_path := join (w_temp_dir ws) file_name in
  let st1 := State [] [] None (<[normpath input_path := content]> sfs) in
  let od := join (w_cwd wc) (lit "converted_files") in
  let ts := strftime (w_now wc) in
  cfs !! normpath file_path = Some content ->
  is_ascii file_name -> 124 ∉ file_name -> len metadata < 2 ^ 32 ->
  w_int ws (str_of_int (len content)) = inr (len content) ->
  w_open_wb ws input_path = None ->
  conversion_handlers !! ct = Some registered ->
  dispatch ws ct (split_on 124 metadata) registered st1 = (Ok c, st1) ->
  run_handler ws (call_handler c) input_path (w_temp_dir ws) (call_dims c) st1
  = (Ok outs, st2) ->
  len outs < 2 ^ 31 ->
  Forall (fun f => len f.2 < 2 ^ 64) (received (fs st2) outs) ->
  (forall p, w_open_wb wc p = None) ->
  exchange wc ws cfs sfs file_path ct extra_params
  = ((Ok (map (fun f => unique_path od ts f.1) (received (fs st2) outs)),
      State [] (request_sends metadata content) None
            (store od ts cfs (received (fs st2) outs))),
     (Ok Completed,
      State [] (response_sends (fs st2) outs) None
            (filter (outside (w_temp_dir ws)) (fs st2)))).
Proof.
  intros file_name metadata input_path st1 od ts Hfile Hfn Hnf Hlen Hint Hopen
         Hreg Hdisp Hrun Hpages Hsizes Hcopen.
  destruct (registered_key_shape ct registered Hreg) as (Hct & Hnc & _).
  destruct (make_metadata_fields file_name ct (len content) extra_params
              Hfn Hct Hnf Hnc) as (Hascii & Hne & _).
  fold metadata in Hascii, Hne.
  pose proof (split_make_metadata file_name ct (len content)
                extra_params Hnf Hnc) as Hsplit.
  fold metadata in Hsplit.
  assert (Hsend : forall q,
             send_request wc file_path ct extra_params (connect q cfs)
             = recv_results wc
                 (State q (request_sends metadata content) None cfs)).
  { intros q. unfold connect.
    pose proof (send_request_ok wc file_path ct extra_params content q []
                  cfs Hfile Hascii Hlen) as Hs.
    cbn zeta in Hs. exact Hs. }
  unfold exchange. rewrite !Hsend.
  assert (Hfirst : sent (recv_results wc
                           (State [] (request_sends metadata content) None cfs)).2
                   = request_sends metadata content).
  { unfold recv_results. by rewrite recv_results_closed. }
  rewrite Hfirst, deliver_request.
  pose proof (run_handler_frames ws _ _ _ _ _ _ _ Hrun Hpages Hsizes)
    as Hframes.
  assert (Hserved :
            handle_client ws (connect (request_head metadata ++ chunks content) sfs)
            = (Ok Completed,
               State [] (response_sends (fs st2) outs) None
                     (filter (outside (w_temp_dir ws)) (fs st2)))).
  { unfold handle_client, connect.
    rewrite (serve_completes ws wc metadata content [] sfs file_name ct
               (str_of_int (len content))
               (map str_of_int (extra_values extra_params))
               registered c outs st2); try done.
    by rewrite <- Hsplit. }
  rewrite Hserved. cbn [snd sent]. f_equal.
  by apply recv_response.
Qed.

(** X13. An exchange that the server can satisfy.  The command-line client
    uploads a readable file with a plain ASCII name for a registered
    conversion (with the width and the height for a resize); the handler
    succeeds.  Then the server completes and is left with the files it had,
    and the client returns, in the order of the handler, one path per result
    file, each stored with the content the handler wrote. *)
Theorem exchange_completes (wc ws : world) (cfs sfs : gmap pystr bytes)
    (file_path ct : pystr) (width height : Z) (content : bytes)
    (h : handler) (outs : list pystr) (st2 : state) :
  let file_name := basename file_path in
  let extra_params := cli_extra_params ct width height in
  let metadata := make_metadata file_name ct (len content) extra_params in
  let input_path := join (w_temp_dir ws) file_name in
  let dims := if bool_decide (ct = lit "img_resize")
              then Some (width, height) else None in
  let od := join (w_cwd wc) (lit "converted_files") in
  let ts := strftime (w_now wc) in
  cfs !! normpath file_path = Some content ->
  is_ascii file_name -> plain_name file_name -> 124 ∉ file_name ->
  len metadata < 2 ^ 32 ->
  w_int ws (str_of_int (len content)) = inr (len content) ->
  w_int ws (str_of_int width) = inr width ->
  w_int ws (str_of_int height) = inr height ->
  w_open_wb ws input_path = None ->
  startswith [47] (w_temp_dir ws) = true ->
  (forall k c, sfs !! k = Some c -> inside (w_temp_dir ws) k = false) ->
  conversion_handlers !! ct = Some h ->
  run_handler ws h input_path (w_temp_dir ws) dims
              (State [] [] None (<[normpath input_path := content]> sfs))
  = (Ok outs, st2) ->
  len outs < 2 ^ 31 ->
  Forall (fun f => len f.2 < 2 ^ 64) (received (fs st2) outs) ->
  (forall p, w_open_wb wc p = None) ->
  exchange wc ws cfs sfs file_path ct extra_params
  = ((Ok (map (fun f => unique_path od ts f.1) (received (fs st2) outs)),
      State [] (request_sends metadata content) None
            (store od ts cfs (received (fs st2) outs))),
     (Ok Completed,
      State [] (response_sends (fs st2) outs) None sfs)).
Proof.
  intros file_name extra_params metadata input_path dims od ts Hfile Hfn
         Hplain Hnf Hlen Hint Hw Hh Hopen Habs Hclean Hreg Hrun Hpages Hsizes
         Hcopen.
  destruct (registered_key_shape ct h Hreg) as (Hct & Hnc & Hresize).
  set (c := if bool_decide (ct = lit "img_resize")
            then Call handle_resize (Some (width, height))
            else Call h None).
  assert (Hc : call_handler c = h /\ call_dims c = dims).
  { subst c dims. case_bool_decide; [|done]. cbn. by rewrite Hresize. }
  destruct Hc as [Hch Hcd].
  rewrite (exchange_runs wc ws cfs sfs file_path ct extra_params content
             h c outs st2); try done.
  - do 3 f_equal.
    pose proof (run_handler_scratch ws h input_path (w_temp_dir ws) dims
                  (State [] [] None (<[normpath input_path := content]> sfs))
                  Habs) as Hscratch.
    rewrite Hrun in Hscratch. cbn [snd fs] in Hscratch. rewrite Hscratch.
    subst input_path. rewrite filter_outside_insert by done.
    by apply filter_outside_id.
  - apply dispatch_extras; try done. by left.
  - by rewrite Hch, Hcd.
Qed.

Lemma exchange_completes_witness :
  let cfs : gmap pystr bytes := {[ lit "in/a.png" := [x01; x02; x03] ]} in
  let input_path := lit "/tmp/tmpk3x9/a.png" in
  let run := run_handler dims_world handle_resize input_path
               (lit "/tmp/tmpk3x9") (Some (640, 480))
               (State [] [] None (<[normpath input_path := [x01; x02; x03]]> ∅)) in
  let outs := [lit "/tmp/tmpk3x9/resized.jpg"] in
  let od := lit "/home/user/converted_files" in
  let ts := lit "20240105_090307" in
  exchange dims_world dims_world cfs ∅ (lit "in/a.png") (lit "img_resize")
           (cli_extra_params (lit "img_resize") 640 480)
  = ((Ok (map (fun f => unique_path od ts f.1) (received (fs run.2) outs)),
      State [] (request_sends (lit "a.png|img_resize|3|640|480")
                              [x01; x02; x03]) None
            (store od ts cfs (received (fs run.2) outs))),
     (Ok Completed, State [] (response_sends (fs run.2) outs) None ∅)).
Proof.
  intros cfs input_path run outs od ts.
  assert (Hrun : run = (Ok outs, run.2)).
  { apply injective_projections; [vm_compute; reflexivity|reflexivity]. }
  apply (exchange_completes dims_world dims_world cfs ∅ (lit "in/a.png")
           (lit "img_resize") 640 480 [x01; x02; x03] handle_resize outs
           run.2).
  - by vm_compute.
  - repeat constructor; lia.
  - change (basename (lit "in/a.png")) with (lit "a.png").
    apply literal_plain;
      [vm_compute; repeat (constructor; [lia|]); constructor|done..].
  - vm_compute. intros H.
    repeat (apply elem_of_cons in H as [H|H]; [discriminate H|]).
    by apply elem_of_nil in H.
  - by vm_compute.
  - by vm_compute.
  - by vm_compute.
  - by vm_compute.
  - reflexivity.
  - reflexivity.
  - intros k c Hk. by rewrite lookup_empty in Hk.
  - by vm_compute.
  - exact Hrun.
  - done.
  - repeat (constructor; [vm_compute; reflexivity|]). constructor.
  - reflexivity.
Defined.

(** ** Timestamps *)

Lemma digits_small (fuel : nat) (n : Z) (acc : pystr) :
  0 <= n < 10 -> digits fuel n acc = (48 + n) :: acc.
Proof.
  intros Hn. destruct fuel; cbn [digits].
  - by rewrite Z.mod_small.
  - destruct (Z.ltb_spec n 10); [|lia]. by rewrite Z.mod_small.
Qed.

Lemma digits_step (fuel : nat) (n : Z) (acc : pystr) :
  10 <= n ->
  digits (S fuel) n acc = digits fuel (n / 10) ((48 + n mod 10) :: acc).
Proof.
  intros Hn. cbn [digits]. by destruct (Z.ltb_spec n 10); [lia|].
Qed.

Lemma pad2_digits (n : Z) :
  0 <= n <= 99 -> pad2 n = [48 + n / 10; 48 + n mod 10].
Proof.
  intros Hn. unfold pad2, str_of_int.
  destruct (Z.ltb_spec n 0); [lia|].
  destruct (Z.ltb_spec n 10).
  - rewrite digits_small by lia. rewrite Z.div_small, Z.mod_small by lia.
    reflexivity.
  - assert (Hlog : 3 <= Z.log2 n).
    { change 3 with (Z.log2 10). apply Z.log2_le_mono. lia. }
    destruct (Z.to_nat (Z.log2 n)) as [|fuel] eqn:E; [lia|].
    rewrite digits_step by lia.
    assert (0 <= n / 10 < 10).
    { split; [apply Z.div_pos; lia|apply Z.div_lt_upper_bound; lia]. }
    by rewrite digits_small.
Qed.

Lemma year_digits (y : Z) :
  1000 <= y <= 9999 ->
  str_of_int y
  = [48 + y / 10 / 10 / 10; 48 + (y / 10 / 10) mod 10;
     48 + (y / 10) mod 10; 48 + y mod 10].
Proof.
  intros Hy. unfold str_of_int. destruct (Z.ltb_spec y 0); [lia|].
  assert (Hlog : 9 <= Z.log2 y).
  { change 9 with (Z.log2 1000). apply Z.log2_le_mono. lia. }
  destruct (Z.to_nat (Z.log2 y)) as [|[|[|fuel]]] eqn:E; [lia..|].
  assert (100 <= y / 10 <= 999).
  { split; [apply Z.div_le_lower_bound; lia|].
    apply Z.lt_succ_r, Z.div_lt_upper_bound; lia. }
  assert (10 <= y / 10 / 10 <= 99).
  { split; [apply Z.div_le_lower_bound; lia|].
    apply Z.lt_succ_r, Z.div_lt_upper_bound; lia. }
  assert (0 <= y / 10 / 10 / 10 < 10).
  { split; [apply Z.div_pos; lia|apply Z.div_lt_upper_bound; lia]. }
  rewrite !digits_step by lia. by rewrite digits_small.
Qed.

Lemma two_digits_inj (a b : Z) :
  0 <= a <= 99 -> 0 <= b <= 99 ->
  a / 10 = b / 10 -> a mod 10 = b mod 10 -> a = b.
Proof.
  intros Ha Hb Hq Hr.
  pose proof (Z.div_mod a 10 ltac:(lia)).
  pose proof (Z.div_mod b 10 ltac:(lia)). lia.
Qed.

(** [strftime] tells the seconds of a clock apart. *)
Lemma strftime_inj (dt1 dt2 : datetime) :
  clock_time dt1 -> clock_time dt2 ->
  strftime dt1 = strftime dt2 -> to_second dt1 = to_second dt2.
Proof.
  intros (Hy1 & Hm1 & Hd1 & Hh1 & Hi1 & Hs1) (Hy2 & Hm2 & Hd2 & Hh2 & Hi2 & Hs2) H.
  unfold strftime in H.
  rewrite !year_digits, !pad2_digits in H by lia. cbn [app] in H.
  injection H as Y3 Y2 Y1 Y0 M1 M0 D1 D0 H1 H0 I1 I0 S1 S0.
  assert (year dt1 = year dt2).
  { pose proof (Z.div_mod (year dt1) 10 ltac:(lia)).
    pose proof (Z.div_mod (year dt2) 10 ltac:(lia)).
    pose proof (Z.div_mod (year dt1 / 10) 10 ltac:(lia)).
    pose proof (Z.div_mod (year dt2 / 10) 10 ltac:(lia)).
    pose proof (Z.div_mod (year dt1 / 10 / 10) 10 ltac:(lia)).
    pose proof (Z.div_mod (year dt2 / 10 / 10) 10 ltac:(lia)).
    assert (year dt1 / 10 / 10 / 10 = year dt2 / 10 / 10 / 10) by lia.
    assert ((year dt1 / 10 / 10) mod 10 = (year dt2 / 10 / 10) mod 10) by lia.
    assert ((year dt1 / 10) mod 10 = (year dt2 / 10) mod 10) by lia.
    assert (year dt1 mod 10 = year dt2 mod 10) by lia.
    lia. }
  assert (month dt1 = month dt2) by (apply two_digits_inj; lia).
  assert (day dt1 = day dt2) by (apply two_digits_inj; lia).
  assert (hour dt1 = hour dt2) by (apply two_digits_inj; lia).
  assert (minute dt1 = minute dt2) by (apply two_digits_inj; lia).
  assert (second dt1 = second dt2) by (apply two_digits_inj; lia).
  unfold to_second. congruence.
Qed.

Lemma strftime_plain (dt : datetime) :
  Forall (fun c => c <> 47) (strftime dt).
Proof.
  assert (Hs : forall n, Forall (fun c => c <> 47) (str_of_int n)).
  { intros n. apply str_of_int_Forall; intros; lia. }
  assert (Hp : forall n, Forall (fun c => c <> 47) (pad2 n)).
  { intros n. unfold pad2. destruct (n <? 10); [constructor; [lia|]|]; apply Hs. }
  unfold strftime. repeat (apply Forall_app; split); try done.
  constructor; [lia|constructor].
Qed.

Lemma splitext_app (p : pystr) : (splitext p).1 ++ (splitext p).2 = p.
Proof.
  unfold splitext. cbn zeta. destruct (_ && _); cbn [fst snd].
  - apply take_drop.
  - apply app_nil_r.
Qed.

(** The name under which the client stores a result: plain, when the name
    on the wire holds no slash. *)
Lemma unique_name_plain (ts name : pystr) :
  47 ∉ name -> Forall (fun c => c <> 47) ts ->
  plain_name ((splitext name).1 ++ lit "_" ++ ts ++ (splitext name).2).
Proof.
  intros Hname Hts. pose proof (splitext_app name) as Happ.
  assert (Hb : 47 ∉ (splitext name).1).
  { intros Hin. apply Hname. rewrite <- Happ. apply elem_of_app. by left. }
  assert (He : 47 ∉ (splitext name).2).
  { intros Hin. apply Hname. rewrite <- Happ. apply elem_of_app. by right. }
  change (lit "_") with [95].
  destruct (splitext name) as [base ext]. cbn [fst snd] in *.
  split; [by destruct base|]. split; [|split].
  - intros Hin. apply elem_of_app in Hin as [Hin|Hin]; [done|].
    apply elem_of_cons in Hin as [Hin|Hin]; [discriminate Hin|].
    apply elem_of_app in Hin as [Hin|Hin]; [|done].
    rewrite Forall_forall in Hts. by apply Hts in Hin.
  - intros Heq. destruct base as [|b [|b' base]]; discriminate Heq.
  - intros Heq. destruct base as [|b [|b' base]]; try discriminate Heq.
    destruct base; discriminate Heq.
Qed.

Lemma join_keeps_root (a b : pystr) :
  startswith [47] a = true -> startswith [47] (join a b) = true.
Proof.
  intros Ha. unfold join. destruct (startswith [47] b) eqn:Hb; [done|].
  destruct a as [|c a]; [discriminate Ha|].
  by destruct (_ || _).
Qed.

(** X14. Requests made in different seconds store a result of one name in
    different files: the paths that [send_request] builds for it name the
    same file only if the two timestamps were taken in the same second. *)
Theorem different_seconds_different_files (cwd name : pystr)
    (dt1 dt2 : datetime) :
  let od := join cwd (lit "converted_files") in
  startswith [47] cwd = true -> 47 ∉ name ->
  clock_time dt1 -> clock_time dt2 ->
  normpath (unique_path od (strftime dt1) name)
  = normpath (unique_path od (strftime dt2) name) ->
  to_second dt1 = to_second dt2.
Proof.
  intros od Hcwd Hname H1 H2 Heq.
  apply strftime_inj; [done..|].
  unfold unique_path in Heq.
  pose proof (unique_name_plain (strftime dt1) name Hname (strftime_plain dt1))
    as Hp1.
  pose proof (unique_name_plain (strftime dt2) name Hname (strftime_plain dt2))
    as Hp2.
  destruct (splitext name) as [base ext]. cbn [fst snd] in *.
  apply normpath_join_inj in Heq; [| |done..].
  - apply app_inv_head in Heq. change (lit "_") with [95] in Heq.
    injection Heq as Heq. by apply app_inv_tail in Heq.
  - subst od. by apply join_keeps_root.
Qed.

Lemma different_seconds_different_files_witness :
  to_second (Datetime 2024 1 5 9 3 7 250000)
  = to_second (Datetime 2024 1 5 9 3 7 900000).
Proof.
  apply (different_seconds_different_files (lit "/home/user")
           (lit "converted.jpg")).
  - reflexivity.
  - vm_compute. intros H.
    repeat (apply elem_of_cons in H as [H|H]; [discriminate H|]).
    by apply elem_of_nil in H.
  - unfold clock_time. cbn. lia.
  - unfold clock_time. cbn. lia.
  - vm_compute. reflexivity.
Defined.

(** ** The conversions that the web page offers *)

Lemma registered_literals :
  conversion_handlers !! lit "pdf2png" = Some handle_pdf_to_png
  /\ conversion_handlers !! lit "png2jpg" = Some handle_image_conversion
  /\ conversion_handlers !! lit "jpg2png" = Some handle_jpg_to_png
  /\ conversion_handlers !! lit "img_grayscale" = Some handle_grayscale
  /\ conversion_handlers !! lit "img_resize" = Some handle_resize.
Proof. repeat split; vm_compute; reflexivity. Qed.

Lemma described_literals :
  is_Some (conversion_options !! lit "pdf2png")
  /\ is_Some (conversion_options !! lit "png2jpg")
  /\ is_Some (conversion_options !! lit "jpg2png")
  /\ is_Some (conversion_options !! lit "img_grayscale")
  /\ is_Some (conversion_options !! lit "img_resize").
Proof.
  repeat split.
  - exists (lit "Convert PDF to PNG images"). vm_compute. reflexivity.
  - exists (lit "Convert PNG to JPG"). vm_compute. reflexivity.
  - exists (lit "Convert JPG to PNG"). vm_compute. reflexivity.
  - exists (lit "Convert image to grayscale"). vm_compute. reflexivity.
  - exists (lit "Resize image"). vm_compute. reflexivity.
Qed.

(** X15. The web page offers only conversions that the server has a handler
    for, each with its text, and never the same one twice; and every
    conversion of the server is offered for some type of file. *)
Theorem gui_offers_registered :
  (forall file_type key text,
     (key, text) ∈ available_conversions file_type ->
     is_Some (conversion_handlers !! key) /\ is_Some text)
  /\ (forall file_type, NoDup (available_conversions file_type).*1)
  /\ (forall key, is_Some (conversion_handlers !! key) ->
        exists file_type, key ∈ (available_conversions file_type).*1).
Proof.
  destruct registered_literals as (R1 & R2 & R3 & R4 & R5).
  destruct described_literals as (D1 & D2 & D3 & D4 & D5).
  split; [|split].
  - intros file_type key text Hin. unfold available_conversions in Hin.
    cbn zeta in Hin.
    repeat case_bool_decide;
      repeat (apply elem_of_cons in Hin as [Hin|Hin];
              [injection Hin as -> ->; split; [eauto|done]|]);
      by apply elem_of_nil in Hin.
  - intros file_type. unfold available_conversions. cbn zeta.
    repeat case_bool_decide; cbn [fmap list_fmap fst];
      repeat (constructor;
              [intros Hin;
               repeat (apply elem_of_cons in Hin as [Hin|Hin];
                       [discriminate Hin|]);
               by apply elem_of_nil in Hin|]);
      constructor.
  - intros key [h Hreg]. apply registered_keys in Hreg.
    repeat (apply elem_of_cons in Hreg as [Hreg|Hreg];
            [injection Hreg as -> _|]).
    + exists (lit "application/pdf"). vm_compute. left.
    + exists (lit "image/png"). vm_compute. left.
    + exists (lit "image/jpeg"). vm_compute. left.
    + exists (lit "image/png"). vm_compute. right. left.
    + exists (lit "image/png"). vm_compute. right. right. left.
    + by apply elem_of_nil in Hreg.
Qed.

(** ** A handler that fails *)

Lemma serve_handler_fails (ws : world) (metadata : pystr) (content : bytes)
    (sn : list (part * bytes)) (sfs : gmap pystr bytes)
    (file_name conversion size_s : pystr) (ps : list pystr)
    (registered : handler) (c : call) (e : exn) (st2 : state) :
  let parts := file_name :: conversion :: size_s :: ps in
  let input_path := join (w_temp_dir ws) file_name in
  let st1 := State [] sn None (<[normpath input_path := content]> sfs) in
  is_ascii metadata -> metadata <> [] -> len metadata < 2 ^ 32 ->
  split_on 124 metadata = parts ->
  w_int ws size_s = inr (len content) ->
  w_open_wb ws input_path = None ->
  conversion_handlers !! conversion = Some registered ->
  dispatch ws conversion parts registered st1 = (Ok c, st1) ->
  run_handler ws (call_handler c) input_path (w_temp_dir ws) (call_dims c) st1
  = (Raise e, st2) ->
  serve ws (State (request_head metadata ++ chunks content) sn None sfs)
  = (Raise e,
     State (inq st2) (sent st2) (credit st2)
           (filter (outside (w_temp_dir ws)) (fs st2))).
Proof.
  intros parts input_path st1 Hascii Hne Hlen Hsplit Hint Hopen Hreg Hdisp
         Hrun.
  rewrite serve_header by done. unfold after_metadata. cbn zeta.
  rewrite Hsplit. subst parts. cbn [nth].
  replace (len (file_name :: conversion :: size_s :: ps) <? 3) with false
    by (symmetry; apply Z.ltb_ge; unfold len; cbn [length]; lia).
  unfold bind at 1. unfold py_int at 1. rewrite Hint. unfold ret at 1.
  unfold with_temp_dir. unfold bind at 1. unfold open_wb at 1.
  fold input_path. rewrite Hopen. cbn [inq sent credit fs]. unfold bind at 1.
  rewrite recv_file_chunks. rewrite Hreg. fold st1.
  unfold bind at 1. rewrite Hdisp. unfold bind at 1. rewrite Hrun.
  reflexivity.
Qed.




(** ** UTF-8, there and back *)

Ltac euclid := Z.to_euclidean_division_equations; lia.

Ltac decide_tests :=
  repeat match goal with
    | |- context [?a =? ?b] =>
        destruct (Z.eqb_spec a b); try (exfalso; euclid)
    | |- context [?a <? ?b] =>
        destruct (Z.ltb_spec a b); try (exfalso; euclid)
    | |- context [?a <=? ?b] =>
        destruct (Z.leb_spec a b); try (exfalso; euclid)
    end.

Ltac same_char :=
  match goal with
  | |- cons ?x <$> _ = cons ?c <$> _ => replace x with c by euclid
  end;
  reflexivity.

Lemma decode_encode_char (c : Z) (bs rest : bytes) :
  encode_char c = Some bs ->
  decode_chars (bs ++ rest) = cons c <$> decode_chars rest.
Proof.
  unfold encode_char.
  destruct (Z.ltb_spec c 0); [discriminate|].
  destruct (Z.ltb_spec c 128).
  { intros [= <-]. cbn [app decode_chars].
    rewrite Z_of_byte_of_Z by lia. by destruct (Z.ltb_spec c 128); [|lia]. }
  destruct (Z.ltb_spec c 2048).
  { intros [= <-]. cbn [app decode_chars]. unfold is_cont.
    rewrite !Z_of_byte_of_Z by euclid.
    decide_tests; cbn [andb]; same_char. }
  destruct (Z.ltb_spec c 65536).
  { destruct (Z.leb_spec 55296 c); destruct (Z.ltb_spec c 57344);
      cbn [andb]; try discriminate;
      intros [= <-]; cbn [app decode_chars]; unfold is_cont, between;
      rewrite !Z_of_byte_of_Z by euclid;
      decide_tests; cbn [andb]; same_char. }
  destruct (Z.ltb_spec c 1114112); [|discriminate].
  intros [= <-]. cbn [app decode_chars]. unfold is_cont, between.
  rewrite !Z_of_byte_of_Z by euclid.
  decide_tests; cbn [andb]; same_char.
Qed.

Lemma decode_encode_chars (s : pystr) (bs : bytes) :
  encode_chars s = Some bs -> decode_chars bs = Some s.
Proof.
  revert bs. induction s as [|c s IH]; intros bs H.
  - by injection H as <-.
  - cbn [encode_chars] in H.
    destruct (encode_char c) as [b|] eqn:Ec; [|discriminate H].
    destruct (encode_chars s) as [bs'|]; [|discriminate H].
    injection H as <-. rewrite (decode_encode_char c b bs' Ec).
    by rewrite (IH bs' eq_refl).
Qed.

(** [s.encode().decode()] is [s]. *)
Lemma decode_encode (msg : bytes -> pystr) (s : pystr) (bs : bytes) :
  encode s = Ok bs -> decode msg bs = Ok s.
Proof.
  unfold encode, decode. destruct (encode_chars s) as [b|] eqn:E; [|done].
  intros [= <-]. by rewrite (decode_encode_chars s b E).
Qed.

(** X17. The error record is framed by the number of its bytes, so that it
    reaches the client whatever characters the message holds.  For a record
    of at most 16384 bytes, which is what one [send] delivers in one piece,
    the client raises [RuntimeError] with "ERROR: " and the text of the
    exception of the server, and stores nothing. *)
Theorem error_record_roundtrip (wc : world) (e : exn) (m : bytes)
    (q : list bytes) (sn : list (part * bytes)) (sfs : gmap pystr bytes)
    (csn : list (part * bytes)) (ccr : option nat) (cfs : gmap pystr bytes) :
  let record := [(ErrLen, be_bytes 4 (len m)); (ErrMsg, m)] in
  encode (lit "ERROR: " ++ exn_str e) = Ok m -> len m <= 16384 ->
  send_error e (State q sn None sfs) = (Ok tt, State q (sn ++ record) None sfs)
  /\ recv_results wc (State (deliver record) csn ccr cfs)
     = (Raise (Exn RuntimeError (lit "ERROR: " ++ exn_str e)),
        State [] csn ccr cfs).
Proof.
  intros record Henc Hlen.
  pose proof (len_nonneg m).
  pose proof (decode_encode (w_decode_msg wc) _ _ Henc) as Hdec.
  assert (Hne : m <> []) by (intros ->; discriminate Hdec).
  split.
  - unfold send_error, try_pass, bind, lift. rewrite Henc.
    rewrite to_bytes_ok by (rewrite pow_256_4; lia).
    rewrite send_open by done. rewrite send_open by done.
    cbn [inq sent credit fs]. by rewrite <- app_assoc.
  - unfold recv_results. cbn [recv_results_loop]. unfold bind at 1.
    subst record. cbn [deliver map snd inq].
    erewrite recv_whole;
      [|reflexivity|by apply be_bytes_nonempty; lia|by rewrite length_be_bytes].
    rewrite from_bytes_be_bytes by (rewrite pow_256_4; lia).
    destruct (Z.eqb_spec (len m) 0) as [E0|_].
    { apply len_nil_iff in E0. done. }
    unfold bind at 1.
    erewrite recv_whole; [|reflexivity|done|unfold len; lia].
    unfold bind at 1. unfold lift at 1. rewrite Hdec. reflexivity.
Qed.

Lemma error_record_roundtrip_witness :
  let e := Exn ValueError [110; 97; 239; 118; 101; 32; 8364] in
  let m := [x45; x52; x52; x4f; x52; x3a; x20; x6e; x61; xc3; xaf; x76; x65;
            x20; xe2; x82; xac] in
  let record := [(ErrLen, be_bytes 4 (len m)); (ErrMsg, m)] in
  send_error e (State [] [] None ∅) = (Ok tt, State [] ([] ++ record) None ∅)
  /\ recv_results demo_world (State (deliver record) [] None ∅)
     = (Raise (Exn RuntimeError (lit "ERROR: " ++ exn_str e)),
        State [] [] None ∅).
Proof.
  intros e m record.
  apply (error_record_roundtrip demo_world e m [] [] ∅ [] None ∅).
  - vm_compute. reflexivity.
  - by vm_compute.
Defined.

(** ** Every page of a PDF arrives *)

Lemma splitext_simple (base ext : pystr) :
  base <> [] -> 47 ∉ base -> 46 ∉ base -> 47 ∉ ext -> 46 ∉ ext ->
  splitext (base ++ 46 :: ext) = (base, 46 :: ext).
Proof.
  intros Hne Hs Hd Hes Hed. unfold splitext, rfind. cbn zeta.
  rewrite (rfind_from_notin 0 47) by
    (intros Hin; apply elem_of_app in Hin as [?|Hin]; [done|];
     apply elem_of_cons in Hin as [?|?]; done).
  rewrite rfind_from_last by done.
  assert (Hlt : (-1 <? 0 + len base) = true).
  { apply Z.ltb_lt. pose proof (len_nonneg base). lia. }
  rewrite Hlt. cbn [andb].
  replace (Z.to_nat (0 + len base - (-1 + 1))) with (length base)
    by (unfold len; lia).
  replace (Z.to_nat (-1 + 1)) with 0%nat by lia.
  replace (Z.to_nat (0 + len base)) with (length base) by (unfold len; lia).
  rewrite drop_0, take_app_length, drop_app_length.
  destruct base as [|b base]; [done|]. cbn [existsb].
  destruct (Z.eqb_spec b 46) as [->|]; [|reflexivity].
  exfalso. apply Hd. left.
Qed.

Lemma page_base_plain (k : Z) :
  Forall (fun c => c <> 47 /\ c <> 46) (lit "page_" ++ str_of_int k).
Proof.
  change (lit "page_") with [112; 97; 103; 101; 95].
  apply Forall_app. split; [repeat (constructor; [lia|]); constructor|].
  apply str_of_int_Forall; intros; lia.
Qed.

Lemma unique_page_path (cwd ts : pystr) (k : Z) :
  unique_path (join cwd (lit "converted_files")) ts (page_name k)
  = client_page_path cwd ts k.
Proof.
  unfold unique_path, page_name, client_page_path.
  pose proof (page_base_plain k) as Hb. rewrite Forall_forall in Hb.
  change (lit ".png") with (46 :: [112; 110; 103]).
  rewrite app_assoc. rewrite splitext_simple.
  - by rewrite <- !app_assoc.
  - change (lit "page_") with [112; 97; 103; 101; 95]. done.
  - intros Hin. by destruct (Hb _ Hin).
  - intros Hin. by destruct (Hb _ Hin).
  - intros Hin.
    repeat (apply elem_of_cons in Hin as [Hin|Hin]; [discriminate Hin|]).
    by apply elem_of_nil in Hin.
  - intros Hin.
    repeat (apply elem_of_cons in Hin as [Hin|Hin]; [discriminate Hin|]).
    by apply elem_of_nil in Hin.
Qed.

Lemma basename_page_path (dir : pystr) (k : Z) :
  basename (page_path dir k) = page_name k.
Proof.
  unfold page_path. fold (page_name k).
  destruct (page_name_plain k) as (Hne & Hs & _).
  by apply basename_join.
Qed.

Lemma client_page_name_plain (ts : pystr) (k : Z) :
  Forall (fun c => c <> 47) ts ->
  plain_name (lit "page_" ++ str_of_int k ++ lit "_" ++ ts ++ lit ".png").
Proof.
  intros Hts. split; [done|]. split; [|split; done].
  assert (Hall : Forall (fun c => c <> 47)
                   (lit "page_" ++ str_of_int k ++ lit "_" ++ ts ++ lit ".png")).
  { rewrite app_assoc. apply Forall_app. split.
    - eapply Forall_impl; [apply page_base_plain|]. by intros c [? _].
    - apply Forall_app. split; [by repeat constructor|].
      apply Forall_app. split; [done|].
      change (lit ".png") with [46; 112; 110; 103].
      repeat (constructor; [lia|]). constructor. }
  intros Hin. rewrite Forall_forall in Hall. by apply Hall in Hin.
Qed.

Lemma client_page_path_inj (cwd ts : pystr) (a b : Z) :
  startswith [47] cwd = true -> Forall (fun c => c <> 47) ts ->
  0 <= a -> 0 <= b ->
  normpath (client_page_path cwd ts a) = normpath (client_page_path cwd ts b) ->
  a = b.
Proof.
  intros Hcwd Hts Ha Hb H. unfold client_page_path in H.
  apply normpath_join_inj in H;
    [|by apply join_keeps_root|by apply client_page_name_plain..].
  apply app_inv_head in H.
  change (lit "_" ++ ts ++ lit ".png") with ([95] ++ ts ++ lit ".png") in H.
  apply app_inv_tail in H. by apply str_of_int_inj.
Qed.

(** The files of the client after [store], when no two of them bear the
    same path. *)
Lemma store_lookup_notin (od ts : pystr) (m : gmap pystr bytes)
    (files : list (pystr * bytes)) (key : pystr) :
  key ∉ map (fun f => normpath (unique_path od ts f.1)) files ->
  store od ts m files !! key = m !! key.
Proof.
  revert m. induction files as [|f files IH]; intros m Hkey; [reflexivity|].
  cbn [map] in Hkey. apply not_elem_of_cons in Hkey as [Hne Hkey].
  unfold store. cbn [foldl]. fold (store od ts (<[normpath (unique_path od ts f.1) := f.2]> m) files).
  rewrite IH by done. by rewrite lookup_insert_ne.
Qed.

Lemma store_lookup (od ts : pystr) (m : gmap pystr bytes)
    (files : list (pystr * bytes)) (i : nat) (name : pystr) (c : bytes) :
  NoDup (map (fun f => normpath (unique_path od ts f.1)) files) ->
  files !! i = Some (name, c) ->
  store od ts m files !! normpath (unique_path od ts name) = Some c.
Proof.
  revert m i. induction files as [|f files IH]; intros m i Hnd Hi.
  - by rewrite lookup_nil in Hi.
  - cbn [map] in Hnd. apply NoDup_cons in Hnd as [Hnotin Hnd].
    unfold store. cbn [foldl].
    fold (store od ts (<[normpath (unique_path od ts f.1) := f.2]> m) files).
    destruct i as [|i].
    + cbn in Hi. injection Hi as ->. cbn [fst snd] in *.
      rewrite store_lookup_notin by done. by rewrite lookup_insert_eq.
    + cbn in Hi. by apply (IH _ i).
Qed.

Lemma scratch_emptied (ws : world) (h : handler) (file_name : pystr)
    (dims : option (Z * Z)) (content : bytes) (sfs : gmap pystr bytes)
    (q : list bytes) (sn : list (part * bytes)) (cr : option nat)
    (r : res (list pystr)) (st2 : state) :
  let input_path := join (w_temp_dir ws) file_name in
  startswith [47] (w_temp_dir ws) = true -> plain_name file_name ->
  (forall k c, sfs !! k = Some c -> inside (w_temp_dir ws) k = false) ->
  run_handler ws h input_path (w_temp_dir ws) dims
              (State q sn cr (<[normpath input_path := content]> sfs))
  = (r, st2) ->
  filter (outside (w_temp_dir ws)) (fs st2) = sfs.
Proof.
  intros input_path Habs Hplain Hclean Hrun.
  pose proof (run_handler_scratch ws h input_path (w_temp_dir ws) dims
                (State q sn cr (<[normpath input_path := content]> sfs))
                Habs) as Hscratch.
  rewrite Hrun in Hscratch. cbn [snd fs] in Hscratch. rewrite Hscratch.
  subst input_path. rewrite filter_outside_insert by done.
  by apply filter_outside_id.
Qed.

(** X18. Every page of a PDF arrives.  When the command-line client uploads a
    readable PDF with a plain ASCII name for "pdf2png" and the library
    renders its pages, the client returns the paths
    [page_1_<timestamp>.png], [page_2_<timestamp>.png], ... of its output
    directory in the order of the pages, no two of them the same file, and
    each holds the rendering of its page; the server is left with the files
    it had. *)
Theorem pdf_exchange_stores_every_page (wc ws : world)
    (cfs sfs : gmap pystr bytes) (file_path : pystr) (content : bytes)
    (pages : list bytes) :
  let file_name := basename file_path in
  let metadata := make_metadata file_name (lit "pdf2png") (len content) None in
  let input_path := join (w_temp_dir ws) file_name in
  let path k := client_page_path (w_cwd wc) (strftime (w_now wc)) (Z.of_nat k) in
  cfs !! normpath file_path = Some content ->
  is_ascii file_name -> plain_name file_name -> 124 ∉ file_name ->
  len metadata < 2 ^ 32 ->
  w_int ws (str_of_int (len content)) = inr (len content) ->
  w_open_wb ws input_path = None ->
  startswith [47] (w_temp_dir ws) = true ->
  (forall k c, sfs !! k = Some c -> inside (w_temp_dir ws) k = false) ->
  w_fitz_pages ws (Some content) = inr pages ->
  len pages < 2 ^ 31 -> Forall (fun pix => len pix < 2 ^ 64) pages ->
  (forall p, w_open_wb wc p = None) ->
  startswith [47] (w_cwd wc) = true ->
  exists request response cfs',
    exchange wc ws cfs sfs file_path (lit "pdf2png") None
    = ((Ok (map path (seq 1 (length pages))), State [] request None cfs'),
       (Ok Completed, State [] response None sfs))
    /\ NoDup (map (fun k => normpath (path k)) (seq 1 (length pages)))
    /\ forall k pix, pages !! k = Some pix ->
                     cfs' !! normpath (path (S k)) = Some pix.
Proof.
  intros file_name metadata input_path path Hfile Hfn Hplain Hnf Hlen Hint
         Hopen Habs Hclean Hlib Hn Hsizes Hcopen Hcwd.
  set (st1 := State [] [] None (<[normpath input_path := content]> sfs)).
  set (od := join (w_cwd wc) (lit "converted_files")).
  set (ts := strftime (w_now wc)).
  assert (Hlib' : w_fitz_pages ws (fs st1 !! normpath input_path) = inr pages).
  { subst st1. cbn [fs]. by rewrite lookup_insert_eq. }
  destruct (run_handler_pdf ws input_path (w_temp_dir ws) None st1 pages
              Habs Hlib') as (st2 & Hrun & _ & Hcontent & _).
  set (outs := map (fun k => page_path (w_temp_dir ws) (Z.of_nat k))
                   (seq 1 (length pages))) in *.
  assert (Hreceived : forall k pix, pages !! k = Some pix ->
             received (fs st2) outs !! k = Some (page_name (Z.of_nat (S k)), pix)).
  { intros k pix Hk. unfold received. subst outs.
    rewrite !list_lookup_fmap.
    rewrite lookup_seq_lt by (by apply lookup_lt_Some in Hk).
    cbn [fmap option_fmap option_map]. change (1 + k)%nat with (S k).
    rewrite basename_page_path. by rewrite (Hcontent k pix Hk). }
  assert (Hpaths : map (fun f : pystr * bytes => unique_path od ts f.1)
                       (received (fs st2) outs)
                   = map path (seq 1 (length pages))).
  { unfold received. subst outs. rewrite !map_map. apply map_ext. intros k.
    cbn [fst]. rewrite basename_page_path. apply unique_page_path. }
  assert (Hnodup : NoDup (map (fun k => normpath (path k))
                              (seq 1 (length pages)))).
  { apply NoDup_fmap_2_strong; [|apply NoDup_seq].
    intros a b _ _ Heq. subst path. cbn beta in Heq.
    apply client_page_path_inj in Heq; [lia|done|apply strftime_plain|lia..]. }
  exists (request_sends metadata content),
         (response_sends (fs st2) outs),
         (store od ts cfs (received (fs st2) outs)).
  split; [|split; [exact Hnodup|]].
  - rewrite <- Hpaths.
    pose proof (exchange_runs wc ws cfs sfs file_path (lit "pdf2png") None
                  content handle_pdf_to_png (Call handle_pdf_to_png None)
                  outs st2 Hfile Hfn Hnf Hlen Hint Hopen) as Hex.
    cbn zeta in Hex. fold file_name metadata input_path st1 od ts in Hex.
    rewrite Hex.
    + do 3 f_equal. by eapply scratch_emptied.
    + vm_compute. reflexivity.
    + unfold dispatch.
      rewrite bool_decide_eq_false_2 by (intros H; discriminate H).
      reflexivity.
    + exact Hrun.
    + subst outs. unfold len in *. by rewrite length_map, length_seq.
    + apply Forall_forall. intros f Hf.
      apply list_elem_of_lookup in Hf as [k Hk].
      assert (Hlt : (k < length pages)%nat).
      { apply lookup_lt_Some in Hk. unfold received in Hk. subst outs.
        by rewrite !length_map, length_seq in Hk. }
      apply lookup_lt_is_Some in Hlt as [pix Hpix].
      rewrite (Hreceived k pix Hpix) in Hk. injection Hk as <-. cbn [snd].
      rewrite Forall_forall in Hsizes. apply Hsizes.
      by apply list_elem_of_lookup_2 in Hpix.
    + exact Hcopen.
  - intros k pix Hk. subst path. cbn beta.
    rewrite <- unique_page_path. fold od ts.
    apply (store_lookup od ts cfs _ k); [|by apply Hreceived].
    rewrite <- (map_map (fun f : pystr * bytes => unique_path od ts f.1) normpath).
    rewrite Hpaths. by rewrite map_map.
Qed.

Lemma pdf_exchange_stores_every_page_witness :
  let cfs : gmap pystr bytes := {[ lit "in/doc.pdf" := [x25; x50; x44] ]} in
  let path k := client_page_path (lit "/home/user") (lit "20240105_090307")
                                 (Z.of_nat k) in
  exists request response cfs',
    exchange demo_world demo_world cfs ∅ (lit "in/doc.pdf") (lit "pdf2png") None
    = ((Ok [path 1%nat; path 2%nat], State [] request None cfs'),
       (Ok Completed, State [] response None ∅))
    /\ NoDup [normpath (path 1%nat); normpath (path 2%nat)]
    /\ forall k pix, [[x25; x50; x44]; [x25; x50; x44]] !! k = Some pix ->
                     cfs' !! normpath (path (S k)) = Some pix.
Proof.
  intros cfs path.
  apply (pdf_exchange_stores_every_page demo_world demo_world cfs ∅
           (lit "in/doc.pdf") [x25; x50; x44]
           [[x25; x50; x44]; [x25; x50; x44]]).
  - by vm_compute.
  - repeat constructor; lia.
  - change (basename (lit "in/doc.pdf")) with (lit "doc.pdf").
    apply literal_plain;
      [vm_compute; repeat (constructor; [lia|]); constructor|done..].
  - vm_compute. intros H.
    repeat (apply elem_of_cons in H as [H|H]; [discriminate H|]).
    by apply elem_of_nil in H.
  - by vm_compute.
  - by vm_compute.
  - reflexivity.
  - reflexivity.
  - intros k c Hk. by rewrite lookup_empty in Hk.
  - reflexivity.
  - by vm_compute.
  - repeat (constructor; [vm_compute; reflexivity|]). constructor.
  - reflexivity.
  - reflexivity.
Defined.

(** ** A resize, from the command line to the stored image *)

Lemma unique_resized_path (od ts : pystr) :
  unique_path od ts (lit "resized.jpg")
  = join od (lit "resized_" ++ ts ++ lit ".jpg").
Proof.
  unfold unique_path.
  change (splitext (lit "resized.jpg")) with (lit "resized", lit ".jpg").
  change (lit "resized_") with (lit "resized" ++ lit "_").
  by rewrite <- app_assoc.
Qed.

(** X19. A resize uses the dimensions of the command line.  When the client
    is run for "img_resize" with a width and a height on a readable file
    with a plain ASCII name, and [cv2] resizes the upload, the client
    returns the one path [resized_<timestamp>.jpg] of its output directory,
    and that file holds what [cv2.resize] made of the upload for exactly
    this width and height; the server is left with the files it had. *)
Theorem resize_exchange_uses_dimensions (wc ws : world)
    (cfs sfs : gmap pystr bytes) (file_path : pystr) (width height : Z)
    (content out : bytes) :
  let file_name := basename file_path in
  let extra_params := cli_extra_params (lit "img_resize") width height in
  let metadata :=
    make_metadata file_name (lit "img_resize") (len content) extra_params in
  let input_path := join (w_temp_dir ws) file_name in
  let output_path :=
    join (join (w_cwd wc) (lit "converted_files"))
         (lit "resized_" ++ strftime (w_now wc) ++ lit ".jpg") in
  cfs !! normpath file_path = Some content ->
  is_ascii file_name -> plain_name file_name -> 124 ∉ file_name ->
  len metadata < 2 ^ 32 ->
  w_int ws (str_of_int (len content)) = inr (len content) ->
  w_int ws (str_of_int width) = inr width ->
  w_int ws (str_of_int height) = inr height ->
  w_open_wb ws input_path = None ->
  startswith [47] (w_temp_dir ws) = true ->
  (forall k c, sfs !! k = Some c -> inside (w_temp_dir ws) k = false) ->
  w_cv_resize ws (Some content) width height = inr out ->
  len out < 2 ^ 64 ->
  (forall p, w_open_wb wc p = None) ->
  exists request response,
    exchange wc ws cfs sfs file_path (lit "img_resize") extra_params
    = ((Ok [output_path],
        State [] request None (<[normpath output_path := out]> cfs)),
       (Ok Completed, State [] response None sfs)).
Proof.
  intros file_name extra_params metadata input_path output_path Hfile Hfn
         Hplain Hnf Hlen Hint Hw Hh Hopen Habs Hclean Hlib Hout Hcopen.
  set (st1 := State [] [] None (<[normpath input_path := content]> sfs)).
  set (resized := join (w_temp_dir ws) (lit "resized.jpg")).
  set (st2 := State [] [] None (<[normpath resized := out]> (fs st1))).
  assert (Hrun : run_handler ws handle_resize input_path (w_temp_dir ws)
                             (Some (width, height)) st1
                 = (Ok [resized], st2)).
  { unfold run_handler. unfold bind at 1, peek at 1. cbn [default from_option id].
    subst st1. cbn [fs]. rewrite lookup_insert_eq.
    unfold bind at 1. rewrite Hlib. reflexivity. }
  assert (Hname : basename resized = lit "resized.jpg").
  { subst resized. apply basename_join; [|done]. intros Hin.
    vm_compute in Hin.
    repeat (apply elem_of_cons in Hin as [Hin|Hin]; [discriminate Hin|]).
    by apply elem_of_nil in Hin. }
  assert (Hreceived : received (fs st2) [resized] = [(lit "resized.jpg", out)]).
  { unfold received. cbn [map]. rewrite Hname. subst st2. cbn [fs].
    by rewrite lookup_insert_eq. }
  pose proof (exchange_runs wc ws cfs sfs file_path (lit "img_resize")
                extra_params content handle_resize
                (Call handle_resize (Some (width, height)))
                [resized] st2 Hfile Hfn Hnf Hlen Hint Hopen) as Hex.
  cbn zeta in Hex. fold file_name metadata input_path st1 in Hex.
  exists (request_sends metadata content), (response_sends (fs st2) [resized]).
  rewrite Hex.
  - rewrite Hreceived. cbn [map fst store foldl snd].
    rewrite unique_resized_path. fold output_path. do 3 f_equal.
    by eapply scratch_emptied.
  - vm_compute. reflexivity.
  - pose proof (dispatch_extras ws file_name (lit "img_resize") (len content)
                  width height extra_params handle_resize st1) as Hd.
    rewrite bool_decide_eq_true_2 in Hd by done.
    apply Hd; [by left|done|by apply img_resize_no_bar|done..].
  - exact Hrun.
  - done.
  - rewrite Hreceived. by repeat constructor.
  - exact Hcopen.
Qed.

Lemma resize_exchange_uses_dimensions_witness :
  let cfs : gmap pystr bytes := {[ lit "in/a.png" := [x01; x02; x03] ]} in
  let output_path :=
    lit "/home/user/converted_files/resized_20240105_090307.jpg" in
  exists request response,
    exchange dims_world dims_world cfs ∅ (lit "in/a.png") (lit "img_resize")
             (cli_extra_params (lit "img_resize") 640 480)
    = ((Ok [output_path],
        State [] request None
              (<[normpath output_path := [x02; x80; x01; xe0]]> cfs)),
       (Ok Completed, State [] response None ∅)).
Proof.
  intros cfs output_path.
  apply (resize_exchange_uses_dimensions dims_world dims_world cfs ∅
           (lit "in/a.png") 640 480 [x01; x02; x03] [x02; x80; x01; xe0]).
  - by vm_compute.
  - repeat constructor; lia.
  - change (basename (lit "in/a.png")) with (lit "a.png").
    apply literal_plain;
      [vm_compute; repeat (constructor; [lia|]); constructor|done..].
  - vm_compute. intros H.
    repeat (apply elem_of_cons in H as [H|H]; [discriminate H|]).
    by apply elem_of_nil in H.
  - by vm_compute.
  - by vm_compute.
  - by vm_compute.
  - by vm_compute.
  - reflexivity.
  - reflexivity.
  - intros k c Hk. by rewrite lookup_empty in Hk.
  - vm_compute. reflexivity.
  - by vm_compute.
  - reflexivity.
Defined.

(** ** A result whose name is an absolute path *)

Lemma rfind_from_nonneg (i c : Z) (s : pystr) (best : Z) :
  0 <= i -> 0 <= best -> 0 <= rfind_from i c s best.
Proof.
  revert i best. induction s as [|x s IH]; intros i best Hi Hb; [done|].
  cbn [rfind_from]. apply IH; [lia|]. by destruct (x =? c).
Qed.

Lemma splitext_absolute (name : pystr) :
  startswith [47] name = true ->
  startswith [47] (splitext name).1 = true.
Proof.
  intros H. destruct name as [|c rest]; [discriminate H|].
  cbn [startswith] in H. rewrite andb_true_r in H.
  apply Z.eqb_eq in H as <-.
  unfold splitext. cbn zeta.
  destruct (_ && _) eqn:E; cbn [fst]; [|reflexivity].
  apply andb_true_iff in E as [E _]. apply Z.ltb_lt in E.
  assert (Hsep : 0 <= rfind 47 (47 :: rest)).
  { unfold rfind. cbn [rfind_from]. by apply rfind_from_nonneg. }
  destruct (Z.to_nat (rfind 46 (47 :: rest))) as [|n] eqn:En; [lia|].
  reflexivity.
Qed.

(** The path of a result whose name on the wire is absolute: the output
    directory has no part in it. *)
Lemma unique_path_absolute (od ts name : pystr) :
  startswith [47] name = true ->
  unique_path od ts name
  = (splitext name).1 ++ lit "_" ++ ts ++ (splitext name).2.
Proof.
  intros H. apply splitext_absolute in H. unfold unique_path.
  destruct (splitext name) as [base ext]. cbn [fst snd] in *.
  unfold join. destruct base as [|c base]; [discriminate H|].
  cbn [app startswith] in *. by rewrite H.
Qed.

(** X20. The client does not keep what it receives in its output directory.
    A result record whose name is an absolute path is stored at that path,
    with the timestamp before the extension, whatever the working directory
    and the output directory of the client are; [send_request] returns that
    path as a result. *)
Theorem absolute_name_leaves_output_dir (w : world) (name : pystr)
    (content : bytes) (sn : list (part * bytes)) (cr : option nat)
    (cfs : gmap pystr bytes) :
  let ts := strftime (w_now w) in
  let output_path := (splitext name).1 ++ lit "_" ++ ts ++ (splitext name).2 in
  wire_name name -> startswith [47] name = true ->
  len content < 2 ^ 64 -> w_open_wb w output_path = None ->
  recv_results w
    (State (deliver (frame name content ++ [(Terminator, be_bytes 4 0)]))
           sn cr cfs)
  = (Ok [output_path],
     State [] sn cr (<[normpath output_path := content]> cfs))
  /\ startswith [47] output_path = true.
Proof.
  intros ts output_path Hname Habs Hsize Hopen.
  set (od := join (w_cwd w) (lit "converted_files")).
  assert (Hpath : unique_path od ts name = output_path)
    by (by apply unique_path_absolute).
  split.
  - destruct (recv_results_after_frames w [(name, content)] [be_bytes 4 0]
                sn cr cfs) as [k Hk].
    { constructor; [|constructor]. cbn [fst snd]. fold od ts.
      by rewrite Hpath. }
    cbn [flat_map fst snd] in Hk. rewrite app_nil_r in Hk.
    unfold deliver in *. rewrite map_app. cbn [map snd app] in *.
    rewrite Hk. fold od ts. rewrite recv_results_terminator by reflexivity.
    cbn [map fst store foldl snd sent credit fs]. by rewrite Hpath.
  - subst output_path. pose proof (splitext_absolute name Habs) as Hb.
    destruct (splitext name).1 as [|c base]; [discriminate Hb|].
    exact Hb.
Qed.

Lemma absolute_name_leaves_output_dir_witness :
  let output_path := lit "/home/user/.ssh/keys_20240105_090307.txt" in
  recv_results demo_world
    (State (deliver (frame (lit "/home/user/.ssh/keys.txt") [x41]
                     ++ [(Terminator, be_bytes 4 0)])) [] None ∅)
  = (Ok [output_path], State [] [] None (<[normpath output_path := [x41]]> ∅))
  /\ startswith [47] output_path = true.
Proof.
  intros output_path.
  apply (absolute_name_leaves_output_dir demo_world
           (lit "/home/user/.ssh/keys.txt") [x41] [] None ∅).
  - split; [done|]. split; [repeat constructor; lia|].
    split; [reflexivity|by vm_compute].
  - reflexivity.
  - by vm_compute.
  - reflexivity.
Defined.

(** ** A conversion that is not registered *)

(** C3, as the code has it.  Take a call of [send_request] for an existing
    file, whose file name is a plain ASCII name and whose conversion type is
    ASCII, neither with a "|" (the metadata line is "|"-joined, without
    escaping), with a metadata line and an error record of at most 16384
    bytes each (what one [send] delivers in one piece), against a server
    that can create its scratch file in an absolute scratch directory.
    If the conversion type is not a key of [conversion_handlers], then the
    server reads the whole request, raises "Unsupported conversion: <type>",
    sends one error record and nothing else, and is left with the files it
    had; [send_request] raises [RuntimeError] with the text of that record;
    and the files of the client are what they were before the call. *)
Theorem unregistered_conversion (wc ws : world) (cfs sfs : gmap pystr bytes)
    (file_path conversion_type : pystr)
    (extra_params : option (list (pystr * Z))) (content : bytes) :
  let file_name := basename file_path in
  let metadata :=
    make_metadata file_name conversion_type (len content) extra_params in
  let message := lit "Unsupported conversion: " ++ conversion_type in
  let input_path := join (w_temp_dir ws) file_name in
  cfs !! normpath file_path = Some content ->
  is_ascii file_name -> plain_name file_name -> 124 ∉ file_name ->
  is_ascii conversion_type -> 124 ∉ conversion_type ->
  len metadata <= 16384 -> len message + 7 <= 16384 ->
  w_int ws (str_of_int (len content)) = inr (len content) ->
  w_open_wb ws input_path = None ->
  startswith [47] (w_temp_dir ws) = true ->
  (forall k c, sfs !! k = Some c -> inside (w_temp_dir ws) k = false) ->
  conversion_handlers !! conversion_type = None ->
  exchange wc ws cfs sfs file_path conversion_type extra_params
  = ((Raise (Exn RuntimeError (lit "ERROR: " ++ message)),
      State [] (request_sends metadata content) None cfs),
     (Ok (Failed (Exn ValueError message)),
      State [] (error_sends message) None sfs)).
Proof.
  intros file_name metadata message input_path Hfile Hfn Hplain Hnf Hct Hnc
         Hlen Hmsg Hint Hopen Habs Hclean Hreg.
  destruct (make_metadata_fields file_name conversion_type (len content)
              extra_params Hfn Hct Hnf Hnc) as (Hascii & Hne & _).
  fold metadata in Hascii, Hne.
  pose proof (split_make_metadata file_name conversion_type (len content)
                extra_params Hnf Hnc) as Hsplit.
  fold metadata in Hsplit.
  assert (Hlen32 : len metadata < 2 ^ 32)
    by (change (2 ^ 32) with 4294967296; lia).
  assert (Hmsg32 : len message + 7 < 2 ^ 32)
    by (change (2 ^ 32) with 4294967296; lia).
  assert (Hmessage : is_ascii message).
  { apply is_ascii_app. split; [|done]. repeat constructor; lia. }
  assert (Hsend : forall q,
             send_request wc file_path conversion_type extra_params
                          (connect q cfs)
             = recv_results wc
                 (State q (request_sends metadata content) None cfs)).
  { intros q. unfold connect.
    pose proof (send_request_ok wc file_path conversion_type extra_params
                  content q [] cfs Hfile Hascii Hlen32) as Hs.
    cbn zeta in Hs. exact Hs. }
  unfold exchange. rewrite !Hsend.
  assert (Hfirst : sent (recv_results wc
                           (State [] (request_sends metadata content) None cfs)).2
                   = request_sends metadata content).
  { unfold recv_results. by rewrite recv_results_closed. }
  rewrite Hfirst, deliver_request.
  assert (Hserved :
            handle_client ws (connect (request_head metadata ++ chunks content) sfs)
            = (Ok (Failed (Exn ValueError message)),
               State [] (error_sends message) None sfs)).
  { unfold connect.
    rewrite (handle_client_raise ws _ (State [] [] None sfs)
               (Exn ValueError message)).
    - reflexivity.
    - change (request_head metadata ++ chunks content)
        with (be_bytes 4 (len metadata) :: map byte_of_Z metadata
              :: chunks content).
      rewrite (serve_unsupported ws [] sfs metadata file_name conversion_type
                 (str_of_int (len content))
                 (map str_of_int (extra_values extra_params)) content)
        by done.
      subst input_path. rewrite filter_outside_insert by done.
      by rewrite filter_outside_id.
    - reflexivity.
    - exact Hmessage.
    - exact Hmsg32. }
  rewrite Hserved. cbn [snd sent]. f_equal.
  assert (Hl : len (lit "ERROR: " ++ message) = len message + 7).
  { rewrite len_app. change (len (lit "ERROR: ")) with 7. lia. }
  apply recv_results_error.
  - apply is_ascii_app. split; [repeat constructor; lia|done].
  - reflexivity.
  - lia.
  - cbn [inq deliver error_sends map snd]. by rewrite Hl.
Qed.

Lemma unregistered_conversion_witness :
  exchange demo_world demo_world {[ lit "in/a.png" := [x01; x02; x03] ]}
           {[ lit "/srv/keep.txt" := [x41] ]}
           (lit "in/a.png") (lit "bogus") None
  = ((Raise (Exn RuntimeError (lit "ERROR: Unsupported conversion: bogus")),
      State [] (request_sends (lit "a.png|bogus|3") [x01; x02; x03]) None
            {[ lit "in/a.png" := [x01; x02; x03] ]}),
     (Ok (Failed (Exn ValueError (lit "Unsupported conversion: bogus"))),
      State [] (error_sends (lit "Unsupported conversion: bogus")) None
            {[ lit "/srv/keep.txt" := [x41] ]})).
Proof.
  apply (unregistered_conversion demo_world demo_world
           {[ lit "in/a.png" := [x01; x02; x03] ]}
           {[ lit "/srv/keep.txt" := [x41] ]}
           (lit "in/a.png") (lit "bogus") None [x01; x02; x03]).
  - by vm_compute.
  - repeat constructor; lia.
  - change (basename (lit "in/a.png")) with (lit "a.png").
    apply literal_plain;
      [vm_compute; repeat (constructor; [lia|]); constructor|done..].
  - vm_compute. intros H.
    repeat (apply elem_of_cons in H as [H|H]; [discriminate H|]).
    by apply elem_of_nil in H.
  - repeat constructor; lia.
  - vm_compute. intros H.
    repeat (apply elem_of_cons in H as [H|H]; [discriminate H|]).
    by apply elem_of_nil in H.
  - by vm_compute.
  - by vm_compute.
  - by vm_compute.
  - reflexivity.
  - reflexivity.
  - intros k c Hk. apply lookup_singleton_Some in Hk as [<- _].
    vm_compute. reflexivity.
  - by vm_compute.
Defined.

(** *** A "|" in the conversion type *)

Lemma handle_client_failed (w : world) (st st' : state) (e : exn) :
  serve w st = (Raise e, st') -> (handle_client w st).1 = Ok (Failed e).
Proof.
  intros H. unfold handle_client. rewrite H. by destruct (send_error e st').
Qed.

(** The type "<conversion>|<n>" gives the metadata line of the type
    "<conversion>" for a file of [n] bytes and one further field. *)
Lemma bar_metadata (fn ct k : pystr) (n size : Z) :
  make_metadata fn (ct ++ lit "|" ++ str_of_int n) size None
  = make_metadata fn ct n (Some [(k, size)]).
Proof.
  unfold make_metadata. cbn [add_extras]. by rewrite <- !app_assoc.
Qed.

Lemma bar_not_registered (ct rest : pystr) :
  conversion_handlers !! (ct ++ lit "|" ++ rest) = None.
Proof.
  destruct (conversion_handlers !! (ct ++ lit "|" ++ rest)) as [h|] eqn:E;
    [|reflexivity].
  destruct (registered_key_shape _ _ E) as (_ & Hbar & _).
  exfalso. apply Hbar. apply elem_of_app. right. left.
Qed.

Lemma run_image_conversion (w : world) (input dir : pystr)
    (dims : option (Z * Z)) (q : list bytes) (sn : list (part * bytes))
    (cr : option nat) (m : gmap pystr bytes) :
  run_handler w handle_image_conversion input dir dims (State q sn cr m)
  = match w_pil_jpg w (m !! normpath input) with
    | inl msg => (Raise (Exn LibraryError msg), State q sn cr m)
    | inr out =>
        (Ok [join dir (lit "converted.jpg")],
         State q sn cr (<[normpath (join dir (lit "converted.jpg")) := out]> m))
    end.
Proof.
  unfold run_handler. unfold bind at 1, peek at 1. cbn [fs].
  unfold bind at 1, library at 1.
  by destruct (w_pil_jpg w (m !! normpath input)).
Qed.

(** One exchange when the fields that the server splits off the metadata
    line name a conversion that it can carry out. *)
Lemma exchange_fields (wc ws : world) (cfs sfs : gmap pystr bytes)
    (file_path ct : pystr) (extra_params : option (list (pystr * Z)))
    (content : bytes) (file_name conversion size_s : pystr) (ps : list pystr)
    (registered : handler) (c : call) (outs : list pystr) (st2 : state) :
  let metadata :=
    make_metadata (basename file_path) ct (len content) extra_params in
  let parts := file_name :: conversion :: size_s :: ps in
  let input_path := join (w_temp_dir ws) file_name in
  let st1 := State [] [] None (<[normpath input_path := content]> sfs) in
  let od := join (w_cwd wc) (lit "converted_files") in
  let ts := strftime (w_now wc) in
  cfs !! normpath file_path = Some content ->
  is_ascii metadata -> metadata <> [] -> len metadata < 2 ^ 32 ->
  split_on 124 metadata = parts ->
  w_int ws size_s = inr (len content) ->
  w_open_wb ws input_path = None ->
  conversion_handlers !! conversion = Some registered ->
  dispatch ws conversion parts registered st1 = (Ok c, st1) ->
  run_handler ws (call_handler c) input_path (w_temp_dir ws) (call_dims c) st1
  = (Ok outs, st2) ->
  len outs < 2 ^ 31 ->
  Forall (fun f => len f.2 < 2 ^ 64) (received (fs st2) outs) ->
  (forall p, w_open_wb wc p = None) ->
  exchange wc ws cfs sfs file_path ct extra_params
  = ((Ok (map (fun f => unique_path od ts f.1) (received (fs st2) outs)),
      State [] (request_sends metadata content) None
            (store od ts cfs (received (fs st2) outs))),
     (Ok Completed,
      State [] (response_sends (fs st2) outs) None
            (filter (outside (w_temp_dir ws)) (fs st2)))).
Proof.
  intros metadata parts input_path st1 od ts Hfile Hascii Hne Hlen Hsplit Hint
         Hopen Hreg Hdisp Hrun Hpages Hsizes Hcopen.
  assert (Hsend : forall q,
             send_request wc file_path ct extra_params (connect q cfs)
             = recv_results wc
                 (State q (request_sends metadata content) None cfs)).
  { intros q. unfold connect.
    pose proof (send_request_ok wc file_path ct extra_params content q []
                  cfs Hfile Hascii Hlen) as Hs.
    cbn zeta in Hs. exact Hs. }
  unfold exchange. rewrite !Hsend.
  assert (Hfirst : sent (recv_results wc
                           (State [] (request_sends metadata content) None cfs)).2
                   = request_sends metadata content).
  { unfold recv_results. by rewrite recv_results_closed. }
  rewrite Hfirst, deliver_request.
  pose proof (run_handler_frames ws _ _ _ _ _ _ _ Hrun Hpages Hsizes)
    as Hframes.
  assert (Hserved :
            handle_client ws (connect (request_head metadata ++ chunks content) sfs)
            = (Ok Completed,
               State [] (response_sends (fs st2) outs) None
                     (filter (outside (w_temp_dir ws)) (fs st2)))).
  { unfold handle_client, connect.
    by rewrite (serve_completes ws wc metadata content [] sfs file_name
                  conversion size_s ps registered c outs st2). }
  rewrite Hserved. cbn [snd sent]. f_equal.
  by apply recv_response.
Qed.

(** The exchange for the type "png2jpg|<n>" and a file of [n] bytes: the
    server does what the library does with the file. *)
Lemma bar_exchange (wc ws : world) (cfs sfs : gmap pystr bytes)
    (content : bytes) :
  let ct := lit "png2jpg|" ++ str_of_int (len content) in
  let r := exchange wc ws cfs sfs (lit "in/a.png") ct None in
  cfs !! lit "in/a.png" = Some content ->
  len content < 2 ^ 32 ->
  w_int ws (str_of_int (len content)) = inr (len content) ->
  w_open_wb ws (join (w_temp_dir ws) (lit "a.png")) = None ->
  (forall p, w_open_wb wc p = None) ->
  match w_pil_jpg ws (Some content) with
  | inl msg => r.2.1 = Ok (Failed (Exn LibraryError msg))
  | inr out =>
      len out < 2 ^ 64 ->
      r.2.1 = Ok Completed
      /\ r.1.1 = Ok [unique_path (join (w_cwd wc) (lit "converted_files"))
                                 (strftime (w_now wc)) (lit "converted.jpg")]
  end.
Proof.
  intros ct r Hfile Hsize Hint Hopen Hcopen.
  set (n := len content) in *.
  set (metadata := make_metadata (lit "a.png") (lit "png2jpg") n
                     (Some [([], n)])).
  assert (Hmeta : make_metadata (basename (lit "in/a.png")) ct n None
                  = metadata).
  { change (basename (lit "in/a.png")) with (lit "a.png"). subst ct.
    change (lit "png2jpg|") with (lit "png2jpg" ++ lit "|").
    rewrite <- app_assoc. apply bar_metadata. }
  assert (Hnf : 124 ∉ lit "a.png").
  { vm_compute. intros H.
    repeat (apply elem_of_cons in H as [H|H]; [discriminate H|]).
    by apply elem_of_nil in H. }
  assert (Hnc : 124 ∉ lit "png2jpg").
  { vm_compute. intros H.
    repeat (apply elem_of_cons in H as [H|H]; [discriminate H|]).
    by apply elem_of_nil in H. }
  destruct (make_metadata_fields (lit "a.png") (lit "png2jpg") n
              (Some [([], n)])) as (Hascii & Hne & _);
    [repeat constructor; lia|repeat constructor; lia|done|done|].
  fold metadata in Hascii, Hne.
  pose proof (split_make_metadata (lit "a.png") (lit "png2jpg") n
                (Some [([], n)]) Hnf Hnc) as Hsplit.
  fold metadata in Hsplit. cbn [extra_values default map snd] in Hsplit.
  assert (Hlen : len metadata < 2 ^ 32).
  { subst metadata. unfold make_metadata. cbn [add_extras].
    rewrite !len_app.
    pose proof (len_nonneg content). fold n in H.
    pose proof (str_of_int_len n H) as Hd.
    assert (Z.log2 n < 32).
    { destruct (Z.eq_dec n 0) as [->|]; [done|].
      apply Z.log2_lt_pow2; lia. }
    change (len (lit "a.png")) with 5. change (len (lit "|")) with 1.
    change (len (lit "png2jpg")) with 7.
    change (2 ^ 32) with 4294967296. lia. }
  assert (Hreg : conversion_handlers !! lit "png2jpg"
                 = Some handle_image_conversion) by (by vm_compute).
  set (input_path := join (w_temp_dir ws) (lit "a.png")) in *.
  set (st1 := State [] [] None (<[normpath input_path := content]> sfs)).
  assert (Hdisp : dispatch ws (lit "png2jpg")
                    [lit "a.png"; lit "png2jpg"; str_of_int n; str_of_int n]
                    handle_image_conversion st1
                  = (Ok (Call handle_image_conversion None), st1)).
  { unfold dispatch. by rewrite bool_decide_eq_false_2 by (by vm_compute). }
  pose proof (run_image_conversion ws input_path (w_temp_dir ws) None [] []
                None (<[normpath input_path := content]> sfs)) as Hrun.
  rewrite lookup_insert_eq in Hrun. fold st1 in Hrun.
  assert (Hnorm : normpath (lit "in/a.png") = lit "in/a.png")
    by (by vm_compute).
  destruct (w_pil_jpg ws (Some content)) as [msg|out].
  - subst r. unfold exchange.
    assert (Hsend : send_request wc (lit "in/a.png") ct None (connect [] cfs)
                    = recv_results wc
                        (State [] (request_sends metadata content) None cfs)).
    { unfold connect.
      pose proof (send_request_ok wc (lit "in/a.png") ct None content [] []
                    cfs) as Hs.
      cbn zeta in Hs. fold n in Hs. rewrite Hmeta, Hnorm in Hs.
      by apply Hs. }
    cbn zeta. rewrite Hsend.
    assert (Hfirst : sent (recv_results wc
                             (State [] (request_sends metadata content) None
                                    cfs)).2
                     = request_sends metadata content).
    { unfold recv_results. by rewrite recv_results_closed. }
    rewrite Hfirst, deliver_request. cbn [snd fst].
    apply (handle_client_failed ws _
             (State (inq st1) (sent st1) (credit st1)
                    (filter (outside (w_temp_dir ws)) (fs st1)))).
    unfold connect.
    by apply (serve_handler_fails ws metadata content [] sfs (lit "a.png")
                (lit "png2jpg") (str_of_int n) [str_of_int n]
                handle_image_conversion (Call handle_image_conversion None)).
  - intros Hout.
    pose proof (exchange_fields wc ws cfs sfs (lit "in/a.png") ct None content
                  (lit "a.png") (lit "png2jpg") (str_of_int n) [str_of_int n]
                  handle_image_conversion (Call handle_image_conversion None)
                  [join (w_temp_dir ws) (lit "converted.jpg")]
                  (State [] [] None
                     (<[normpath (join (w_temp_dir ws) (lit "converted.jpg"))
                        := out]> (<[normpath input_path := content]> sfs))))
      as Hex.
    cbn zeta in Hex. fold n in Hex. rewrite Hmeta, Hnorm in Hex.
    assert (Hrecv : received
                      (<[normpath (join (w_temp_dir ws) (lit "converted.jpg"))
                         := out]> (<[normpath input_path := content]> sfs))
                      [join (w_temp_dir ws) (lit "converted.jpg")]
                    = [(lit "converted.jpg", out)]).
    { unfold received. cbn [map]. rewrite lookup_insert_eq.
      rewrite basename_join; [reflexivity| |done].
      vm_compute. intros H.
      repeat (apply elem_of_cons in H as [H|H]; [discriminate H|]).
      by apply elem_of_nil in H. }
    cbn [fs] in Hex. rewrite Hrecv in Hex.
    subst r. rewrite Hex.
    + by cbn.
    + exact Hfile.
    + exact Hascii.
    + exact Hne.
    + exact Hlen.
    + exact Hsplit.
    + exact Hint.
    + exact Hopen.
    + exact Hreg.
    + exact Hdisp.
    + exact Hrun.
    + by vm_compute.
    + constructor; [exact Hout|constructor].
    + exact Hcopen.
Qed.

(** C3 as the specification states it fails for a conversion type that
    contains "|": the metadata line is split on "|" and nothing escapes it,
    so that the type "png2jpg|<n>", which is not a registered key, reaches
    the server as the registered type "png2jpg" followed by the size [n].
    For a file of [n] bytes and every world, the server never answers
    "Unsupported conversion": it converts the file, and ends as the library
    ends; when the library converts the file, the server completes and the
    client returns an output file.  In the example a file of three bytes is
    stored by the client. *)
Lemma bar_in_conversion_type :
  let bar (content : bytes) := lit "png2jpg|" ++ str_of_int (len content) in
  (forall content, conversion_handlers !! bar content = None)
  /\ (forall (wc ws : world) (cfs sfs : gmap pystr bytes) (content : bytes),
        let r := exchange wc ws cfs sfs (lit "in/a.png") (bar content) None in
        cfs !! lit "in/a.png" = Some content ->
        len content < 2 ^ 32 ->
        w_int ws (str_of_int (len content)) = inr (len content) ->
        w_open_wb ws (join (w_temp_dir ws) (lit "a.png")) = None ->
        (forall p, w_open_wb wc p = None) ->
        match w_pil_jpg ws (Some content) with
        | inl msg => r.2.1 = Ok (Failed (Exn LibraryError msg))
        | inr out =>
            len out < 2 ^ 64 ->
            r.2.1 = Ok Completed
            /\ r.1.1
               = Ok [unique_path (join (w_cwd wc) (lit "converted_files"))
                                 (strftime (w_now wc)) (lit "converted.jpg")]
        end)
  /\ (let cfs : gmap pystr bytes := {[ lit "in/a.png" := [x01; x02; x03] ]} in
      let r := exchange demo_world demo_world cfs ∅
                        (lit "in/a.png") (lit "png2jpg|3") None in
      bar [x01; x02; x03] = lit "png2jpg|3"
      /\ r.2.1 = Ok Completed
      /\ r.1.1
         = Ok [lit "/home/user/converted_files/converted_20240105_090307.jpg"]
      /\ fs r.1.2
           !! lit "/home/user/converted_files/converted_20240105_090307.jpg"
         = Some [x01; x02; x03]).
Proof.
  intros bar. split; [|split].
  - intros content. subst bar. cbn beta.
    change (lit "png2jpg|") with (lit "png2jpg" ++ lit "|").
    rewrite <- app_assoc. apply bar_not_registered.
  - intros wc ws cfs sfs content. apply bar_exchange.
  - vm_compute. repeat split; reflexivity.
Qed.
